(** * jup-hedge: relay client, confirmation poller and Drift builders

    A shallow embedding of
      - the Jito client held in [src/utils/transfer.ts] (tip transaction,
        relay client, poller, [submitAndConfirmBundle]),
      - the Drift builders held in [src/hooks/useDriftShort.ts]
        ([buildDriftShortInstructions], [buildDriftShortTransaction],
        [buildDriftDepositTransaction]),
      - the hook [useDriftShort] of the same file ([buildShort],
        [buildDeposit]),
      - the token transfer builder of [src/utils/transfer.ts] with
        [toBaseUnits] of [src/utils/jupiter.ts], and the hooks
        [useTokenTransfer] and [useJupiterSwap],
    together with the properties the specification states about them and
    further properties read off the code.

    Conventions.  Asynchronous code runs on a single thread and every
    [await] is a suspension point only, so a call is modelled as a state
    transformer that may throw.  The state carries the wall clock read by
    [Date.now()], in milliseconds, and the chronological trace of the
    effects performed: a request takes the time the outside world takes to
    answer it, an awaited timer takes its delay, everything else takes none.
    Values that arrive over the network are untyped at run time, so they are
    modelled as JSON values with JavaScript's own truthiness and property
    access.  A loop that may run for ever takes a bound on its iterations.
    Console output has no influence on control flow and is left out. *)

From Stdlib Require Import ZArith NArith List String Ascii Bool Lia QArith Qround.
From Stdlib Require Import DecimalString.
From Stdlib Require PrimFloat FloatOps SpecFloat Uint63.
Import ListNotations.

Set Warnings "-register-all".
Local Open Scope string_scope.
Local Open Scope Z_scope.

(** ** JavaScript values received from the network *)

Module Js.

(** A parsed JSON document.  Numbers are restricted to integers; an object
    is an association list whose first binding of a key is the effective
    one.  [undefined] is not a JSON value: an optional [json] stands for a
    JavaScript value, [None] being [undefined]. *)
Inductive json : Type :=
| JNull
| JBool (b : bool)
| JNum (n : Z)
| JStr (s : string)
| JArr (items : list json)
| JObj (fields : list (string * json)).

Definition value := option json.

(** [ToBoolean]: [undefined], [null], [false], [0] and the empty string are
    falsy, every array and object is truthy. *)
Definition truthy (v : value) : bool :=
  match v with
  | None => false
  | Some JNull => false
  | Some (JBool b) => b
  | Some (JNum n) => negb (n =? 0)
  | Some (JStr s) => negb (String.eqb s EmptyString)
  | Some (JArr _) => true
  | Some (JObj _) => true
  end.

Fixpoint assoc (k : string) (fields : list (string * json)) : value :=
  match fields with
  | [] => None
  | (k', v) :: rest => if String.eqb k k' then Some v else assoc k rest
  end.

(** [v.k] for a non-nullish [v] and a key [k] that is not a built-in
    property of strings or arrays (all keys read by the code are of this
    kind): only objects have it. *)
Definition prop (v : json) (k : string) : value :=
  match v with
  | JObj fields => assoc k fields
  | _ => None
  end.

(** [v?.k] *)
Definition opt_prop (v : value) (k : string) : value :=
  match v with
  | None | Some JNull => None
  | Some o => prop o k
  end.

(** [v[i]] for a non-nullish [v] and a non-negative integer [i]. *)
Definition index (v : json) (i : nat) : value :=
  match v with
  | JArr items => nth_error items i
  | JStr s => match String.get i s with
              | Some c => Some (JStr (String c EmptyString))
              | None => None
              end
  | JObj fields => assoc (NilZero.string_of_uint (Nat.to_uint i)) fields
  | _ => None
  end.

(** [v.length] for a non-nullish [v]. *)
Definition length_of (v : json) : value :=
  match v with
  | JArr items => Some (JNum (Z.of_nat (List.length items)))
  | JStr s => Some (JNum (Z.of_nat (String.length s)))
  | JObj fields => assoc "length" fields
  | _ => None
  end.

(** [a === b] against a string literal. *)
Definition strict_eq_str (v : value) (lit : string) : bool :=
  match v with
  | Some (JStr s) => String.eqb s lit
  | _ => false
  end.

(** [a || b] *)
Definition or_else (a : value) (b : json) : json :=
  match a with
  | Some v => if truthy a then v else b
  | None => b
  end.

Definition decimal (n : Z) : string := NilZero.string_of_int (Z.to_int n).

(** [String(v)], also the conversion done by a template literal. *)
Fixpoint to_String (v : json) : string :=
  match v with
  | JNull => "null"
  | JBool true => "true"
  | JBool false => "false"
  | JNum n => decimal n
  | JStr s => s
  | JArr items =>
      (fix join (l : list json) : string :=
         match l with
         | [] => EmptyString
         | x :: rest =>
             let sx := match x with JNull => EmptyString | _ => to_String x end in
             match rest with
             | [] => sx
             | _ :: _ => sx ++ "," ++ join rest
             end
         end) items
  | JObj _ => "[object Object]"
  end.

Definition String_of (v : value) : string :=
  match v with
  | None => "undefined"
  | Some j => to_String j
  end.

(** *** [JSON.stringify] *)

Definition dquote : ascii := ascii_of_nat 34.
Definition backslash : ascii := ascii_of_nat 92.

Definition hex_digit (n : nat) : ascii :=
  match String.get n "0123456789abcdef" with
  | Some c => c
  | None => "0"%char
  end.

Definition quote_char (c : ascii) : string :=
  let n := nat_of_ascii c in
  if Nat.eqb n 34 then String backslash (String dquote EmptyString)
  else if Nat.eqb n 92 then String backslash (String backslash EmptyString)
  else if Nat.eqb n 8 then String backslash "b"
  else if Nat.eqb n 12 then String backslash "f"
  else if Nat.eqb n 10 then String backslash "n"
  else if Nat.eqb n 13 then String backslash "r"
  else if Nat.eqb n 9 then String backslash "t"
  else if Nat.ltb n 32 then
    String backslash
      ("u00" ++ String (hex_digit (Nat.div n 16))
                  (String (hex_digit (Nat.modulo n 16)) EmptyString))
  else String c EmptyString.

Fixpoint quote_body (s : string) : string :=
  match s with
  | EmptyString => EmptyString
  | String c rest => quote_char c ++ quote_body rest
  end.

Definition quote (s : string) : string :=
  String dquote (quote_body s ++ String dquote EmptyString).

Fixpoint JSON_stringify (v : json) : string :=
  match v with
  | JNull => "null"
  | JBool true => "true"
  | JBool false => "false"
  | JNum n => decimal n
  | JStr s => quote s
  | JArr items =>
      "[" ++
      (fix elems (l : list json) : string :=
         match l with
         | [] => EmptyString
         | x :: rest =>
             match rest with
             | [] => JSON_stringify x
             | _ :: _ => JSON_stringify x ++ "," ++ elems rest
             end
         end) items ++ "]"
  | JObj fields =>
      "{" ++
      (fix members (l : list (string * json)) : string :=
         match l with
         | [] => EmptyString
         | (k, x) :: rest =>
             match rest with
             | [] => quote k ++ ":" ++ JSON_stringify x
             | _ :: _ => quote k ++ ":" ++ JSON_stringify x ++ "," ++ members rest
             end
         end) fields ++ "}"
  end.

(** *** Exceptions and results *)

(** What a [throw] carries: an [Error] object with its message, or any other
    value. *)
Inductive exn : Type :=
| JsError (message : string)
| JsThrown (v : json).

(** [error instanceof Error ? error.message : String(error)] *)
Definition exn_message (e : exn) : string :=
  match e with
  | JsError m => m
  | JsThrown v => to_String v
  end.

Inductive outcome (A : Type) : Type :=
| Ret (a : A)
| Throw (e : exn).
Arguments Ret {A} a.
Arguments Throw {A} e.

(** [xs.map(f)] for an [f] that may throw: the elements are mapped in order
    and the first call that throws ends the map. *)
Fixpoint map_outcome {A B : Type} (f : A -> outcome B) (l : list A) : outcome (list B) :=
  match l with
  | [] => Ret []
  | x :: rest =>
      match f x with
      | Throw e => Throw e
      | Ret y =>
          match map_outcome f rest with
          | Throw e => Throw e
          | Ret ys => Ret (y :: ys)
          end
      end
  end.

(** Reading a property of [null] or [undefined] is a [TypeError]. *)
Definition member (v : value) (k : string) : outcome value :=
  match v with
  | None =>
      Throw (JsError ("Cannot read properties of undefined (reading '" ++ k ++ "')"))
  | Some JNull =>
      Throw (JsError ("Cannot read properties of null (reading '" ++ k ++ "')"))
  | Some o => Ret (prop o k)
  end.

End Js.
Import Js.

(** ** Effects: clock, trace and the outside world *)

Inductive event : Type :=
| EvPost (url : string) (body : json)   (* an HTTP POST carrying a JSON body *)
| EvSleep (ms : Z)                      (* an awaited [setTimeout] *)
| EvTimer (ms : Z)                      (* a [setTimeout] nobody waits for *)
| EvBlockhash (commitment : string)     (* [connection.getLatestBlockhash] *)
| EvNewClient (id : nat)                (* [new DriftClient(..)] *)
| EvSubscribe (id : nat)                (* [driftClient.subscribe()] *)
| EvUnsubscribe (id : nat).             (* [driftClient.unsubscribe()] *)

Record state : Type := { now : Z; trace : list event }.

(** What the outside answers to a request, and after how long. *)
Record reply (A : Type) : Type := { latency : N; answer : outcome A }.
Arguments latency {A} r.
Arguments answer {A} r.

(** The outside world decides every answer from the history so far, the
    clock included.  [random] is the numerator of [Math.random()] over
    [2^53]. *)
Record world : Type := {
  respond : state -> string -> json -> reply json;
  latest_blockhash : state -> string -> reply string;
  random : state -> N
}.

(** A computation over a store [S] that returns or throws; the store
    survives a throw, as it does in JavaScript. *)
Definition ST (S A : Type) : Type := S -> outcome A * S.

Definition ret {S A} (a : A) : ST S A := fun s => (Ret a, s).
Definition throw {S A} (e : exn) : ST S A := fun s => (Throw e, s).
Definition lift {S A} (o : outcome A) : ST S A := fun s => (o, s).

Definition bind {S A B} (c : ST S A) (k : A -> ST S B) : ST S B :=
  fun s =>
    match c s with
    | (Ret a, s') => k a s'
    | (Throw e, s') => (Throw e, s')
    end.

Definition try_catch {S A} (c : ST S A) (handler : exn -> ST S A) : ST S A :=
  fun s =>
    match c s with
    | (Ret a, s') => (Ret a, s')
    | (Throw e, s') => handler e s'
    end.

Notation "x <- c ;; k" := (bind c (fun x => k))
  (at level 61, c at next level, right associativity).
Notation "c ;;; k" := (bind c (fun _ => k))
  (at level 61, right associativity).

Definition M (A : Type) : Type := ST state A.

Definition record (e : event) (s : state) : state :=
  {| now := now s; trace := trace s ++ [e] |}.

Definition advance (d : Z) (s : state) : state :=
  {| now := now s + d; trace := trace s |}.

(** [await new Promise(resolve => setTimeout(resolve, ms))]: a negative
    delay counts as none. *)
Definition sleep (ms : Z) : M unit :=
  fun s => (Ret tt, advance (Z.max 0 ms) (record (EvSleep ms) s)).

(** [setTimeout(() => {}, ms)] without [await]. *)
Definition set_timeout_noop (ms : Z) : M unit :=
  fun s => (Ret tt, record (EvTimer ms) s).

(** ** Solana data *)

Record PublicKey : Type := { bn : N }.

Inductive TransactionInstruction : Type :=
| ComputeBudget_setComputeUnitLimit (units : Z)
| ComputeBudget_setComputeUnitPrice (microLamports : Z)
| SystemProgram_transfer (fromPubkey toPubkey : PublicKey) (lamports : Z)
| Raw (programId : PublicKey) (keys : list PublicKey) (data : list Z).

(** [new VersionedTransaction(new TransactionMessage({..}).compileToV0Message())]
    carries no signature yet. *)
Record VersionedTransaction : Type := {
  payerKey : PublicKey;
  recentBlockhash : string;
  instructions : list TransactionInstruction;
  signatures : list string
}.

Definition unsigned (payer : PublicKey) (blockhash : string)
    (ixs : list TransactionInstruction) : VersionedTransaction :=
  {| payerKey := payer; recentBlockhash := blockhash;
     instructions := ixs; signatures := [] |}.

(** ** The Jito client *)

Module Jito.

Definition DEFAULT_TIP_LAMPORTS : Z := 10000.

(** "Minimum tip: 1,000 lamports" (README, Jito Bundle Requirements). *)
Definition MINIMUM_TIP_LAMPORTS : Z := 1000.

(** Declared by the source and read by none of its functions. *)
Definition JITO_TIP_ACCOUNTS : list string :=
  [ "96gYZGLnJYVFmbjzopPSU6QiEV5fGqZNyN9nmNhvrZU5";
    "HFqU5x63VTqvQss8hp11i4bVmkdzGzXYPG3KFdtj6nj";
    "Cw8CFyM9FkoMi7K7Crf6HNQqf4uEMzpKw6QNghXLvLkY";
    "ADaUMid9yfUytqMBgopwjb2DTLSokTSzL1zt6iGPaS49";
    "DfXygSm4jCyNCybVYYK6DwvWqjKee8pbDmJGcLWNDXjh";
    "ADuUkR4vqLUMWXxW9gh6D6L8pMSawimctcNZ5pGwDcEt";
    "DttWaMuVvTiduZRnguLF7jNxTgiMBZ1hyAumKUiL2KRL";
    "3AVi9Tg9Uo68tJfuvoKvqKNWKkC5wPdSSdeBnizKZ6jT" ].

Definition AMSTERDAM_TIP_ACCOUNTS : string :=
  "https://amsterdam.mainnet.block-engine.jito.wtf/api/v1/getTipAccounts".
Definition AMSTERDAM_BUNDLES : string :=
  "https://amsterdam.mainnet.block-engine.jito.wtf/api/v1/bundles".
Definition AMSTERDAM_BUNDLE_STATUSES : string :=
  "https://amsterdam.mainnet.block-engine.jito.wtf/api/v1/getBundleStatuses".
Definition AMSTERDAM_INFLIGHT_STATUSES : string :=
  "https://amsterdam.mainnet.block-engine.jito.wtf/api/v1/getInflightBundleStatuses".
Definition TOKYO_BUNDLES : string :=
  "https://tokyo.mainnet.block-engine.jito.wtf/api/v1/bundles".
Definition TOKYO_BUNDLE_STATUSES : string :=
  "https://tokyo.mainnet.block-engine.jito.wtf/api/v1/getBundleStatuses".

(** The JSON-RPC envelope of every request. *)
Definition rpc_body (method : string) (params : json) : json :=
  JObj [("jsonrpc", JStr "2.0"); ("id", JNum 1);
        ("method", JStr method); ("params", params)].

(** An array element that is [undefined] is serialised as [null]. *)
Definition element (v : value) : json :=
  match v with
  | Some j => j
  | None => JNull
  end.

Definition default {A} (d : A) (o : option A) : A :=
  match o with
  | Some a => a
  | None => d
  end.

Record JitoBundleResult : Type := {
  bundleId : value;
  success : bool;
  error : option string
}.

(** The amounts an instruction can encode. *)
Definition u64 (n : Z) : bool := (0 <=? n) && (n <? 2 ^ 64).

(** [Math.floor(Math.random() * len)], in exact arithmetic. *)
Definition random_index (r : N) (len : Z) : Z :=
  (Z.of_N (r mod 2 ^ 53) * len) / 2 ^ 53.

Section Client.

(** The outside world, and what the code takes from modules that are not
    part of the sources: the default endpoint of [JITO_ENDPOINTS], the wire
    form of a transaction ([Buffer.from(tx.serialize()).toString('base64')],
    where [serialize] may throw), the [PublicKey] constructor, the coercions
    JavaScript applies when a plain object is read like an array, and what
    [SystemProgram.transfer] does with an amount that is no unsigned 64-bit
    integer: the error it throws, if it throws. *)
Variable net : world.
Variable JITO_ENDPOINTS_AMSTERDAM : string.
Variable serialize_base64 : VersionedTransaction -> outcome string.
Variable new_PublicKey : value -> outcome PublicKey.
Variable object_entry : list (string * json) -> N -> value.
Variable transfer_refused : Z -> option exn.

(** [fetch(url, {method: 'POST', body})] followed by [response.json()], and
    [axios.post(url, body)] followed by [response.data]. *)
Definition http_post (url : string) (body : json) : M json :=
  fun s =>
    let r := respond net s url body in
    (answer r, advance (Z.of_N (latency r)) (record (EvPost url body) s)).

Definition getTipAccounts (endpoint : option string) : M value :=
  let endpoint := default AMSTERDAM_TIP_ACCOUNTS endpoint in
  data <- http_post endpoint (rpc_body "getTipAccounts" (JArr [])) ;;
  err <- lift (member (Some data) "error") ;;
  if truthy err
  then throw (JsError ("getTipAccounts failed: " ++ String_of (opt_prop err "message")))
  else sleep 1000 ;;; ret (prop data "result").

(** [addresses[Math.floor(Math.random() * addresses.length)]] *)
Definition random_entry (addresses : value) (r : N) : outcome value :=
  match addresses with
  | None => Throw (JsError "Cannot read properties of undefined (reading 'length')")
  | Some JNull => Throw (JsError "Cannot read properties of null (reading 'length')")
  | Some (JObj fields) => Ret (object_entry fields r)
  | Some a =>
      match length_of a with
      | Some (JNum len) => Ret (index a (Z.to_nat (random_index r len)))
      | _ => Ret None
      end
  end.

Definition getRandomTipAccount : M PublicKey :=
  addresses <- getTipAccounts None ;;
  set_timeout_noop 1000 ;;;
  chosen <- (fun s => (random_entry addresses (random net s), s)) ;;
  lift (new_PublicKey chosen).

(** [connection.getLatestBlockhash(commitment)], destructured to its
    [blockhash]. *)
Definition getLatestBlockhash (commitment : string) : M string :=
  fun s =>
    let r := latest_blockhash net s commitment in
    (answer r, advance (Z.of_N (latency r)) (record (EvBlockhash commitment) s)).

Definition createTipTransaction (payerPubkey : PublicKey)
    (tipLamports : option Z) (_endpoint : option string)
    : M VersionedTransaction :=
  let tipLamports := default DEFAULT_TIP_LAMPORTS tipLamports in
  let _endpoint := default JITO_ENDPOINTS_AMSTERDAM _endpoint in
  tipAccount <- getRandomTipAccount ;;
  blockhash <- getLatestBlockhash "confirmed" ;;
  match (if u64 tipLamports then None else transfer_refused tipLamports) with
  | Some e => throw e
  | None =>
      let tipInstruction := SystemProgram_transfer payerPubkey tipAccount tipLamports in
      ret (unsigned payerPubkey blockhash [tipInstruction])
  end.

Definition sendBundle (transactions : list VersionedTransaction)
    (endpoint : option string) : M value :=
  let endpoint := default JITO_ENDPOINTS_AMSTERDAM endpoint in
  encodedTransactions <- lift (map_outcome serialize_base64 transactions) ;;
  data <- http_post AMSTERDAM_BUNDLES
            (rpc_body "sendBundle"
               (JArr [JArr (map JStr encodedTransactions);
                      JObj [("encoding", JStr "base64")]])) ;;
  err <- lift (member (Some data) "error") ;;
  if truthy err
  then throw (JsError ("sendBundle failed: " ++ String_of (opt_prop err "message")))
  else ret (prop data "result").

Definition getBundleStatuses (bundleIds : list value)
    (endpoint : option string) : M json :=
  let endpoint := default JITO_ENDPOINTS_AMSTERDAM endpoint in
  data <- http_post AMSTERDAM_BUNDLE_STATUSES
            (rpc_body "getBundleStatuses" (JArr [JArr (map element bundleIds)])) ;;
  err <- lift (member (Some data) "error") ;;
  if truthy err
  then throw (JsError ("getBundleStatuses failed: " ++ String_of (opt_prop err "message")))
  else ret (or_else (opt_prop (prop data "result") "value") (JArr [])).

Definition getBundleInflightStatuses (bundleIds : list value)
    (endpoint : option string) : M json :=
  let endpoint := default JITO_ENDPOINTS_AMSTERDAM endpoint in
  data <- http_post AMSTERDAM_INFLIGHT_STATUSES
            (rpc_body "getInflightBundleStatuses" (JArr [JArr (map element bundleIds)])) ;;
  err <- lift (member (Some data) "error") ;;
  if truthy err
  then throw (JsError ("getInflightBundleStatuses failed: "
                       ++ String_of (opt_prop err "message")))
  else ret (or_else (opt_prop (prop data "result") "value") (JArr [])).

Definition landed_result (bundleId : value) : JitoBundleResult :=
  {| bundleId := bundleId; success := true; error := None |}.

Definition failed_result (bundleId : value) (err : json) : JitoBundleResult :=
  {| bundleId := bundleId; success := false; error := Some (JSON_stringify err) |}.

Definition timeout_result (bundleId : value) : JitoBundleResult :=
  {| bundleId := bundleId; success := false;
     error := Some "Bundle confirmation timeout" |}.

(** The decision taken on [statuses[0]] once both queries have returned:
    [Some r] is [return r], [None] falls through to the next poll. *)
Definition inspect (bundleId : value) (statuses : json) : option JitoBundleResult :=
  let status := index statuses 0 in
  if truthy status then
    if strict_eq_str (opt_prop status "confirmation_status") "confirmed"
       || strict_eq_str (opt_prop status "confirmation_status") "finalized"
    then Some (landed_result bundleId)
    else
      match opt_prop status "err" with
      | Some err => if truthy (Some err) then Some (failed_result bundleId err) else None
      | None => None
      end
  else None.

(** The body of the [try] block of one loop iteration. *)
Definition poll_try (bundleId : value) (endpoint : option string)
    : M (option JitoBundleResult) :=
  statuses <- getBundleStatuses [bundleId] endpoint ;;
  sleep 1000 ;;;
  inflightStatuses <- getBundleInflightStatuses [bundleId] endpoint ;;
  sleep 1000 ;;;
  ret (inspect bundleId statuses).

(** [try { .. } catch (error) { console.warn(..) }]: whatever is thrown is
    dropped and the iteration goes on to its closing delay. *)
Definition poll_attempt (bundleId : value) (endpoint : option string)
    (s : state) : option JitoBundleResult * state :=
  match poll_try bundleId endpoint s with
  | (Ret r, s1) => (r, s1)
  | (Throw _, s1) => (None, s1)
  end.

(** [while (Date.now() - startTime < timeoutMs) { .. }].  [fuel] bounds the
    number of iterations; [None] means the bound was reached first. *)
Fixpoint poll_loop (fuel : nat) (bundleId : value) (endpoint : option string)
    (timeoutMs pollIntervalMs startTime : Z) (s : state)
    : option (JitoBundleResult * state) :=
  if now s - startTime <? timeoutMs then
    match fuel with
    | O => None
    | S fuel' =>
        match poll_attempt bundleId endpoint s with
        | (Some r, s1) => Some (r, s1)
        | (None, s1) =>
            poll_loop fuel' bundleId endpoint timeoutMs pollIntervalMs startTime
              (snd (sleep pollIntervalMs s1))
        end
    end
  else Some (timeout_result bundleId, s).

Definition waitForBundleConfirmation (fuel : nat) (bundleId : value)
    (endpoint : option string) (timeoutMs pollIntervalMs : option Z) (s : state)
    : option (JitoBundleResult * state) :=
  let endpoint' := Some (default JITO_ENDPOINTS_AMSTERDAM endpoint) in
  let timeoutMs := default 60000 timeoutMs in
  let pollIntervalMs := default 2000 pollIntervalMs in
  let startTime := now s in
  poll_loop fuel bundleId endpoint' timeoutMs pollIntervalMs startTime s.

Definition submitAndConfirmBundle (fuel : nat)
    (transactions : list VersionedTransaction) (timeoutMs : option Z) (s : state)
    : option (JitoBundleResult * state) :=
  let timeoutMs := default 600000 timeoutMs in
  match sendBundle transactions (Some TOKYO_BUNDLES) s with
  | (Ret bundleId, s1) =>
      waitForBundleConfirmation fuel bundleId (Some TOKYO_BUNDLE_STATUSES)
        (Some timeoutMs) None s1
  | (Throw e, s1) =>
      Some ({| bundleId := Some (JStr EmptyString); success := false;
               error := Some (exn_message e) |}, s1)
  end.

End Client.
End Jito.

(** ** The Drift builders and the [useDriftShort] hook *)

Module Drift.

Import Jito.

Inductive OrderType : Type := MARKET | LIMIT.
Inductive MarketType : Type := PERP | SPOT.
Inductive PositionDirection : Type := LONG | SHORT.

Record OrderParams : Type := {
  orderType : OrderType;
  marketType : MarketType;
  marketIndex : Z;
  direction : PositionDirection;
  baseAssetAmount : Z;
  price : Z
}.

(** A client object is known by the moment of its construction; it keeps the
    public key of the wallet it was built for. *)
Record DriftClient : Type := { client_id : nat; wallet_publicKey : PublicKey }.

(** The Drift SDK and the token library, as far as the builders call them.
    Every answer may depend on the history; [Some e] and [Throw e] stand for
    a call that throws [e].  A JavaScript number is an exact rational here,
    and [new_BN] is the [BN] constructor applied to one. *)
Record Sdk : Type := {
  MainnetPerpMarkets : list (string * Z);
  BASE_PRECISION : Z;
  new_BN : Q -> outcome Z;
  construct : state -> option exn;
  subscribe : state -> DriftClient -> option exn;
  unsubscribe : state -> DriftClient -> option exn;
  getUser : state -> DriftClient -> Z -> option exn;
  getInitializeUserAccountIxs :
    state -> DriftClient -> Z -> outcome (list TransactionInstruction);
  getDepositInstruction :
    state -> DriftClient -> Z -> Z -> PublicKey -> Z -> bool -> bool ->
    outcome TransactionInstruction;
  getOracleDataForPerpMarket : state -> DriftClient -> Z -> outcome (option Z);
  getPlacePerpOrderIx :
    state -> DriftClient -> OrderParams -> Z -> outcome TransactionInstruction;
  getAssociatedTokenAddress : state -> PublicKey -> PublicKey -> outcome PublicKey
}.

(** [useWallet()]: the key and whether the two signing functions are there. *)
Record Wallet : Type := {
  publicKey : option PublicKey;
  signTransaction : bool;
  signAllTransactions : bool
}.

Inductive OperationState : Type :=
| Idle
| Loading
| Success (data : VersionedTransaction)
| Error (message : string).

(** What lives as long as the hook: the [useRef] cell, the [useState] cell,
    and the clock and trace shared with everything else. *)
Record hook : Type := {
  driftClientRef : option DriftClient;
  op_state : OperationState;
  sys : state
}.

Definition in_sys {A} (c : M A) : ST hook A :=
  fun h =>
    let (o, s) := c (sys h) in
    (o, {| driftClientRef := driftClientRef h; op_state := op_state h; sys := s |}).

Definition setState (st : OperationState) : ST hook unit :=
  fun h =>
    (Ret tt, {| driftClientRef := driftClientRef h; op_state := st; sys := sys h |}).

Definition set_ref (c : option DriftClient) : ST hook unit :=
  fun h => (Ret tt, {| driftClientRef := c; op_state := op_state h; sys := sys h |}).

Definition get_ref : ST hook (option DriftClient) :=
  fun h => (Ret (driftClientRef h), h).

(** A read of the SDK: it leaves clock and trace alone. *)
Definition ask {A} (f : state -> outcome A) : M A := fun s => (f s, s).

Definition raise_if (f : state -> option exn) : M unit :=
  fun s => match f s with
           | Some e => (Throw e, s)
           | None => (Ret tt, s)
           end.

(** [depositAmount && depositAmount > 0] *)
Definition deposit_requested (depositAmount : option Q) : bool :=
  match depositAmount with
  | Some q => negb (Qeq_bool q 0) && negb (Qle_bool q 0)
  | None => false
  end.

(** Truthiness of an optional number. *)
Definition number_truthy (x : option Q) : bool :=
  match x with
  | Some q => negb (Qeq_bool q 0)
  | None => false
  end.

Section Builders.

(** The SDK, the connection, and the two constants the builders take from
    the project's [types] module, which is not part of the sources:
    [new PublicKey(TOKEN_ADDRESS.USDC)] and [DRIFT_SPOT_MARKETS.USDC]. *)
Variable sdk : Sdk.
Variable net : world.
Variable usdc_mint : outcome PublicKey.
Variable DRIFT_SPOT_MARKETS_USDC : Z.

Definition getPerpMarketIndex (marketName : string) : outcome Z :=
  match find (fun m => String.eqb (fst m) marketName) (MainnetPerpMarkets sdk) with
  | Some market => Ret (snd market)
  | None => Throw (JsError ("Market " ++ marketName ++ " not found"))
  end.

Definition initializeDriftClient (wallet : PublicKey) : M DriftClient :=
  raise_if (construct sdk) ;;;
  driftClient <- (fun s =>
    let c := {| client_id := List.length (trace s); wallet_publicKey := wallet |} in
    (Ret c, record (EvNewClient (client_id c)) s)) ;;
  (fun s =>
     (match subscribe sdk s driftClient with
      | Some e => Throw e
      | None => Ret tt
      end, record (EvSubscribe (client_id driftClient)) s)) ;;;
  sleep 2000 ;;;
  ret driftClient.

Definition cleanupDriftClient (driftClient : DriftClient) : M unit :=
  fun s =>
    (match unsubscribe sdk s driftClient with
     | Some e => Throw e
     | None => Ret tt
     end, record (EvUnsubscribe (client_id driftClient)) s).

(** The [try { getUser } catch { .. }] shared by the builders: whether the
    user account is there, and the initialisation instructions when not. *)
Definition ensure_user (driftClient : DriftClient) (subAccountId : Z)
    : M (bool * list TransactionInstruction) :=
  fun s =>
    match getUser sdk s driftClient subAccountId with
    | None => (Ret (true, []), s)
    | Some _ =>
        match getInitializeUserAccountIxs sdk s driftClient subAccountId with
        | Ret initIxs => (Ret (false, initIxs), s)
        | Throw e => (Throw e, s)
        end
    end.

Definition million : Q := 1000000 # 1.

Definition buildDepositInstruction (driftClient : DriftClient) (usdcAmount : Q)
    (subAccountId : option Z) (userInitialized : option bool)
    : M TransactionInstruction :=
  let subAccountId := default 0 subAccountId in
  let userInitialized := default true userInitialized in
  amount <- lift (new_BN sdk (usdcAmount * million)%Q) ;;
  let spotMarketIndex := DRIFT_SPOT_MARKETS_USDC in
  usdcMint <- lift usdc_mint ;;
  userTokenAccount <-
    ask (fun s => getAssociatedTokenAddress sdk s usdcMint (wallet_publicKey driftClient)) ;;
  ask (fun s => getDepositInstruction sdk s driftClient amount spotMarketIndex
                  userTokenAccount subAccountId false userInitialized).

Definition buildDriftShortInstructions (driftClient : DriftClient)
    (marketIndex : Z) (baseAssetAmount : Q) (depositAmount : option Q)
    (subAccountId : option Z) : M (list TransactionInstruction) :=
  let subAccountId := default 0 subAccountId in
  user <- ensure_user driftClient subAccountId ;;
  let userInitialized := fst user in
  let instructions := snd user in
  instructions <-
    (if deposit_requested depositAmount then
       amount <- lift (new_BN sdk (default 0%Q depositAmount * million)%Q) ;;
       let spotMarketIndex := DRIFT_SPOT_MARKETS_USDC in
       usdcMint <- lift usdc_mint ;;
       userTokenAccount <-
         ask (fun s => getAssociatedTokenAddress sdk s usdcMint
                         (wallet_publicKey driftClient)) ;;
       depositIx <-
         ask (fun s => getDepositInstruction sdk s driftClient amount spotMarketIndex
                         userTokenAccount subAccountId false
                         (userInitialized || (0 <? List.length instructions)%nat)) ;;
       ret (instructions ++ [depositIx])%list
     else ret instructions) ;;
  base <- lift (new_BN sdk baseAssetAmount) ;;
  let baseAmount := base * BASE_PRECISION sdk in
  oracleData <- ask (fun s => getOracleDataForPerpMarket sdk s driftClient marketIndex) ;;
  match oracleData with
  | None =>
      throw (JsError ("Unable to get oracle data for market index "
                      ++ decimal marketIndex
                      ++ ". Make sure DriftClient is subscribed."))
  | Some price =>
      let orderParams :=
        {| orderType := MARKET; marketType := PERP; marketIndex := marketIndex;
           direction := SHORT; baseAssetAmount := baseAmount;
           price := Z.quot (price * 95) 100 |} in
      shortIx <- ask (fun s => getPlacePerpOrderIx sdk s driftClient orderParams
                                 subAccountId) ;;
      ret (instructions ++ [shortIx])%list
  end.

Definition buildDriftDepositTransaction (userPublicKey : PublicKey)
    (driftClient : DriftClient) (usdcAmount : Q) (subAccountId : option Z)
    : M VersionedTransaction :=
  let subAccountId := default 0 subAccountId in
  user <- ensure_user driftClient subAccountId ;;
  let userInitialized := fst user in
  let instructions := snd user in
  depositIx <- buildDepositInstruction driftClient usdcAmount (Some subAccountId)
                 (Some (userInitialized || (0 <? List.length instructions)%nat)) ;;
  let instructions := (instructions ++ [depositIx])%list in
  let computeIx := ComputeBudget_setComputeUnitLimit 400000 in
  let priceIx := ComputeBudget_setComputeUnitPrice 1000 in
  blockhash <- getLatestBlockhash net "confirmed" ;;
  ret (unsigned userPublicKey blockhash ([computeIx; priceIx] ++ instructions)%list).

Definition buildDriftShortTransaction (userPublicKey : PublicKey)
    (driftClient : DriftClient) (marketName : string) (baseAssetAmount : Q)
    (depositAmount : option Q) (subAccountId : option Z)
    : M VersionedTransaction :=
  let subAccountId := default 0 subAccountId in
  marketIndex <- lift (getPerpMarketIndex marketName) ;;
  instructions <- buildDriftShortInstructions driftClient marketIndex baseAssetAmount
                    depositAmount (Some subAccountId) ;;
  let computeUnits := if number_truthy depositAmount then 800000 else 600000 in
  let computeIx := ComputeBudget_setComputeUnitLimit computeUnits in
  let priceIx := ComputeBudget_setComputeUnitPrice 1000 in
  blockhash <- getLatestBlockhash net "confirmed" ;;
  ret (unsigned userPublicKey blockhash ([computeIx; priceIx] ++ instructions)%list).

(** *** The hook *)

Variable wallet : Wallet.

(** The [catch] block of both builders. *)
Definition cleanup_on_error (error : exn) : ST hook (option VersionedTransaction) :=
  current <- get_ref ;;
  match current with
  | Some c => in_sys (cleanupDriftClient c) ;;; set_ref None
  | None => ret tt
  end ;;;
  setState (Error (exn_message error)) ;;;
  ret None.

Definition buildShort (marketName : string) (baseAssetAmount : Q)
    (depositAmount : option Q) (subAccountId : option Z)
    : ST hook (option VersionedTransaction) :=
  let subAccountId := default 0 subAccountId in
  match publicKey wallet with
  | Some publicKey =>
      if signTransaction wallet && signAllTransactions wallet then
        setState Loading ;;;
        try_catch
          (driftClient <- in_sys (initializeDriftClient publicKey) ;;
           set_ref (Some driftClient) ;;;
           transaction <- in_sys (buildDriftShortTransaction publicKey driftClient
                                    marketName baseAssetAmount depositAmount
                                    (Some subAccountId)) ;;
           in_sys (cleanupDriftClient driftClient) ;;;
           set_ref None ;;;
           setState (Success transaction) ;;;
           ret (Some transaction))
          cleanup_on_error
      else setState (Error "Wallet not connected") ;;; ret None
  | None => setState (Error "Wallet not connected") ;;; ret None
  end.

Definition buildDeposit (usdcAmount : Q) (subAccountId : option Z)
    : ST hook (option VersionedTransaction) :=
  let subAccountId := default 0 subAccountId in
  match publicKey wallet with
  | Some publicKey =>
      if signTransaction wallet && signAllTransactions wallet then
        setState Loading ;;;
        try_catch
          (driftClient <- in_sys (initializeDriftClient publicKey) ;;
           set_ref (Some driftClient) ;;;
           transaction <- in_sys (buildDriftDepositTransaction publicKey driftClient
                                    usdcAmount (Some subAccountId)) ;;
           in_sys (cleanupDriftClient driftClient) ;;;
           set_ref None ;;;
           setState (Success transaction) ;;;
           ret (Some transaction))
          cleanup_on_error
      else setState (Error "Wallet not connected") ;;; ret None
  | None => setState (Error "Wallet not connected") ;;; ret None
  end.

End Builders.
End Drift.


(** ** The token transfer builder and the two plain hooks *)

Module Token.

Import Jito.

(** The keys of the [decimals] table of [getTokenDecimals]. *)
Inductive TokenTicker : Type := SOL | USDC | JUP.

Definition ticker_name (token : TokenTicker) : string :=
  match token with
  | SOL => "SOL"
  | USDC => "USDC"
  | JUP => "JUP"
  end.

(** [decimals[token] ?? 9]: the table has every ticker, the fallback is
    never taken. *)
Definition getTokenDecimals (token : TokenTicker) : Z :=
  match token with
  | SOL => 9
  | USDC => 6
  | JUP => 6
  end.

(** A JavaScript number is an IEEE 754 double; its arithmetic is the
    kernel's binary64 arithmetic, rounding to nearest, ties to even. *)
Definition number : Set := PrimFloat.float.

(** The number that is the integer [z], for [0 <= z < 2^53]. *)
Definition number_of_Z (z : Z) : number := PrimFloat.of_uint63 (Uint63.of_Z z).

(** [Math.pow(10, decimals)] for the decimals of the table: the powers are
    integers below [2^53], so they are numbers as they are. *)
Definition Math_pow10 (decimals : Z) : number := number_of_Z (10 ^ decimals).

(** [Math.floor]: NaN, the infinities and the zeros are returned as they
    are, and so is a number whose unit in the last place is at least one. *)
Definition Math_floor (x : number) : number :=
  match FloatOps.Prim2SF x with
  | SpecFloat.S754_finite sign m e =>
      if 0 <=? e then x
      else
        let n := (if sign then Z.neg m else Z.pos m) / 2 ^ (- e) in
        if n <? 0 then PrimFloat.opp (number_of_Z (- n)) else number_of_Z n
  | _ => x
  end.

(** [Math.floor(amount * Math.pow(10, decimals))] *)
Definition toBaseUnits (amount : number) (token : TokenTicker) : number :=
  let decimals := getTokenDecimals token in
  Math_floor (PrimFloat.mul amount (Math_pow10 decimals)).

(** The integer a number is, if it is one: NaN, the infinities and the
    numbers with a fractional part are none. *)
Definition integer_value (x : number) : option Z :=
  match FloatOps.Prim2SF x with
  | SpecFloat.S754_zero _ => Some 0
  | SpecFloat.S754_finite sign m e =>
      let n := if sign then Z.neg m else Z.pos m in
      if 0 <=? e then Some (n * 2 ^ e)
      else if n mod 2 ^ (- e) =? 0 then Some (n / 2 ^ (- e)) else None
  | _ => None
  end.

(** What [getAccount] does: it returns the account, throws a
    [TokenAccountNotFoundError], or throws something else. *)
Inductive account_lookup : Type :=
| AccountFound
| AccountNotFound
| AccountError (e : exn).

(** The token library, as far as the builder calls it. *)
Record TokenLib : Type := {
  getAssociatedTokenAddress : state -> PublicKey -> PublicKey -> outcome PublicKey;
  getAccount : state -> PublicKey -> account_lookup;
  createTransferInstruction :
    PublicKey -> PublicKey -> PublicKey -> Z -> outcome TransactionInstruction;
  createAssociatedTokenAccountInstruction :
    PublicKey -> PublicKey -> PublicKey -> PublicKey -> TransactionInstruction
}.

Section Transfer.

(** The token library, the connection, the [PublicKey] constructor, the
    [TOKEN_ADDRESS] table of the project's [types] module, and the
    [RangeError] that [BigInt] throws for a number that is no integer, whose
    text is the engine's. *)
Variable lib : TokenLib.
Variable net : world.
Variable new_PublicKey : value -> outcome PublicKey.
Variable TOKEN_ADDRESS : TokenTicker -> option string.
Variable not_an_integer : number -> exn.

(** [BigInt(x)] *)
Definition BigInt (x : number) : outcome Z :=
  match integer_value x with
  | Some n => Ret n
  | None => Throw (not_an_integer x)
  end.

(** The [try { await getAccount(..) } catch (error) { .. }] of the builder:
    the instructions it leaves in [instructions]. *)
Definition ensure_destination (senderPublicKey destinationATA recipientPubkey
    mintPubkey : PublicKey) : M (list TransactionInstruction) :=
  fun s =>
    match getAccount lib s destinationATA with
    | AccountFound => (Ret [], s)
    | AccountNotFound =>
        (Ret [createAssociatedTokenAccountInstruction lib senderPublicKey
                destinationATA recipientPubkey mintPubkey], s)
    | AccountError e => (Throw e, s)
    end.

Definition buildTokenTransferTransaction (senderPublicKey : PublicKey)
    (token : TokenTicker) (recipientAddress : string) (amount : number)
    : M VersionedTransaction :=
  match TOKEN_ADDRESS token with
  | Some mintAddress =>
      if truthy (Some (JStr mintAddress)) then
        mintPubkey <- lift (new_PublicKey (Some (JStr mintAddress))) ;;
        recipientPubkey <- lift (new_PublicKey (Some (JStr recipientAddress))) ;;
        sourceATA <- (fun s => (getAssociatedTokenAddress lib s mintPubkey
                                  senderPublicKey, s)) ;;
        destinationATA <- (fun s => (getAssociatedTokenAddress lib s mintPubkey
                                       recipientPubkey, s)) ;;
        instructions <- ensure_destination senderPublicKey destinationATA
                          recipientPubkey mintPubkey ;;
        let transferAmount := toBaseUnits amount token in
        units <- lift (BigInt transferAmount) ;;
        transferIx <- lift (createTransferInstruction lib sourceATA destinationATA
                              senderPublicKey units) ;;
        let instructions := (instructions ++ [transferIx])%list in
        let computeIx := ComputeBudget_setComputeUnitLimit 100000 in
        let priceIx := ComputeBudget_setComputeUnitPrice 1000 in
        blockhash <- getLatestBlockhash net "confirmed" ;;
        ret (unsigned senderPublicKey blockhash
               ([computeIx; priceIx] ++ instructions)%list)
      else throw (JsError ("Unknown token: " ++ ticker_name token))
  | None => throw (JsError ("Unknown token: " ++ ticker_name token))
  end.

(** *** [useTokenTransfer] *)

(** The [useState] cell of the hook, and the clock and trace. *)
Record transfer_hook : Type := {
  transfer_state : Drift.OperationState;
  transfer_sys : state
}.

Variable publicKey : option PublicKey.

Definition set_transfer_state (st : Drift.OperationState) : ST transfer_hook unit :=
  fun h => (Ret tt, {| transfer_state := st; transfer_sys := transfer_sys h |}).

Definition in_transfer_sys {A} (c : M A) : ST transfer_hook A :=
  fun h =>
    let (o, s) := c (transfer_sys h) in
    (o, {| transfer_state := transfer_state h; transfer_sys := s |}).

Definition buildTransfer (token : TokenTicker) (recipient : string) (amount : number)
    : ST transfer_hook (option VersionedTransaction) :=
  match publicKey with
  | None => set_transfer_state (Drift.Error "Wallet not connected") ;;; ret None
  | Some publicKey =>
      set_transfer_state Drift.Loading ;;;
      try_catch
        (transaction <- in_transfer_sys
                          (buildTokenTransferTransaction publicKey token recipient
                             amount) ;;
         set_transfer_state (Drift.Success transaction) ;;;
         ret (Some transaction))
        (fun error =>
           set_transfer_state (Drift.Error (exn_message error)) ;;;
           ret None)
  end.

End Transfer.

(** *** [useJupiterSwap] *)

(** The three [useState] cells of the hook, and the clock and trace. *)
Record swap_hook : Type := {
  quote : option json;
  expectedOutput : option Q;
  swap_state : Drift.OperationState;
  swap_sys : state
}.

Section Swap.

(** [buildJupiterSwapTransaction], whose request to the quote service and
    decoding of the answer are left to the caller of this section; it yields
    the transaction and the expected output. *)
Variable buildJupiterSwapTransaction :
  PublicKey -> TokenTicker -> TokenTicker -> Q -> M (VersionedTransaction * Q).
Variable publicKey : option PublicKey.

Definition set_swap_state (st : Drift.OperationState) : ST swap_hook unit :=
  fun h => (Ret tt, {| quote := quote h; expectedOutput := expectedOutput h;
                       swap_state := st; swap_sys := swap_sys h |}).

Definition in_swap_sys {A} (c : M A) : ST swap_hook A :=
  fun h =>
    let (o, s) := c (swap_sys h) in
    (o, {| quote := quote h; expectedOutput := expectedOutput h;
           swap_state := swap_state h; swap_sys := s |}).

Definition buildSwap (inputToken outputToken : TokenTicker) (amount : Q)
    : ST swap_hook (option VersionedTransaction) :=
  match publicKey with
  | None => set_swap_state (Drift.Error "Wallet not connected") ;;; ret None
  | Some publicKey =>
      set_swap_state Drift.Loading ;;;
      try_catch
        (built <- in_swap_sys
                    (buildJupiterSwapTransaction publicKey inputToken outputToken
                       amount) ;;
         let transaction := fst built in
         set_swap_state (Drift.Success transaction) ;;;
         ret (Some transaction))
        (fun error =>
           set_swap_state (Drift.Error (exn_message error)) ;;;
           ret None)
  end.

(** [reset] of [useJupiterSwap]. *)
Definition reset_swap : ST swap_hook unit :=
  fun h => (Ret tt, {| quote := None; expectedOutput := None;
                       swap_state := Drift.Idle; swap_sys := swap_sys h |}).

End Swap.
End Token.

(** ** Vocabulary of the statements *)

Module Statements.

Import Jito.

(** The state right after a POST: the request is on the trace and the clock
    has moved by the latency of the answer. *)
Definition after_post (net : world) (url : string) (body : json) (s : state) : state :=
  advance (Z.of_N (latency (respond net s url body))) (record (EvPost url body) s).

(** The body of a submission, from the wire forms of the transactions. *)
Definition bundle_body (encodedTransactions : list string) : json :=
  rpc_body "sendBundle"
    (JArr [JArr (map JStr encodedTransactions);
           JObj [("encoding", JStr "base64")]]).

Definition statuses_body (bundleIds : list value) : json :=
  rpc_body "getBundleStatuses" (JArr [JArr (map element bundleIds)]).

Definition inflight_body (bundleIds : list value) : json :=
  rpc_body "getInflightBundleStatuses" (JArr [JArr (map element bundleIds)]).

(** The requests of a trace, in order. *)
Definition posts (t : list event) : list (string * json) :=
  flat_map (fun e => match e with
                     | EvPost url body => [(url, body)]
                     | _ => []
                     end) t.

(** One of the two queries of the iteration that starts in [s] throws. *)
Definition query_fails (net : world) (A : string) (bundleId : value)
    (endpoint : option string) (s : state) : Prop :=
  (exists e s1, getBundleStatuses net A [bundleId] endpoint s = (Throw e, s1))
  \/ (exists statuses s1 e s2,
        getBundleStatuses net A [bundleId] endpoint s = (Ret statuses, s1)
        /\ getBundleInflightStatuses net A [bundleId] endpoint (snd (sleep 1000 s1))
           = (Throw e, s2)).





End Statements.
Import Statements.

(** ** The claims read to the letter, and worlds to run the code in *)

Module Scenarios.

Import Jito.

Definition s0 : state := {| now := 0; trace := [] |}.

Definition bundle : value := Some (JStr "bundle-1").

(** A value for [JITO_ENDPOINTS.AMSTERDAM], the default endpoint. *)
Definition amsterdam : string := "https://amsterdam.mainnet.block-engine.jito.wtf".

Definition network_error : exn := JsError "Network Error".

(** A relay that gives every request the same answer after [lat] ms. *)
Definition steady (lat : N) (a : outcome json) : world :=
  {| respond := fun _ _ _ => {| latency := lat; answer := a |};
     latest_blockhash := fun _ _ => {| latency := 0; answer := Ret "blockhash" |};
     random := fun _ => 0%N |}.

(** A successful JSON-RPC response whose [result.value] is [slots]. *)
Definition value_response (slots : json) : json :=
  JObj [("jsonrpc", JStr "2.0");
        ("result", JObj [("context", JObj [("slot", JNum 1)]); ("value", slots)]);
        ("id", JNum 1)].

Definition error_response (message : string) : json :=
  JObj [("jsonrpc", JStr "2.0");
        ("error", JObj [("code", JNum (-32602)); ("message", JStr message)]);
        ("id", JNum 1)].

Definition unknown_bundle : json := value_response (JArr [JNull]).

Definition status_record (level : string) (err : json) : json :=
  JObj [("bundle_id", JStr "bundle-1"); ("confirmation_status", JStr level);
        ("err", err)].



(** A stand-in for the [PublicKey] constructor: a string is a key, anything
    else is refused. *)
Definition key_of_string (v : value) : outcome PublicKey :=
  match v with
  | Some (JStr s) => Ret {| bn := N.of_nat (String.length s) |}
  | _ => Throw (JsError "Invalid public key input")
  end.

Definition no_entry (fields : list (string * json)) (r : N) : value := None.

Definition payer : PublicKey := {| bn := 7 |}.

(** The relay publishes two tip accounts. *)
Definition tip_relay : world :=
  steady 0 (Ret (JObj [("result", JArr [JStr "tip-account-a"; JStr "tip-b"])])).

(** A wire form for the examples: the blockhash stands for the bytes, and a
    transaction of more than four instructions does not fit. *)
Definition wire (t : VersionedTransaction) : outcome string :=
  if (4 <? List.length (instructions t))%nat
  then Throw (JsError "encoding overruns Uint8Array")
  else Ret (recentBlockhash t).

(** A transaction that has a wire form, and one that has none. *)
Definition tip_transaction : VersionedTransaction :=
  unsigned payer "tip" [SystemProgram_transfer payer {| bn := 13 |} 10000].

Definition oversized : VersionedTransaction :=
  unsigned payer "big" (repeat (ComputeBudget_setComputeUnitPrice 1) 5).

(** The relay refuses with status 429: the HTTP client rejects the response
    and the code never sees its body. *)
Definition rate_limited : world :=
  steady 0 (Throw (JsError "Request failed with status code 429")).

(** [SystemProgram.transfer] throwing on every amount it cannot encode. *)
Definition strict_transfer (lamports : Z) : option exn :=
  Some (JsError "The value of lamports is out of range").


(** C2, to the letter: whenever the submission throws, the relay has
    answered with an error envelope, the failure that is returned carries
    the message of that envelope, and nothing is done after the throw. *)
Definition C2_as_stated : Prop :=
  forall (net : world) (A : string) (serialize_base64 : VersionedTransaction -> outcome string)
         (fuel : nat) (transactions : list VersionedTransaction)
         (timeoutMs : option Z) (s s1 : state) (e : exn),
    sendBundle net A serialize_base64 transactions (Some TOKYO_BUNDLES) s = (Throw e, s1) ->
    exists r s' encoded data prefix,
      submitAndConfirmBundle net A serialize_base64 fuel transactions timeoutMs s
      = Some (r, s')
      /\ success r = false
      /\ map_outcome serialize_base64 transactions = Ret encoded
      /\ answer (respond net s AMSTERDAM_BUNDLES (bundle_body encoded)) = Ret data
      /\ error r = Some (prefix ++ String_of (opt_prop (prop data "error") "message"))
      /\ trace s' = trace s1.

(** C4, to the letter. *)
Definition C4_as_stated : Prop :=
  forall (net : world) (A : string) (fuel : nat) (bundleId : value)
         (endpoint : option string) (timeoutMs pollIntervalMs : Z)
         (s s' : state) (r : JitoBundleResult),
    waitForBundleConfirmation net A fuel bundleId endpoint
      (Some timeoutMs) (Some pollIntervalMs) s = Some (r, s') ->
    now s' - now s <= timeoutMs + pollIntervalMs.

(** C6, to the letter: a transaction that is returned pays at least the
    floor. *)
Definition C6_as_stated : Prop :=
  forall (net : world) (A : string) (new_PublicKey : value -> outcome PublicKey)
         (object_entry : list (string * json) -> N -> value)
         (transfer_refused : Z -> option exn)
         (payerPubkey : PublicKey) (tipLamports : Z) (endpoint : option string)
         (s s' : state) (tx : VersionedTransaction),
    createTipTransaction net A new_PublicKey object_entry transfer_refused payerPubkey
      (Some tipLamports) endpoint s = (Ret tx, s') ->
    exists tipAccount lamports,
      instructions tx = [SystemProgram_transfer payerPubkey tipAccount lamports]
      /\ MINIMUM_TIP_LAMPORTS <= lamports.

(** C7, to the letter. *)
Definition C7_as_stated : Prop :=
  forall (net : world) (A : string) (bundleIds : list value)
         (endpoint : option string) (s s' : state) (statuses : json),
    getBundleStatuses net A bundleIds endpoint s = (Ret statuses, s') ->
    exists slots, statuses = JArr slots /\ List.length slots = List.length bundleIds.

End Scenarios.
Import Scenarios.

(** Worlds for the Drift builders. *)

Module DriftScenarios.

Import Drift.

Definition drift_program : PublicKey := {| bn := 99 |}.
Definition usdc : PublicKey := {| bn := 5 |}.

Definition release_failure : exn := JsError "unsubscribe failed".

(** An SDK that answers every read; [has_user] says whether the user account
    is loaded, [release] how [unsubscribe] behaves.  Instructions are told
    apart by their first data word: 0 and 1 initialise the user, 2 deposits,
    3 places the order. *)
Definition test_sdk (has_user : bool) (release : state -> DriftClient -> option exn)
    : Sdk :=
  {| MainnetPerpMarkets := [("SOL-PERP", 0); ("JUP-PERP", 24)];
     BASE_PRECISION := 10 ^ 9;
     new_BN := fun q => Ret (Qfloor q);
     construct := fun _ => None;
     subscribe := fun _ _ => None;
     unsubscribe := release;
     getUser := fun _ _ _ =>
       if has_user then None else Some (JsError "DriftClient has no user");
     getInitializeUserAccountIxs := fun _ _ _ =>
       Ret [Raw drift_program [] [0]; Raw drift_program [] [1]];
     getDepositInstruction := fun _ _ amount market account sub _ _ =>
       Ret (Raw drift_program [account] [2; amount; market; sub]);
     getOracleDataForPerpMarket := fun _ _ _ => Ret (Some 100);
     getPlacePerpOrderIx := fun _ _ params sub =>
       Ret (Raw drift_program []
              [3; marketIndex params; baseAssetAmount params; price params; sub]);
     getAssociatedTokenAddress := fun _ mint owner =>
       Ret {| bn := bn mint + bn owner |} |}.

Definition releases : state -> DriftClient -> option exn := fun _ _ => None.
Definition never_releases : state -> DriftClient -> option exn :=
  fun _ _ => Some release_failure.

(** An SDK whose client cannot even be constructed. *)
Definition unreachable_sdk : Sdk :=
  {| MainnetPerpMarkets := [];
     BASE_PRECISION := 10 ^ 9;
     new_BN := fun q => Ret (Qfloor q);
     construct := fun _ => Some (JsError "init failed");
     subscribe := fun _ _ => None;
     unsubscribe := releases;
     getUser := fun _ _ _ => None;
     getInitializeUserAccountIxs := fun _ _ _ => Ret [];
     getDepositInstruction := fun _ _ _ _ _ _ _ _ => Throw (JsError "unused");
     getOracleDataForPerpMarket := fun _ _ _ => Ret None;
     getPlacePerpOrderIx := fun _ _ _ _ => Throw (JsError "unused");
     getAssociatedTokenAddress := fun _ _ _ => Throw (JsError "unused") |}.

(** An SDK whose client is constructed and fails to subscribe. *)
Definition deaf_sdk : Sdk :=
  {| MainnetPerpMarkets := [];
     BASE_PRECISION := 10 ^ 9;
     new_BN := fun q => Ret (Qfloor q);
     construct := fun _ => None;
     subscribe := fun _ _ => Some (JsError "subscribe failed");
     unsubscribe := releases;
     getUser := fun _ _ _ => None;
     getInitializeUserAccountIxs := fun _ _ _ => Ret [];
     getDepositInstruction := fun _ _ _ _ _ _ _ _ => Throw (JsError "unused");
     getOracleDataForPerpMarket := fun _ _ _ => Ret None;
     getPlacePerpOrderIx := fun _ _ _ _ => Throw (JsError "unused");
     getAssociatedTokenAddress := fun _ _ _ => Throw (JsError "unused") |}.

Definition quiet : world := steady 0 (Ret JNull).

Definition connected : Wallet :=
  {| publicKey := Some payer; signTransaction := true; signAllTransactions := true |}.

Definition fresh_hook : hook :=
  {| driftClientRef := None; op_state := Idle; sys := s0 |}.

Definition client0 : DriftClient := {| client_id := 0; wallet_publicKey := payer |}.

(** What a short of 10 JUP with a deposit of 50 USDC is built into when the
    user account is not there yet. *)
Definition short_with_deposit : VersionedTransaction :=
  {| payerKey := payer;
     recentBlockhash := "blockhash";
     instructions :=
       [ComputeBudget_setComputeUnitLimit 800000;
        ComputeBudget_setComputeUnitPrice 1000;
        Raw drift_program [] [0];
        Raw drift_program [] [1];
        Raw drift_program [{| bn := 12 |}] [2; 50000000; 0; 0];
        Raw drift_program [] [3; 24; 10000000000; 95; 0]];
     signatures := [] |}.

(** The [unsubscribe] calls of a trace, in order. *)
Definition unsubscribes (t : list event) : list nat :=
  flat_map (fun e => match e with
                     | EvUnsubscribe id => [id]
                     | _ => []
                     end) t.

End DriftScenarios.
Import DriftScenarios.


(** ** Vocabulary and worlds for the further properties *)

Module Further.

Import Jito.

Definition tip_accounts_body : json := rpc_body "getTipAccounts" (JArr []).

(** The states an iteration of the poller that starts in [s] goes through:
    after the status query, and after the inflight query. *)
Definition after_status (net : world) (bundleId : value) (s : state) : state :=
  after_post net AMSTERDAM_BUNDLE_STATUSES (statuses_body [bundleId]) s.

Definition after_inflight (net : world) (bundleId : value) (s : state) : state :=
  after_post net AMSTERDAM_INFLIGHT_STATUSES (inflight_body [bundleId])
    (snd (sleep 1000 (after_status net bundleId s))).

(** The two requests the poller may send for a handle. *)
Definition is_query_for (bundleId : value) (request : string * json) : Prop :=
  request = (AMSTERDAM_BUNDLE_STATUSES, statuses_body [bundleId])
  \/ request = (AMSTERDAM_INFLIGHT_STATUSES, inflight_body [bundleId]).

(** How many requests of a trace went to [url]. *)
Definition posts_to (url : string) (t : list event) : nat :=
  List.length (filter (fun p => String.eqb (fst p) url) (posts t)).

(** The three shapes of a poller result for a handle. *)
Definition poller_result_shape (bundleId : value) (r : JitoBundleResult) : Prop :=
  r = landed_result bundleId
  \/ r = timeout_result bundleId
  \/ exists err, truthy (Some err) = true /\ r = failed_result bundleId err.

(** A relay that accepts every submission under the handle "bundle-1" and
    knows nothing of it afterwards. *)
Definition accepting_relay : world :=
  {| respond := fun _ url _ =>
       if String.eqb url AMSTERDAM_BUNDLES
       then {| latency := 10; answer := Ret (JObj [("result", JStr "bundle-1")]) |}
       else {| latency := 10; answer := Ret unknown_bundle |};
     latest_blockhash := fun _ _ => {| latency := 0; answer := Ret "blockhash" |};
     random := fun _ => 0%N |}.

(** The relay reports the bundle as landed. *)
Definition landing_relay : world :=
  steady 5 (Ret (value_response (JArr [status_record "confirmed" JNull]))).

(** An [unsubscribe] that throws the first time it is called and works from
    then on. *)
Definition releases_on_retry : state -> Drift.DriftClient -> option exn :=
  fun s _ =>
    match unsubscribes (trace s) with
    | [] => Some release_failure
    | _ :: _ => None
    end.

(** The [try]/[catch] that [buildShort] and [buildDeposit] share, for any
    transaction builder. *)
Definition guarded (sdk : Drift.Sdk)
    (build : Drift.DriftClient -> M VersionedTransaction) (key : PublicKey)
    : ST Drift.hook (option VersionedTransaction) :=
  try_catch
    (driftClient <- Drift.in_sys (Drift.initializeDriftClient sdk key) ;;
     Drift.set_ref (Some driftClient) ;;;
     transaction <- Drift.in_sys (build driftClient) ;;
     Drift.in_sys (Drift.cleanupDriftClient sdk driftClient) ;;;
     Drift.set_ref None ;;;
     Drift.setState (Drift.Success transaction) ;;;
     ret (Some transaction))
    (Drift.cleanup_on_error sdk).

Definition disconnected : Drift.Wallet :=
  {| Drift.publicKey := None; Drift.signTransaction := true;
     Drift.signAllTransactions := true |}.

(** A token library for the transfer builder: the associated account of an
    owner is told by the sum of the two keys, and the destination account
    exists or not as [found] says. *)
Definition token_ix (tag : Z) (keys : list PublicKey) (amount : Z)
    : TransactionInstruction :=
  Raw {| bn := 77 |} keys [tag; amount].

Definition test_lib (found : Token.account_lookup) : Token.TokenLib :=
  {| Token.getAssociatedTokenAddress := fun _ mint owner =>
       Ret {| bn := bn mint + bn owner |};
     Token.getAccount := fun _ _ => found;
     Token.createTransferInstruction := fun source destination owner amount =>
       if u64 amount then Ret (token_ix 3 [source; destination; owner] amount)
       else Throw (JsError "The value of amount is out of range");
     Token.createAssociatedTokenAccountInstruction := fun payer ata owner mint =>
       token_ix 1 [payer; ata; owner; mint] 0 |}.

Definition mint_table (token : Token.TokenTicker) : option string :=
  match token with
  | Token.SOL => Some "So11111111111111111111111111111111111111112"
  | Token.USDC => Some "EPjFWdd5AufqSSqeM2qN1xzybapC8G4wEGGkZwyTDt1v"
  | Token.JUP => None
  end.

(** Amounts for the examples: the doubles nearest to 1.005 and to 0.3, and
    the number 5. *)
Definition amount_1_005 : Token.number :=
  PrimFloat.div (Token.number_of_Z 1005) (Token.number_of_Z 1000).

Definition amount_0_3 : Token.number :=
  PrimFloat.div (Token.number_of_Z 3) (Token.number_of_Z 10).

Definition five : Token.number := Token.number_of_Z 5.

Definition not_a_number : Token.number :=
  PrimFloat.div (Token.number_of_Z 0) (Token.number_of_Z 0).

(** The [RangeError] of the examples. *)
Definition range_error (x : Token.number) : exn :=
  JsError "The number cannot be converted to a BigInt because it is not an integer".

Definition fresh_transfer_hook : Token.transfer_hook :=
  {| Token.transfer_state := Drift.Idle; Token.transfer_sys := s0 |}.

Definition fresh_swap_hook : Token.swap_hook :=
  {| Token.quote := None; Token.expectedOutput := None;
     Token.swap_state := Drift.Idle; Token.swap_sys := s0 |}.

(** A swap builder that answers with an empty transaction and an expected
    output of 42. *)
Definition test_swap (payer : PublicKey) (i o : Token.TokenTicker) (amount : Q)
    : M (VersionedTransaction * Q) :=
  fun s => (Ret (unsigned payer "blockhash" [], 42%Q), s).

End Further.
Import Further.

(** ** JavaScript conversions, on examples *)

Module JsFacts.

Example stringify_example :
  JSON_stringify (JObj [("a", JArr [JNum 1; JNull]); ("b", JStr "x")])
  = "{" ++ quote "a" ++ ":[1,null]," ++ quote "b" ++ ":" ++ quote "x" ++ "}".
Proof. reflexivity. Qed.

Example to_String_example :
  to_String (JArr [JNum 1; JNull; JStr "x"]) = "1,,x".
Proof. reflexivity. Qed.

Example falsy_values :
  map truthy [None; Some JNull; Some (JBool false); Some (JNum 0); Some (JStr EmptyString)]
  = [false; false; false; false; false].
Proof. reflexivity. Qed.

End JsFacts.

(** ** Facts about the relay client *)

Module JitoFacts.

Import Jito.

Section Facts.

Variable net : world.
Variable A : string.

Ltac run :=
  unfold getBundleStatuses, getBundleInflightStatuses, sendBundle, getTipAccounts,
    bind, ret, throw, lift, http_post, member, after_post; simpl.

(** A query leaves the same state behind whether it returns or throws. *)
Lemma getBundleStatuses_state (ids : list value) (ep : option string) (s : state) :
  snd (getBundleStatuses net A ids ep s)
  = after_post net AMSTERDAM_BUNDLE_STATUSES (statuses_body ids) s.
Proof.
  run. destruct (answer _) as [data|e]; [|reflexivity].
  destruct data; simpl; try reflexivity;
    match goal with |- context [if ?c then _ else _] => destruct c end; reflexivity.
Qed.

Lemma getBundleInflightStatuses_state (ids : list value) (ep : option string) (s : state) :
  snd (getBundleInflightStatuses net A ids ep s)
  = after_post net AMSTERDAM_INFLIGHT_STATUSES (inflight_body ids) s.
Proof.
  run. destruct (answer _) as [data|e]; [|reflexivity].
  destruct data; simpl; try reflexivity;
    match goal with |- context [if ?c then _ else _] => destruct c end; reflexivity.
Qed.

(** A submission whose transactions cannot all be serialised throws what the
    serialiser threw, before any request. *)
Lemma sendBundle_unserialisable (ser : VersionedTransaction -> outcome string)
    (txs : list VersionedTransaction) (ep : option string) (s : state) (e : exn) :
  map_outcome ser txs = Throw e ->
  sendBundle net A ser txs ep s = (Throw e, s).
Proof. intros H. unfold sendBundle, bind, lift. rewrite H. reflexivity. Qed.

Lemma sendBundle_state (ser : VersionedTransaction -> outcome string)
    (txs : list VersionedTransaction) (ep : option string) (s : state) :
  snd (sendBundle net A ser txs ep s)
  = match map_outcome ser txs with
    | Ret encoded => after_post net AMSTERDAM_BUNDLES (bundle_body encoded) s
    | Throw _ => s
    end.
Proof.
  unfold sendBundle, bind at 1. unfold lift.
  destruct (map_outcome ser txs) as [encoded|e]; [|reflexivity].
  run. destruct (answer _) as [data|e]; [|reflexivity].
  destruct data; simpl; try reflexivity;
    match goal with |- context [if ?c then _ else _] => destruct c end; reflexivity.
Qed.

Lemma trace_after_post (url : string) (body : json) (s : state) :
  trace (after_post net url body s) = (trace s ++ [EvPost url body])%list.
Proof. reflexivity. Qed.

Lemma now_after_post (url : string) (body : json) (s : state) :
  now (after_post net url body s) = now s + Z.of_N (latency (respond net s url body)).
Proof. reflexivity. Qed.

(** The ways a submission throws once its transactions are serialised: the
    request failed, the body was [null], or it held a truthy [error]. *)
Lemma sendBundle_throws_cases (ser : VersionedTransaction -> outcome string)
    (txs : list VersionedTransaction) (ep : option string) (s s1 : state) (e : exn)
    (encoded : list string) :
  map_outcome ser txs = Ret encoded ->
  sendBundle net A ser txs ep s = (Throw e, s1) ->
  match answer (respond net s AMSTERDAM_BUNDLES (bundle_body encoded)) with
  | Throw e' => e = e'
  | Ret data =>
      (data = JNull /\ e = JsError "Cannot read properties of null (reading 'error')")
      \/ (truthy (prop data "error") = true
          /\ e = JsError ("sendBundle failed: "
                          ++ String_of (opt_prop (prop data "error") "message")))
  end.
Proof.
  intros Hm. unfold sendBundle, bind at 1. unfold lift. rewrite Hm.
  run. fold (bundle_body encoded).
  destruct (answer (respond net s AMSTERDAM_BUNDLES (bundle_body encoded))) as [data|e'];
    [|intros H; inversion H; reflexivity].
  destruct data; simpl;
    try (intros H; discriminate H);
    try (intros H; inversion H; left; split; reflexivity).
  destruct (truthy (assoc "error" fields)) eqn:T; intros H; [|discriminate H].
  inversion H. right. split; reflexivity.
Qed.

(** What an error envelope turns into. *)
Lemma sendBundle_throws (ser : VersionedTransaction -> outcome string)
    (txs : list VersionedTransaction) (ep : option string) (s s1 : state) (e : exn)
    (encoded : list string) :
  map_outcome ser txs = Ret encoded ->
  sendBundle net A ser txs ep s = (Throw e, s1) ->
  forall data err m,
    answer (respond net s AMSTERDAM_BUNDLES (bundle_body encoded)) = Ret data ->
    prop data "error" = Some err ->
    prop err "message" = Some (JStr m) ->
    e = JsError ("sendBundle failed: " ++ m).
Proof.
  intros Hen H data err m Hd He Hm.
  pose proof (sendBundle_throws_cases ser txs ep s s1 e encoded Hen H) as C.
  rewrite Hd in C. destruct C as [[-> _] | [_ ->]]; [discriminate He|].
  rewrite He. destruct err; simpl in Hm; try discriminate.
  simpl. rewrite Hm. reflexivity.
Qed.


(** *** One iteration of the poller *)

Lemma poll_attempt_status_throws (b : value) (ep : option string) (s s1 : state) (e : exn) :
  getBundleStatuses net A [b] ep s = (Throw e, s1) ->
  poll_attempt net A b ep s = (None, s1).
Proof.
  intros H. unfold poll_attempt, poll_try, bind. rewrite H. reflexivity.
Qed.

Lemma poll_attempt_inflight_throws (b : value) (ep : option string)
    (s s1 s2 : state) (statuses : json) (e : exn) :
  getBundleStatuses net A [b] ep s = (Ret statuses, s1) ->
  getBundleInflightStatuses net A [b] ep (snd (sleep 1000 s1)) = (Throw e, s2) ->
  poll_attempt net A b ep s = (None, s2).
Proof.
  intros H1 H2. unfold poll_attempt, poll_try, bind. rewrite H1.
  simpl in *. rewrite H2. reflexivity.
Qed.


Lemma poll_attempt_query_fails (b : value) (ep : option string) (s : state) :
  query_fails net A b ep s -> fst (poll_attempt net A b ep s) = None.
Proof.
  intros [(e & s1 & H) | (v & s1 & e & s2 & H1 & H2)].
  - rewrite (poll_attempt_status_throws _ _ _ _ _ H). reflexivity.
  - rewrite (poll_attempt_inflight_throws _ _ _ _ _ _ _ H1 H2). reflexivity.
Qed.

(** The clock never runs backwards during an iteration, and an iteration
    lasts two requests and two fixed delays at most. *)
Lemma poll_attempt_clock (L : Z) (b : value) (ep : option string) (s : state) :
  (forall st url body, Z.of_N (latency (respond net st url body)) <= L) ->
  now s <= now (snd (poll_attempt net A b ep s)) <= now s + (2 * L + 2000).
Proof.
  intros HL. replace (2 * L + 2000) with (L + L + 2000) by lia.
  unfold poll_attempt, poll_try, bind.
  pose proof (getBundleStatuses_state [b] ep s) as E1.
  destruct (getBundleStatuses net A [b] ep s) as [o s1]. simpl in E1. subst s1.
  pose proof (HL s AMSTERDAM_BUNDLE_STATUSES (statuses_body [b])) as B1.
  pose proof (N2Z.is_nonneg (latency (respond net s AMSTERDAM_BUNDLE_STATUSES
                                        (statuses_body [b])))) as P1.
  destruct o as [statuses|e]; [|unfold after_post; simpl; lia].
  cbn [sleep fst snd].
  set (s2 := advance (Z.max 0 1000) (record (EvSleep 1000) (after_post net _ _ s))).
  pose proof (getBundleInflightStatuses_state [b] ep s2) as E2.
  destruct (getBundleInflightStatuses net A [b] ep s2) as [o s3]. simpl in E2. subst s3.
  pose proof (HL s2 AMSTERDAM_INFLIGHT_STATUSES (inflight_body [b])) as B2.
  pose proof (N2Z.is_nonneg (latency (respond net s2 AMSTERDAM_INFLIGHT_STATUSES
                                        (inflight_body [b])))) as P2.
  assert (Hs2 : now s2 = now s + Z.of_N (latency (respond net s AMSTERDAM_BUNDLE_STATUSES
                                                    (statuses_body [b]))) + 1000)
    by (subst s2; unfold after_post; simpl; lia).
  destruct o as [inflight|e]; unfold after_post; simpl; lia.
Qed.

Lemma poll_loop_nonpositive_budget (fuel : nat) (b : value) (ep : option string)
    (timeout poll start : Z) (s : state) :
  timeout <= now s - start ->
  poll_loop net A fuel b ep timeout poll start s = Some (timeout_result b, s).
Proof.
  intros H. destruct fuel; simpl;
    (destruct (now s - start <? timeout) eqn:E; [apply Z.ltb_lt in E; lia | reflexivity]).
Qed.

(** Enough fuel always gives a result when the closing delay is positive:
    every iteration then moves the clock. *)
Lemma poll_loop_terminates (b : value) (ep : option string) (timeout poll start : Z) :
  0 < poll ->
  forall (fuel : nat) (s : state),
    timeout - (now s - start) <= Z.of_nat fuel ->
    exists r s', poll_loop net A fuel b ep timeout poll start s = Some (r, s').
Proof.
  intros Hp. induction fuel as [|fuel IH]; intros s Hf.
  - exists (timeout_result b), s. apply poll_loop_nonpositive_budget. lia.
  - simpl. destruct (now s - start <? timeout) eqn:E; [|eauto].
    destruct (poll_attempt net A b ep s) as [[r|] s1] eqn:Ea; [eauto|].
    apply IH. simpl.
    assert (Hmono : now s <= now s1).
    { pose proof (getBundleStatuses_state [b] ep s) as E1.
      revert Ea. unfold poll_attempt, poll_try, bind.
      destruct (getBundleStatuses net A [b] ep s) as [o t1]. simpl in E1. subst t1.
      pose proof (N2Z.is_nonneg (latency (respond net s AMSTERDAM_BUNDLE_STATUSES
                                            (statuses_body [b])))) as P1.
      destruct o as [statuses|e].
      - cbn [sleep fst snd].
        set (s2 := advance (Z.max 0 1000) (record (EvSleep 1000) (after_post net _ _ s))).
        pose proof (getBundleInflightStatuses_state [b] ep s2) as E2.
        destruct (getBundleInflightStatuses net A [b] ep s2) as [o t3].
        simpl in E2. subst t3.
        pose proof (N2Z.is_nonneg (latency (respond net s2 AMSTERDAM_INFLIGHT_STATUSES
                                              (inflight_body [b])))) as P2.
        assert (now s <= now s2) by (subst s2; unfold after_post; simpl; lia).
        destruct o; simpl; intros Hx; inversion Hx; subst;
          unfold after_post; simpl; lia.
      - simpl. intros Hx; inversion Hx; subst. unfold after_post; simpl; lia. }
    lia.
Qed.

(** The loop returns one iteration after the budget at the latest. *)
Lemma poll_loop_bound (L : Z) (b : value) (ep : option string) (timeout poll start : Z) :
  (forall st url body, Z.of_N (latency (respond net st url body)) <= L) ->
  forall (fuel : nat) (s s' : state) (r : JitoBundleResult),
    now s - start <= Z.max 0 timeout + (2 * L + 2000 + Z.max 0 poll) ->
    poll_loop net A fuel b ep timeout poll start s = Some (r, s') ->
    now s' - start <= Z.max 0 timeout + (2 * L + 2000 + Z.max 0 poll).
Proof.
  intros HL. induction fuel as [|fuel IH]; intros s s' r Hinv; simpl;
    destruct (now s - start <? timeout) eqn:E; try discriminate;
    try (intros H; inversion H; subst; assumption).
  apply Z.ltb_lt in E.
  pose proof (poll_attempt_clock L b ep s HL) as Hc.
  destruct (poll_attempt net A b ep s) as [[r1|] s1]; simpl in Hc.
  - intros H; inversion H; subst. lia.
  - apply IH. simpl. lia.
Qed.

(** Only three results are ever produced; a timeout is the only one the
    loop itself makes up. *)
Lemma poll_loop_result (fuel : nat) (b : value) (ep : option string)
    (timeout poll start : Z) (s s' : state) (r : JitoBundleResult) :
  poll_loop net A fuel b ep timeout poll start s = Some (r, s') ->
  r = timeout_result b
  \/ exists t, fst (poll_attempt net A b ep t) = Some r.
Proof.
  revert s. induction fuel as [|fuel IH]; intros s; simpl;
    destruct (now s - start <? timeout); try discriminate;
    try (intros H; inversion H; subst; now left).
  destruct (poll_attempt net A b ep s) as [[r1|] s1] eqn:Ea.
  - intros H; inversion H; subst. right. exists s. rewrite Ea. reflexivity.
  - apply IH.
Qed.

End Facts.
End JitoFacts.

(** ** The confirmation poller *)

Module Poller.

Import Jito JitoFacts.

(** C10: with a timeout budget of zero or less, [waitForBundleConfirmation]
    sends no status and no inflight-status query and returns the timeout
    result (success false, "Bundle confirmation timeout") for the handle at
    once: clock and trace are those of the call. *)
Theorem C10_nonpositive_budget_times_out_at_once :
  forall (net : world) (A : string) (fuel : nat) (bundleId : value)
         (endpoint : option string) (timeoutMs : Z) (pollIntervalMs : option Z)
         (s : state),
    timeoutMs <= 0 ->
    waitForBundleConfirmation net A fuel bundleId endpoint (Some timeoutMs)
      pollIntervalMs s
    = Some ({| bundleId := bundleId; success := false;
               error := Some "Bundle confirmation timeout" |}, s).
Proof.
  intros net A fuel b ep t p s Ht. unfold waitForBundleConfirmation.
  apply poll_loop_nonpositive_budget. simpl. lia.
Qed.

Lemma C10_witness :
  0 <= 0
  /\ waitForBundleConfirmation (steady 0 (Ret unknown_bundle)) amsterdam 5 bundle None
       (Some 0) None s0
     = Some ({| bundleId := bundle; success := false;
                error := Some "Bundle confirmation timeout" |}, s0).
Proof.
  split; [lia|].
  apply (C10_nonpositive_budget_times_out_at_once
           (steady 0 (Ret unknown_bundle)) amsterdam 5 bundle None 0 None s0).
  lia.
Defined.

(** C5: a tick on which the status query or the inflight-status query throws
    produces no outcome and surfaces no error: the loop runs its closing
    delay and starts the next tick.  When every tick is such a tick, a run
    with a positive poll interval ends, and it ends with the timeout result
    and nothing else. *)
Theorem C5_query_failures_are_swallowed :
  forall (net : world) (A : string) (bundleId : value) (endpoint : option string)
         (timeoutMs pollIntervalMs : Z) (s : state),
    (forall t, query_fails net A bundleId endpoint t ->
       fst (poll_attempt net A bundleId endpoint t) = None
       /\ forall fuel start,
            now t - start < timeoutMs ->
            poll_loop net A (S fuel) bundleId endpoint timeoutMs pollIntervalMs start t
            = poll_loop net A fuel bundleId endpoint timeoutMs pollIntervalMs start
                (snd (sleep pollIntervalMs (snd (poll_attempt net A bundleId endpoint t)))))
    /\ ((forall t, query_fails net A bundleId endpoint t) ->
        (forall fuel r s',
           waitForBundleConfirmation net A fuel bundleId endpoint
             (Some timeoutMs) (Some pollIntervalMs) s = Some (r, s') ->
           r = timeout_result bundleId)
        /\ (0 < pollIntervalMs ->
            exists fuel s',
              waitForBundleConfirmation net A fuel bundleId endpoint
                (Some timeoutMs) (Some pollIntervalMs) s
              = Some (timeout_result bundleId, s'))).
Proof.
  intros net A b ep t p s. split.
  - intros u Hu. pose proof (poll_attempt_query_fails net A b ep u Hu) as Hn.
    split; [exact Hn|]. intros fuel start Hlt.
    cbn [poll_loop]. apply Z.ltb_lt in Hlt. rewrite Hlt.
    destruct (poll_attempt net A b ep u) as [[r|] u1]; [discriminate | reflexivity].
  - intros Hfail.
    assert (Hnone : forall u, fst (poll_attempt net A b ep u) = None)
      by (intros u; apply poll_attempt_query_fails, Hfail).
    assert (Hres : forall fuel r s',
               waitForBundleConfirmation net A fuel b ep (Some t) (Some p) s
               = Some (r, s') -> r = timeout_result b).
    { intros fuel r s' H. unfold waitForBundleConfirmation in H.
      destruct (poll_loop_result net A _ _ _ _ _ _ _ _ _ H) as [Hr | [u Hu]];
        [assumption | ].
      change (fst (poll_attempt net A b ep u) = Some r) in Hu.
      rewrite Hnone in Hu; discriminate. }
    split; [exact Hres |]. intros Hp.
    destruct (poll_loop_terminates net A b (Some (default A ep)) t p (now s) Hp
                (Z.to_nat t) s) as (r & s' & H); [lia|].
    exists (Z.to_nat t), s'.
    rewrite <- (Hres (Z.to_nat t) r s'); exact H.
Qed.

Lemma C5_witness :
  (fst (poll_attempt (steady 0 (Throw network_error)) amsterdam bundle None s0) = None)
  /\ (forall fuel r s',
        waitForBundleConfirmation (steady 0 (Throw network_error)) amsterdam fuel bundle None
          (Some 6000) (Some 2000) s0 = Some (r, s') ->
        r = timeout_result bundle)
  /\ (exists fuel s',
        waitForBundleConfirmation (steady 0 (Throw network_error)) amsterdam fuel bundle None
          (Some 6000) (Some 2000) s0
        = Some (timeout_result bundle, s')).
Proof.
  destruct (C5_query_failures_are_swallowed (steady 0 (Throw network_error)) amsterdam
              bundle None 6000 2000 s0) as [Htick Hrun].
  split.
  - apply Htick. left. eexists _, _. reflexivity.
  - destruct Hrun as [Hres Hend]; [intros t; left; eexists _, _; reflexivity|].
    split; [exact Hres | apply Hend; lia].
Defined.

(** C4 as the code has it: the poller returns at most one whole iteration
    after the budget, an iteration being the two queries, the two fixed
    delays of 1000 ms and one poll interval; and with a positive poll
    interval it does return. *)
Theorem C4_overrun_is_at_most_one_iteration :
  forall (net : world) (A : string) (L : Z) (bundleId : value)
         (endpoint : option string) (timeoutMs pollIntervalMs : Z) (s : state),
    (forall st url body, Z.of_N (latency (respond net st url body)) <= L) ->
    (forall fuel r s',
       waitForBundleConfirmation net A fuel bundleId endpoint
         (Some timeoutMs) (Some pollIntervalMs) s = Some (r, s') ->
       now s' - now s
       <= Z.max 0 timeoutMs + (2 * L + 2000 + Z.max 0 pollIntervalMs))
    /\ (0 < pollIntervalMs ->
        exists fuel r s',
          waitForBundleConfirmation net A fuel bundleId endpoint
            (Some timeoutMs) (Some pollIntervalMs) s = Some (r, s')).
Proof.
  intros net A L b ep t p s HL. split.
  - intros fuel r s' H. unfold waitForBundleConfirmation in H.
    refine (poll_loop_bound net A L b _ t p (now s) HL fuel s s' r _ H).
    pose proof (HL s EmptyString JNull) as H0.
    pose proof (N2Z.is_nonneg (latency (respond net s EmptyString JNull))). lia.
  - intros Hp.
    destruct (poll_loop_terminates net A b (Some (default A ep)) t p (now s) Hp
                (Z.to_nat t) s) as (r & s' & H); [lia|].
    exists (Z.to_nat t), r, s'. exact H.
Qed.

Lemma C4_witness :
  (forall st url body,
     Z.of_N (latency (respond (steady 250 (Ret unknown_bundle)) st url body)) <= 250)
  /\ (forall fuel r s',
        waitForBundleConfirmation (steady 250 (Ret unknown_bundle)) amsterdam fuel bundle None
          (Some 60000) (Some 2000) s0 = Some (r, s') ->
        now s' - now s0 <= Z.max 0 60000 + (2 * 250 + 2000 + Z.max 0 2000))
  /\ (exists fuel r s',
        waitForBundleConfirmation (steady 250 (Ret unknown_bundle)) amsterdam fuel bundle None
          (Some 60000) (Some 2000) s0 = Some (r, s')).
Proof.
  assert (HL : forall st url body,
             Z.of_N (latency (respond (steady 250 (Ret unknown_bundle)) st url body))
             <= 250) by (intros; simpl; lia).
  destruct (C4_overrun_is_at_most_one_iteration (steady 250 (Ret unknown_bundle)) amsterdam
              250 bundle None 60000 2000 s0 HL) as [Hb Ht].
  split; [exact HL | split; [exact Hb | apply Ht; lia]].
Defined.

(** C4 fails as stated: with the default budget of 60000 ms and the default
    poll interval of 2000 ms, against a relay that answers in 250 ms, the
    poller returns after 63000 ms. *)
Lemma C4_counterexample :
  option_map (fun p => (fst p, now (snd p) - now s0))
    (waitForBundleConfirmation (steady 250 (Ret unknown_bundle)) amsterdam 14 bundle None
       (Some 60000) (Some 2000) s0)
  = Some (timeout_result bundle, 63000)
  /\ ~ C4_as_stated.
Proof.
  assert (E : option_map (fun p => (fst p, now (snd p) - now s0))
                (waitForBundleConfirmation (steady 250 (Ret unknown_bundle)) amsterdam 14
                   bundle None (Some 60000) (Some 2000) s0)
              = Some (timeout_result bundle, 63000)) by (vm_compute; reflexivity).
  split; [exact E|]. intros H.
  destruct (waitForBundleConfirmation (steady 250 (Ret unknown_bundle)) amsterdam 14 bundle
              None (Some 60000) (Some 2000) s0) as [[r s']|] eqn:W;
    [|discriminate].
  apply H in W. simpl in E, W. inversion E. lia.
Qed.

End Poller.

(** ** The decision of a poll tick *)

Module Tick.

Import Jito JitoFacts.









(** Two more ticks the letter of C1 gets wrong, both with the two queries
    returning: a landed record that carries an error field is a success, and
    an error field that is not null but falsy is not seen. *)
Example landed_record_with_error_field :
  fst (poll_attempt
         (steady 0 (Ret (value_response
                           (JArr [status_record "confirmed" (JObj [("Ok", JNull)])]))))
         amsterdam bundle None s0)
  = Some (landed_result bundle).
Proof. reflexivity. Qed.

Example falsy_error_field :
  fst (poll_attempt
         (steady 0 (Ret (value_response (JArr [status_record "processed" (JNum 0)]))))
         amsterdam bundle None s0)
  = None.
Proof. reflexivity. Qed.

End Tick.

(** ** The relay client *)

Module Relay.

Import Jito JitoFacts.

(** C7 as the code has it: when the relay's response carries a
    [result.value] array, [getBundleStatuses] and [getBundleInflightStatuses]
    return that array as it is, null slots included and as a normal result;
    when the response carries no error and no truthy [result.value], they
    return the empty list.  The number of slots is the relay's. *)
Theorem C7_statuses_are_the_relays_list :
  forall (net : world) (A : string) (bundleIds : list value)
         (endpoint : option string) (s : state) (data : json),
    truthy (prop data "error") = false ->
    (answer (respond net s AMSTERDAM_BUNDLE_STATUSES (statuses_body bundleIds)) = Ret data ->
     (forall slots, opt_prop (prop data "result") "value" = Some (JArr slots) ->
        fst (getBundleStatuses net A bundleIds endpoint s) = Ret (JArr slots))
     /\ (data <> JNull -> truthy (opt_prop (prop data "result") "value") = false ->
         fst (getBundleStatuses net A bundleIds endpoint s) = Ret (JArr [])))
    /\ (answer (respond net s AMSTERDAM_INFLIGHT_STATUSES (inflight_body bundleIds)) = Ret data ->
        (forall slots, opt_prop (prop data "result") "value" = Some (JArr slots) ->
           fst (getBundleInflightStatuses net A bundleIds endpoint s) = Ret (JArr slots))
        /\ (data <> JNull -> truthy (opt_prop (prop data "result") "value") = false ->
            fst (getBundleInflightStatuses net A bundleIds endpoint s) = Ret (JArr []))).
Proof.
  intros net A ids ep s data He.
  split; intros Hd; split.
  - intros slots Hv.
    unfold getBundleStatuses, bind, http_post, lift, ret, throw.
    fold (statuses_body ids). rewrite Hd.
    destruct data; try (simpl in Hv; discriminate Hv).
    cbn [member]. cbn beta iota. rewrite He. cbn [fst].
    unfold or_else. rewrite Hv. reflexivity.
  - intros Hn Hv.
    unfold getBundleStatuses, bind, http_post, lift, ret, throw.
    fold (statuses_body ids). rewrite Hd.
    destruct data; try congruence; cbn [member]; cbn beta iota; rewrite He; cbn [fst];
      unfold or_else;
      destruct (opt_prop _ "value") as [v|]; try reflexivity; rewrite Hv; reflexivity.
  - intros slots Hv.
    unfold getBundleInflightStatuses, bind, http_post, lift, ret, throw.
    fold (inflight_body ids). rewrite Hd.
    destruct data; try (simpl in Hv; discriminate Hv).
    cbn [member]. cbn beta iota. rewrite He. cbn [fst].
    unfold or_else. rewrite Hv. reflexivity.
  - intros Hn Hv.
    unfold getBundleInflightStatuses, bind, http_post, lift, ret, throw.
    fold (inflight_body ids). rewrite Hd.
    destruct data; try congruence; cbn [member]; cbn beta iota; rewrite He; cbn [fst];
      unfold or_else;
      destruct (opt_prop _ "value") as [v|]; try reflexivity; rewrite Hv; reflexivity.
Qed.

Lemma C7_witness :
  truthy (prop unknown_bundle "error") = false
  /\ fst (getBundleStatuses (steady 0 (Ret unknown_bundle)) amsterdam [bundle] None s0)
     = Ret (JArr [JNull])
  /\ fst (getBundleInflightStatuses (steady 0 (Ret unknown_bundle)) amsterdam [bundle] None s0)
     = Ret (JArr [JNull]).
Proof.
  assert (He : truthy (prop unknown_bundle "error") = false) by reflexivity.
  destruct (C7_statuses_are_the_relays_list (steady 0 (Ret unknown_bundle)) amsterdam
              [bundle] None s0 unknown_bundle He) as [Hs Hi].
  split; [exact He | split].
  - apply (proj1 (Hs eq_refl)). reflexivity.
  - apply (proj1 (Hi eq_refl)). reflexivity.
Defined.

(** C7 fails as stated: the relay answers one handle with an empty list,
    and the client returns no slot for it. *)
Lemma C7_counterexample :
  fst (getBundleStatuses (steady 0 (Ret (value_response (JArr [])))) amsterdam
         [bundle] None s0)
  = Ret (JArr [])
  /\ ~ C7_as_stated.
Proof.
  split; [reflexivity|]. intros H.
  destruct (H (steady 0 (Ret (value_response (JArr [])))) amsterdam [bundle] None s0
              _ _ eq_refl)
    as (slots & Hs & Hl).
  inversion Hs; subst. discriminate Hl.
Qed.

(** A response without any [result] gives the empty list as well. *)
Example statuses_without_result :
  fst (getBundleStatuses (steady 0 (Ret (JObj [("id", JNum 1)]))) amsterdam [bundle; bundle]
         None s0)
  = Ret (JArr []).
Proof. reflexivity. Qed.

(** C2, as the code has it: when [sendBundle] throws,
    [submitAndConfirmBundle] returns the failure with the empty handle and
    the message of what was thrown, and does nothing after the throw: no
    status query, no inflight query, no delay.  When serialising a
    transaction threw, no request was sent at all and the message is that
    error's.  Otherwise the one request sent is the submission; the message
    is the HTTP client's when the request failed, and it is
    "sendBundle failed: " followed by the relay's message when the relay's
    error envelope came as the body of a response the client accepted. *)
Theorem C2_failed_submission_is_not_confirmed :
  forall (net : world) (A : string)
         (serialize_base64 : VersionedTransaction -> outcome string)
         (fuel : nat) (transactions : list VersionedTransaction)
         (timeoutMs : option Z) (s s1 : state) (e : exn),
    sendBundle net A serialize_base64 transactions (Some TOKYO_BUNDLES) s = (Throw e, s1) ->
    submitAndConfirmBundle net A serialize_base64 fuel transactions timeoutMs s
    = Some ({| bundleId := Some (JStr EmptyString); success := false;
               error := Some (exn_message e) |}, s1)
    /\ match map_outcome serialize_base64 transactions with
       | Throw thrown => e = thrown /\ s1 = s
       | Ret encoded =>
           trace s1 = (trace s ++ [EvPost AMSTERDAM_BUNDLES (bundle_body encoded)])%list
           /\ match answer (respond net s AMSTERDAM_BUNDLES (bundle_body encoded)) with
              | Throw thrown => e = thrown
              | Ret data =>
                  ((data = JNull
                    /\ e = JsError "Cannot read properties of null (reading 'error')")
                   \/ (truthy (prop data "error") = true
                       /\ e = JsError ("sendBundle failed: "
                                       ++ String_of (opt_prop (prop data "error")
                                                       "message"))))
                  /\ (forall err m,
                        prop data "error" = Some err ->
                        prop err "message" = Some (JStr m) ->
                        exn_message e = "sendBundle failed: " ++ m)
              end
       end.
Proof.
  intros net A ser fuel txs t s s1 e H. split.
  - unfold submitAndConfirmBundle. rewrite H. reflexivity.
  - pose proof (sendBundle_state net A ser txs (Some TOKYO_BUNDLES) s) as Hs.
    rewrite H in Hs. cbn [snd] in Hs.
    destruct (map_outcome ser txs) as [encoded|thrown] eqn:Hen.
    + split; [rewrite Hs; apply trace_after_post|].
      pose proof (sendBundle_throws_cases net A ser txs _ s s1 e encoded Hen H) as C.
      destruct (answer (respond net s AMSTERDAM_BUNDLES (bundle_body encoded)))
        as [data|thrown] eqn:Hd; [|exact C].
      split; [exact C|]. intros err m He Hm.
      rewrite (sendBundle_throws net A ser txs _ s s1 e encoded Hen H data err m Hd He Hm).
      reflexivity.
    + split; [|exact Hs].
      rewrite (sendBundle_unserialisable net A ser txs _ s thrown Hen) in H.
      inversion H. reflexivity.
Qed.

Lemma C2_witness :
  sendBundle (steady 0 (Ret (error_response "bundle too large"))) amsterdam wire
    [tip_transaction] (Some TOKYO_BUNDLES) s0
  = (Throw (JsError "sendBundle failed: bundle too large"),
     after_post (steady 0 (Ret (error_response "bundle too large")))
       AMSTERDAM_BUNDLES (bundle_body ["tip"]) s0)
  /\ submitAndConfirmBundle (steady 0 (Ret (error_response "bundle too large"))) amsterdam
       wire 9 [tip_transaction] None s0
     = Some ({| bundleId := Some (JStr EmptyString); success := false;
                error := Some "sendBundle failed: bundle too large" |},
             after_post (steady 0 (Ret (error_response "bundle too large")))
               AMSTERDAM_BUNDLES (bundle_body ["tip"]) s0).
Proof.
  assert (H : sendBundle (steady 0 (Ret (error_response "bundle too large"))) amsterdam wire
                [tip_transaction] (Some TOKYO_BUNDLES) s0
              = (Throw (JsError "sendBundle failed: bundle too large"),
                 after_post (steady 0 (Ret (error_response "bundle too large")))
                   AMSTERDAM_BUNDLES (bundle_body ["tip"]) s0)) by reflexivity.
  split; [exact H|].
  exact (proj1 (C2_failed_submission_is_not_confirmed _ _ _ 9 _ None _ _ _ H)).
Defined.

(** C2 fails as stated: when the relay refuses with a status the HTTP client
    rejects, the failure carries the client's message and nothing of the
    relay's; and when a transaction has no wire form, the failure carries the
    serialiser's message and the relay was never asked. *)
Lemma C2_counterexample :
  submitAndConfirmBundle rate_limited amsterdam wire 9 [tip_transaction] None s0
  = Some ({| bundleId := Some (JStr EmptyString); success := false;
             error := Some "Request failed with status code 429" |},
          after_post rate_limited AMSTERDAM_BUNDLES (bundle_body ["tip"]) s0)
  /\ submitAndConfirmBundle tip_relay amsterdam wire 9 [tip_transaction; oversized] None s0
     = Some ({| bundleId := Some (JStr EmptyString); success := false;
                error := Some "encoding overruns Uint8Array" |}, s0)
  /\ ~ C2_as_stated.
Proof.
  split; [reflexivity|]. split; [reflexivity|]. intros H.
  destruct (H rate_limited amsterdam wire 9%nat [tip_transaction] None s0 _ _ eq_refl)
    as (r & s' & encoded & data & prefix & _ & _ & Hen & Hd & _).
  inversion Hen; subst encoded. discriminate Hd.
Qed.

(** C3, on the code: the endpoint argument of the three relay calls is
    never read.  Whatever it is, the submission goes to the Amsterdam bundles URL
    (and nowhere when a transaction cannot be serialised, for then no
    request is sent) and the two queries go to the Amsterdam status URLs;
    called with the Tokyo endpoint, as [submitAndConfirmBundle] does, they
    still do. *)
Theorem C3_endpoint_argument_is_ignored :
  forall (net : world) (A : string)
         (serialize_base64 : VersionedTransaction -> outcome string)
         (transactions : list VersionedTransaction) (bundleIds : list value)
         (endpoint : option string) (s : state),
    posts (trace (snd (sendBundle net A serialize_base64 transactions endpoint s)))
    = (posts (trace s)
       ++ match map_outcome serialize_base64 transactions with
          | Ret encoded => [(AMSTERDAM_BUNDLES, bundle_body encoded)]
          | Throw _ => []
          end)%list
    /\ posts (trace (snd (getBundleStatuses net A bundleIds endpoint s)))
       = (posts (trace s) ++ [(AMSTERDAM_BUNDLE_STATUSES, statuses_body bundleIds)])%list
    /\ posts (trace (snd (getBundleInflightStatuses net A bundleIds endpoint s)))
       = (posts (trace s) ++ [(AMSTERDAM_INFLIGHT_STATUSES, inflight_body bundleIds)])%list
    /\ AMSTERDAM_BUNDLES <> TOKYO_BUNDLES
    /\ AMSTERDAM_BUNDLE_STATUSES <> TOKYO_BUNDLE_STATUSES.
Proof.
  intros net A ser txs ids ep s.
  rewrite sendBundle_state, getBundleStatuses_state, getBundleInflightStatuses_state.
  destruct (map_outcome ser txs) as [encoded|thrown];
    rewrite !trace_after_post; unfold posts; rewrite !flat_map_app; simpl;
    rewrite ?app_nil_r; repeat split; discriminate.
Qed.

Example tokyo_submission_goes_to_amsterdam :
  posts (trace (snd (sendBundle (steady 0 (Ret (JObj [("result", JStr "bundle-1")]))) amsterdam
                       wire [tip_transaction] (Some TOKYO_BUNDLES) s0)))
  = [(AMSTERDAM_BUNDLES, bundle_body ["tip"])].
Proof. reflexivity. Qed.

End Relay.

(** ** The tip transaction *)

Module Tip.

Import Jito JitoFacts.

Lemma random_index_in_range (r : N) (len : Z) :
  0 < len -> 0 <= random_index r len < len.
Proof.
  intros Hlen. unfold random_index.
  assert (Hk : 0 <= Z.of_N (r mod 2 ^ 53) < 2 ^ 53).
  { split; [apply N2Z.is_nonneg|].
    change (2 ^ 53) with (Z.of_N (2 ^ 53)). apply N2Z.inj_lt.
    apply N.mod_lt. discriminate. }
  split.
  - apply Z.div_pos; [nia | reflexivity].
  - apply Z.div_lt_upper_bound; [reflexivity | nia].
Qed.

(** The entry drawn from a non-empty array is one of its elements. *)
Lemma random_entry_of_array (oe : list (string * json) -> N -> value)
    (items : list json) (r : N) :
  items <> [] ->
  exists entry, random_entry oe (Some (JArr items)) r = Ret (Some entry) /\ In entry items.
Proof.
  intros Hne. unfold random_entry, length_of, index.
  assert (Hlen : 0 < Z.of_nat (List.length items))
    by (destruct items; [congruence | simpl; lia]).
  pose proof (random_index_in_range r _ Hlen) as Hr.
  destruct (nth_error items (Z.to_nat (random_index r (Z.of_nat (List.length items)))))
    as [entry|] eqn:E.
  - exists entry. split; [reflexivity | eapply nth_error_In; eassumption].
  - apply nth_error_None in E. lia.
Qed.

(** C6 as the code has it: a tip transaction that is returned is unsigned,
    is paid by the payer and holds exactly one instruction, a transfer from
    the payer to the account built from the entry drawn from the relay's
    [getTipAccounts] answer, of the tip amount as supplied (10000 when none
    is supplied).  No floor is applied to the amount. *)
Theorem C6_tip_amount_is_passed_through :
  forall (net : world) (A : string) (new_PublicKey : value -> outcome PublicKey)
         (object_entry : list (string * json) -> N -> value)
         (transfer_refused : Z -> option exn)
         (payerPubkey : PublicKey) (tipLamports : option Z) (endpoint : option string)
         (s s' : state) (tx : VersionedTransaction),
    createTipTransaction net A new_PublicKey object_entry transfer_refused payerPubkey
      tipLamports endpoint s = (Ret tx, s') ->
    exists data r chosen tipAccount blockhash,
      answer (respond net s AMSTERDAM_TIP_ACCOUNTS (rpc_body "getTipAccounts" (JArr [])))
      = Ret data
      /\ random_entry object_entry (prop data "result") r = Ret chosen
      /\ new_PublicKey chosen = Ret tipAccount
      /\ (forall items, prop data "result" = Some (JArr items) -> items <> [] ->
            exists entry, chosen = Some entry /\ In entry items)
      /\ tx = {| payerKey := payerPubkey; recentBlockhash := blockhash;
                 instructions :=
                   [SystemProgram_transfer payerPubkey tipAccount
                      (default DEFAULT_TIP_LAMPORTS tipLamports)];
                 signatures := [] |}.
Proof.
  intros net A newPK oe refused payer tip ep s s' tx.
  unfold createTipTransaction, getRandomTipAccount, getTipAccounts, getLatestBlockhash,
    bind, ret, throw, lift, http_post, set_timeout_noop, sleep, unsigned.
  cbn [default].
  destruct (answer (respond net s AMSTERDAM_TIP_ACCOUNTS _)) as [data|e] eqn:Hd;
    [|discriminate].
  destruct (member (Some data) "error") as [err|e]; [|discriminate].
  destruct (truthy err); [discriminate|].
  match goal with
  | |- context [random_entry oe (prop data "result") ?r] =>
      destruct (random_entry oe (prop data "result") r) as [chosen|e] eqn:Hc;
        [|discriminate]
  end.
  destruct (newPK chosen) as [tipAccount|e] eqn:Hk; [|discriminate].
  match goal with
  | |- context [answer (latest_blockhash net ?st ?c)] =>
      destruct (answer (latest_blockhash net st c)) as [blockhash|e]; [|discriminate]
  end.
  destruct (if u64 _ then None else refused _); [discriminate|].
  intros H. inversion H; subst.
  eexists data, _, chosen, tipAccount, blockhash.
  split; [reflexivity|]. split; [exact Hc|]. split; [exact Hk|]. split; [|reflexivity].
  intros items Hitems Hne. rewrite Hitems in Hc.
  match type of Hc with
  | random_entry _ _ ?r = _ =>
      destruct (random_entry_of_array oe items r Hne) as (entry & He & Hin)
  end.
  rewrite He in Hc. inversion Hc; subst. exists entry. split; [reflexivity | exact Hin].
Qed.

Lemma C6_witness :
  createTipTransaction tip_relay amsterdam key_of_string no_entry strict_transfer payer
    (Some 50000) None s0
  = (Ret {| payerKey := payer; recentBlockhash := "blockhash";
            instructions := [SystemProgram_transfer payer {| bn := 13 |} 50000];
            signatures := [] |},
     snd (createTipTransaction tip_relay amsterdam key_of_string no_entry strict_transfer
            payer (Some 50000) None s0))
  /\ exists data r chosen tipAccount blockhash,
       answer (respond tip_relay s0 AMSTERDAM_TIP_ACCOUNTS
                 (rpc_body "getTipAccounts" (JArr []))) = Ret data
       /\ random_entry no_entry (prop data "result") r = Ret chosen
       /\ key_of_string chosen = Ret tipAccount
       /\ (forall items, prop data "result" = Some (JArr items) -> items <> [] ->
             exists entry, chosen = Some entry /\ In entry items)
       /\ {| payerKey := payer; recentBlockhash := "blockhash";
             instructions := [SystemProgram_transfer payer {| bn := 13 |} 50000];
             signatures := [] |}
          = {| payerKey := payer; recentBlockhash := blockhash;
               instructions :=
                 [SystemProgram_transfer payer tipAccount
                    (default DEFAULT_TIP_LAMPORTS (Some 50000))];
               signatures := [] |}.
Proof.
  assert (H : createTipTransaction tip_relay amsterdam key_of_string no_entry
                strict_transfer payer (Some 50000) None s0
              = (Ret {| payerKey := payer; recentBlockhash := "blockhash";
                        instructions := [SystemProgram_transfer payer {| bn := 13 |} 50000];
                        signatures := [] |},
                 snd (createTipTransaction tip_relay amsterdam key_of_string no_entry
                        strict_transfer payer (Some 50000) None s0))) by reflexivity.
  split; [exact H|].
  exact (C6_tip_amount_is_passed_through _ _ _ _ _ _ _ _ _ _ _ H).
Defined.

(** C6 fails as stated: a tip of one lamport, below the floor of 1000, is
    neither refused nor raised; the transaction transfers one lamport. *)
Lemma C6_counterexample :
  option_map instructions
    (match fst (createTipTransaction tip_relay amsterdam key_of_string no_entry
                  strict_transfer payer (Some 1) None s0) with
     | Ret tx => Some tx
     | Throw _ => None
     end)
  = Some [SystemProgram_transfer payer {| bn := 13 |} 1]
  /\ ~ C6_as_stated.
Proof.
  split; [reflexivity|]. intros H.
  destruct (H tip_relay amsterdam key_of_string no_entry strict_transfer payer 1 None s0
              _ _ eq_refl)
    as (acct & lamports & Hi & Hm).
  simpl in Hi. inversion Hi; subst. unfold MINIMUM_TIP_LAMPORTS in Hm. lia.
Qed.

End Tip.

(** ** The Drift builders *)

Module ShortBuild.

Import Jito Drift.

Lemma nth_error_after {T : Type} (p l q : list T) (k : nat) :
  nth_error (p ++ l ++ q) (List.length p + List.length l + k) = nth_error q k.
Proof.
  rewrite app_assoc, nth_error_app2; rewrite length_app; [f_equal; lia | lia].
Qed.

Lemma deposit_requested_positive (d : Q) :
  (0 < d)%Q -> deposit_requested (Some d) = true /\ number_truthy (Some d) = true.
Proof.
  intros Hd. unfold deposit_requested, number_truthy.
  assert (E1 : Qeq_bool d 0 = false).
  { destruct (Qeq_bool d 0) eqn:E; [|reflexivity].
    apply Qeq_bool_iff in E. rewrite E in Hd. exfalso. exact (Qlt_irrefl _ Hd). }
  assert (E2 : Qle_bool d 0 = false).
  { destruct (Qle_bool d 0) eqn:E; [|reflexivity].
    apply Qle_bool_iff in E. exfalso. exact (Qlt_not_le _ _ Hd E). }
  rewrite E1, E2. split; reflexivity.
Qed.

Lemma ensure_user_cases (sdk : Sdk) (c : DriftClient) (sub : Z) (s s' : state)
    (known : bool) (init : list TransactionInstruction) :
  ensure_user sdk c sub s = (Ret (known, init), s') ->
  s' = s
  /\ (getUser sdk s c sub = None -> init = [])
  /\ (getUser sdk s c sub <> None -> getInitializeUserAccountIxs sdk s c sub = Ret init).
Proof.
  unfold ensure_user. destruct (getUser sdk s c sub) as [e|].
  - destruct (getInitializeUserAccountIxs sdk s c sub) as [ixs|e']; [|discriminate].
    intros H; inversion H; subst. repeat split; congruence.
  - intros H; inversion H; subst. repeat split; congruence.
Qed.

(** C8: a short-position build with a positive deposit amount that returns a
    transaction returns one transaction whose instructions are the two
    compute-budget instructions, then the instructions that initialise the
    user account when it is not there yet (none when it is), then the USDC
    deposit instruction, then the perp order: the deposit sits right before
    the order, in the same transaction, and the initialisation comes before
    both. *)
Theorem C8_deposit_precedes_order :
  forall (sdk : Sdk) (net : world) (usdc_mint : outcome PublicKey) (spot : Z)
         (userPublicKey : PublicKey) (driftClient : DriftClient) (marketName : string)
         (baseAssetAmount d : Q) (subAccountId : option Z) (s s' : state)
         (tx : VersionedTransaction),
    (0 < d)%Q ->
    buildDriftShortTransaction sdk net usdc_mint spot userPublicKey driftClient
      marketName baseAssetAmount (Some d) subAccountId s = (Ret tx, s') ->
    exists init depositIx shortIx,
      instructions tx
      = ([ComputeBudget_setComputeUnitLimit 800000; ComputeBudget_setComputeUnitPrice 1000]
         ++ init ++ [depositIx; shortIx])%list
      /\ (getUser sdk s driftClient (default 0 subAccountId) = None -> init = [])
      /\ (getUser sdk s driftClient (default 0 subAccountId) <> None ->
          getInitializeUserAccountIxs sdk s driftClient (default 0 subAccountId) = Ret init)
      /\ (exists amount mint account initialized,
            new_BN sdk (d * million)%Q = Ret amount
            /\ usdc_mint = Ret mint
            /\ getAssociatedTokenAddress sdk s mint (wallet_publicKey driftClient)
               = Ret account
            /\ getDepositInstruction sdk s driftClient amount spot account
                 (default 0 subAccountId) false initialized = Ret depositIx)
      /\ (exists params,
            direction params = SHORT
            /\ getPlacePerpOrderIx sdk s driftClient params (default 0 subAccountId)
               = Ret shortIx)
      /\ nth_error (instructions tx) (2 + List.length init) = Some depositIx
      /\ nth_error (instructions tx) (3 + List.length init) = Some shortIx.
Proof.
  intros sdk net mint spot upk c name base d sub s s' tx Hd.
  destruct (deposit_requested_positive d Hd) as [Hreq Htruthy].
  unfold buildDriftShortTransaction, buildDriftShortInstructions, bind, lift, ret, throw,
    ask, getLatestBlockhash, unsigned.
  rewrite Hreq, Htruthy. cbn [default].
  destruct (getPerpMarketIndex sdk name) as [idx|e]; [|discriminate].
  destruct (ensure_user sdk c (default 0 sub) s) as [[[known init]|e] s1] eqn:Hu;
    [|discriminate].
  destruct (ensure_user_cases sdk c _ s s1 known init Hu) as (-> & Hnone & Hsome).
  cbn [fst snd].
  destruct (new_BN sdk (d * million)%Q) as [amount|e] eqn:Hbn; [|discriminate].
  destruct mint as [usdcMint|e]; [|discriminate].
  destruct (getAssociatedTokenAddress sdk s usdcMint (wallet_publicKey c))
    as [account|e] eqn:Hata; [|discriminate].
  destruct (getDepositInstruction sdk s c amount spot account (default 0 sub) false
              (known || (0 <? List.length init)%nat)) as [depositIx|e] eqn:Hdep;
    [|discriminate].
  destruct (new_BN sdk base) as [b|e]; [|discriminate].
  destruct (getOracleDataForPerpMarket sdk s c idx) as [[price|]|e]; try discriminate.
  match goal with
  | |- context [getPlacePerpOrderIx sdk s c ?p ?n] =>
      destruct (getPlacePerpOrderIx sdk s c p n) as [shortIx|e] eqn:Hord;
        [|discriminate]
  end.
  destruct (answer (latest_blockhash net s "confirmed")) as [blockhash|e]; [|discriminate].
  intros H. inversion H; subst. cbn [instructions].
  exists init, depositIx, shortIx.
  rewrite <- !app_assoc.
  split; [reflexivity|]. split; [exact Hnone|]. split; [exact Hsome|].
  split; [exists amount, usdcMint, account, (known || (0 <? List.length init)%nat);
          repeat split; assumption|].
  split; [eexists; split; [|exact Hord]; reflexivity|].
  split.
  - replace (2 + List.length init)%nat with (2 + List.length init + 0)%nat by lia.
    exact (nth_error_after [_; _] init [depositIx; shortIx] 0).
  - replace (3 + List.length init)%nat with (2 + List.length init + 1)%nat by lia.
    exact (nth_error_after [_; _] init [depositIx; shortIx] 1).
Qed.

Lemma C8_witness :
  (0 < 50)%Q
  /\ buildDriftShortTransaction (test_sdk false releases) quiet (Ret usdc) 0 payer
       client0 "JUP-PERP" 10 (Some 50%Q) None s0
     = (Ret short_with_deposit, record (EvBlockhash "confirmed") s0)
  /\ exists init depositIx shortIx,
       instructions short_with_deposit
       = ([ComputeBudget_setComputeUnitLimit 800000;
           ComputeBudget_setComputeUnitPrice 1000]
          ++ init ++ [depositIx; shortIx])%list
       /\ nth_error (instructions short_with_deposit) (2 + List.length init)
          = Some depositIx
       /\ nth_error (instructions short_with_deposit) (3 + List.length init)
          = Some shortIx.
Proof.
  assert (Hd : (0 < 50)%Q) by reflexivity.
  assert (Hb : buildDriftShortTransaction (test_sdk false releases) quiet (Ret usdc) 0
                 payer client0 "JUP-PERP" 10 (Some 50%Q) None s0
               = (Ret short_with_deposit, record (EvBlockhash "confirmed") s0))
    by (vm_compute; reflexivity).
  split; [exact Hd | split; [exact Hb|]].
  destruct (C8_deposit_precedes_order (test_sdk false releases) quiet (Ret usdc) 0 payer
              client0 "JUP-PERP" 10 50 None s0 _ _ Hd Hb)
    as (init & depositIx & shortIx & H1 & _ & _ & _ & _ & H2 & H3).
  exists init, depositIx, shortIx. repeat split; assumption.
Defined.

End ShortBuild.

(** ** The [useDriftShort] hook *)

Module Hook.

Import Jito Drift.

(** C9, on the code: [unsubscribe] throws on the success path, the [catch]
    block calls it once more on the stored client, it throws again, and the
    call ends by throwing with the client still stored in the reference and
    never released. *)
Theorem C9_failed_release_keeps_the_client :
  fst (buildShort (test_sdk true never_releases) quiet (Ret usdc) 0 connected
         "JUP-PERP" 10 (Some 50%Q) None fresh_hook)
  = Throw release_failure
  /\ driftClientRef
       (snd (buildShort (test_sdk true never_releases) quiet (Ret usdc) 0 connected
               "JUP-PERP" 10 (Some 50%Q) None fresh_hook))
     = Some client0
  /\ unsubscribes
       (trace (sys (snd (buildShort (test_sdk true never_releases) quiet (Ret usdc) 0
                           connected "JUP-PERP" 10 (Some 50%Q) None fresh_hook))))
     = [0%nat; 0%nat]
  /\ driftClientRef
       (snd (buildDeposit (test_sdk true never_releases) quiet (Ret usdc) 0 connected
               100 None fresh_hook))
     = Some client0.
Proof. vm_compute. repeat split. Qed.

(** A client whose subscription fails is constructed and never released
    either; the reference was not set yet. *)
Example failed_subscription_is_not_released :
  fst (buildShort deaf_sdk quiet (Ret usdc) 0 connected "JUP-PERP" 10 None None
         fresh_hook) = Ret None
  /\ trace (sys (snd (buildShort deaf_sdk quiet (Ret usdc) 0 connected "JUP-PERP" 10
                        None None fresh_hook)))
     = [EvNewClient 0; EvSubscribe 0]
  /\ op_state (snd (buildShort deaf_sdk quiet (Ret usdc) 0 connected "JUP-PERP" 10
                      None None fresh_hook))
     = Error "subscribe failed".
Proof. vm_compute. repeat split. Qed.

(** The client left behind by a failed release is picked up by the [catch]
    block of the next build call, which unsubscribes it once more. *)
Example stale_client_reaches_the_next_call :
  unsubscribes
    (trace (sys (snd (buildDeposit unreachable_sdk quiet (Ret usdc) 0 connected 100 None
                        (snd (buildShort (test_sdk true never_releases) quiet (Ret usdc)
                                0 connected "JUP-PERP" 10 (Some 50%Q) None
                                fresh_hook))))))
  = [0%nat; 0%nat; 0%nat].
Proof. vm_compute. reflexivity. Qed.

Section Release.

Variable sdk : Sdk.
Variable net : world.
Variable usdc_mint : outcome PublicKey.
Variable spot : Z.
Variable wallet : Wallet.

Hypothesis unsubscribe_succeeds : forall s c, unsubscribe sdk s c = None.

(** What holds of the builders as long as [unsubscribe] does not throw: the
    call returns, the reference is empty afterwards, and a client that was
    initialised has been unsubscribed as the last effect of the call. *)
Lemma guarded_build_releases (build : DriftClient -> M VersionedTransaction)
    (publicKey : PublicKey) (h h' : hook) (o : outcome (option VersionedTransaction)) :
  driftClientRef h = None ->
  try_catch
    (driftClient <- in_sys (initializeDriftClient sdk publicKey) ;;
     set_ref (Some driftClient) ;;;
     transaction <- in_sys (build driftClient) ;;
     in_sys (cleanupDriftClient sdk driftClient) ;;;
     set_ref None ;;;
     setState (Success transaction) ;;;
     ret (Some transaction))
    (cleanup_on_error sdk) h = (o, h') ->
  (exists r, o = Ret r)
  /\ driftClientRef h' = None
  /\ forall c s1, initializeDriftClient sdk publicKey (sys h) = (Ret c, s1) ->
       exists t, trace (sys h') = (t ++ [EvUnsubscribe (client_id c)])%list.
Proof.
  intros Href. unfold try_catch, cleanup_on_error.
  unfold bind, in_sys, set_ref, setState, ret, get_ref, cleanupDriftClient.
  destruct (initializeDriftClient sdk publicKey (sys h)) as [[c|e] s1].
  - cbn [sys driftClientRef op_state].
    destruct (build c s1) as [[tx|e] s2]; cbn [sys driftClientRef op_state];
      rewrite unsubscribe_succeeds; cbn [sys driftClientRef op_state];
      intros H; inversion H; subst; cbn [sys driftClientRef op_state];
      (split; [eauto | split; [reflexivity|]]);
      intros c' s1' Hc; inversion Hc; subst; exists (trace s2); reflexivity.
  - cbn [sys driftClientRef op_state]. rewrite Href.
    intros H; inversion H; subst; cbn [sys driftClientRef op_state].
    split; [eauto | split; [reflexivity|]]. intros c' s1' Hc; discriminate.
Qed.

Lemma buildShort_releases (publicKey : PublicKey) (marketName : string)
    (baseAssetAmount : Q) (depositAmount : option Q) (subAccountId : option Z)
    (h h' : hook) (o : outcome (option VersionedTransaction)) :
  Drift.publicKey wallet = Some publicKey ->
  signTransaction wallet && signAllTransactions wallet = true ->
  driftClientRef h = None ->
  buildShort sdk net usdc_mint spot wallet marketName baseAssetAmount depositAmount
    subAccountId h = (o, h') ->
  (exists r, o = Ret r)
  /\ driftClientRef h' = None
  /\ forall c s1, initializeDriftClient sdk publicKey (sys h) = (Ret c, s1) ->
       exists t, trace (sys h') = (t ++ [EvUnsubscribe (client_id c)])%list.
Proof.
  intros Hk Hs Href. unfold buildShort. rewrite Hk, Hs.
  unfold bind at 1. cbn [setState].
  intros H.
  exact (guarded_build_releases _ publicKey
           {| driftClientRef := driftClientRef h; op_state := Loading; sys := sys h |}
           h' o Href H).
Qed.

Lemma buildDeposit_releases (publicKey : PublicKey) (usdcAmount : Q)
    (subAccountId : option Z) (h h' : hook) (o : outcome (option VersionedTransaction)) :
  Drift.publicKey wallet = Some publicKey ->
  signTransaction wallet && signAllTransactions wallet = true ->
  driftClientRef h = None ->
  buildDeposit sdk net usdc_mint spot wallet usdcAmount subAccountId h = (o, h') ->
  (exists r, o = Ret r)
  /\ driftClientRef h' = None
  /\ forall c s1, initializeDriftClient sdk publicKey (sys h) = (Ret c, s1) ->
       exists t, trace (sys h') = (t ++ [EvUnsubscribe (client_id c)])%list.
Proof.
  intros Hk Hs Href. unfold buildDeposit. rewrite Hk, Hs.
  unfold bind at 1. cbn [setState].
  intros H.
  exact (guarded_build_releases _ publicKey
           {| driftClientRef := driftClientRef h; op_state := Loading; sys := sys h |}
           h' o Href H).
Qed.

End Release.

End Hook.

(** ** Further facts about the confirmation poller *)

Module PollerFacts.

Import Jito JitoFacts.

Section Loop.

Variable net : world.
Variable A : string.
Variable b : value.
Variable ep : option string.

(** An iteration ends in one of three ways: the status query threw, the
    inflight query threw, or both returned and the status list decided. *)
Lemma poll_attempt_shape (s : state) :
  poll_attempt net A b ep s = (None, after_status net b s)
  \/ poll_attempt net A b ep s = (None, after_inflight net b s)
  \/ exists statuses,
       poll_attempt net A b ep s
       = (inspect b statuses, snd (sleep 1000 (after_inflight net b s))).
Proof.
  unfold poll_attempt, poll_try, bind.
  pose proof (getBundleStatuses_state net A [b] ep s) as E1.
  destruct (getBundleStatuses net A [b] ep s) as [o s1]. simpl in E1. subst s1.
  unfold after_inflight, after_status.
  destruct o as [statuses|e]; [|left; reflexivity].
  cbn [sleep fst snd].
  pose proof (getBundleInflightStatuses_state net A [b] ep
                (snd (sleep 1000 (after_status net b s)))) as E2.
  unfold after_status in *. cbn [sleep fst snd] in E2.
  destruct (getBundleInflightStatuses net A [b] ep _) as [o s3]. simpl in E2. subst s3.
  destruct o as [inflight|e].
  - right; right. exists statuses. reflexivity.
  - right; left. reflexivity.
Qed.

Lemma posts_app (t u : list event) : posts (t ++ u) = (posts t ++ posts u)%list.
Proof. unfold posts. apply flat_map_app. Qed.

Lemma posts_after_status (s : state) :
  posts (trace (after_status net b s))
  = (posts (trace s) ++ [(AMSTERDAM_BUNDLE_STATUSES, statuses_body [b])])%list.
Proof.
  unfold after_status, after_post. cbn [trace advance record].
  rewrite posts_app. reflexivity.
Qed.

Lemma posts_after_inflight (s : state) :
  posts (trace (after_inflight net b s))
  = (posts (trace s) ++ [(AMSTERDAM_BUNDLE_STATUSES, statuses_body [b]);
                         (AMSTERDAM_INFLIGHT_STATUSES, inflight_body [b])])%list.
Proof.
  unfold after_inflight, after_status, after_post.
  cbn [trace advance record sleep snd].
  rewrite !posts_app, <- !app_assoc. reflexivity.
Qed.

Lemma posts_after_sleep (ms : Z) (s : state) :
  posts (trace (snd (sleep ms s))) = posts (trace s).
Proof.
  cbn [trace advance record sleep snd]. rewrite posts_app. simpl. apply app_nil_r.
Qed.

Lemma now_after_sleep (ms : Z) (s : state) :
  now (snd (sleep ms s)) = now s + Z.max 0 ms.
Proof. reflexivity. Qed.

(** The requests of an iteration: the status query, then the inflight query
    if the first one returned. *)
Lemma poll_attempt_posts (s : state) :
  posts (trace (snd (poll_attempt net A b ep s)))
  = (posts (trace s) ++ [(AMSTERDAM_BUNDLE_STATUSES, statuses_body [b])])%list
  \/ posts (trace (snd (poll_attempt net A b ep s)))
     = (posts (trace s) ++ [(AMSTERDAM_BUNDLE_STATUSES, statuses_body [b]);
                            (AMSTERDAM_INFLIGHT_STATUSES, inflight_body [b])])%list.
Proof.
  destruct (poll_attempt_shape s) as [H | [H | [statuses H]]]; rewrite H; cbn [snd].
  - left. apply posts_after_status.
  - right. apply posts_after_inflight.
  - right. rewrite posts_after_sleep. apply posts_after_inflight.
Qed.

Lemma poll_attempt_monotone (s : state) :
  now s <= now (snd (poll_attempt net A b ep s)).
Proof.
  pose proof (N2Z.is_nonneg (latency (respond net s AMSTERDAM_BUNDLE_STATUSES
                                        (statuses_body [b])))) as P1.
  pose proof (N2Z.is_nonneg
                (latency (respond net (snd (sleep 1000 (after_status net b s)))
                            AMSTERDAM_INFLIGHT_STATUSES (inflight_body [b])))) as P2.
  destruct (poll_attempt_shape s) as [H | [H | [statuses H]]]; rewrite H;
    unfold after_inflight, after_status, after_post in *; simpl in *; lia.
Qed.

(** A decision is only taken after both fixed delays. *)
Lemma poll_attempt_decided_late (s s' : state) (r : JitoBundleResult) :
  poll_attempt net A b ep s = (Some r, s') -> now s + 2000 <= now s'.
Proof.
  pose proof (N2Z.is_nonneg (latency (respond net s AMSTERDAM_BUNDLE_STATUSES
                                        (statuses_body [b])))) as P1.
  pose proof (N2Z.is_nonneg
                (latency (respond net (snd (sleep 1000 (after_status net b s)))
                            AMSTERDAM_INFLIGHT_STATUSES (inflight_body [b])))) as P2.
  destruct (poll_attempt_shape s) as [H | [H | [statuses H]]]; rewrite H;
    intros E; inversion E; subst; try discriminate.
  unfold after_inflight, after_status, after_post in *; simpl in *; lia.
Qed.

Lemma inspect_shape (statuses : json) (r : JitoBundleResult) :
  inspect b statuses = Some r ->
  r = landed_result b
  \/ exists err, truthy (Some err) = true /\ r = failed_result b err.
Proof.
  unfold inspect. destruct (truthy (index statuses 0)); [|discriminate].
  destruct (_ || _).
  - intros H; inversion H. now left.
  - destruct (opt_prop (index statuses 0) "err") as [err|]; [|discriminate].
    destruct (truthy (Some err)) eqn:T; [|discriminate].
    intros H; inversion H. right. exists err. split; [exact T | reflexivity].
Qed.

(** No JSON text is the timeout message: a JSON text starts with a quote, a
    bracket, a brace, a sign, a digit, or is one of three keywords. *)
Lemma stringify_is_not_the_timeout_text (v : json) :
  JSON_stringify v <> "Bundle confirmation timeout".
Proof.
  destruct v as [|[|]|n|t|items|fields]; try discriminate.
  cbn [JSON_stringify]. unfold decimal.
  destruct (Z.to_int n) as [d|d]; destruct d; discriminate.
Qed.

(** A result decided by an iteration is not the timeout result. *)
Lemma decision_is_not_the_timeout (s s' : state) (r : JitoBundleResult) :
  poll_attempt net A b ep s = (Some r, s') -> r <> timeout_result b.
Proof.
  intros H E. subst r.
  destruct (poll_attempt_shape s) as [H1 | [H1 | [statuses H1]]]; rewrite H1 in H;
    inversion H as [[Hi Hs]]; try discriminate.
  destruct (inspect_shape _ _ Hi) as [F | (err & _ & F)]; [discriminate F|].
  unfold timeout_result, failed_result in F. inversion F as [Ht].
  exact (stringify_is_not_the_timeout_text err (eq_sym Ht)).
Qed.

Lemma poll_attempt_decision_shape (s s' : state) (r : JitoBundleResult) :
  poll_attempt net A b ep s = (Some r, s') ->
  r = landed_result b
  \/ exists err, truthy (Some err) = true /\ r = failed_result b err.
Proof.
  destruct (poll_attempt_shape s) as [H | [H | [statuses H]]]; rewrite H;
    intros E; inversion E; try discriminate.
  eapply inspect_shape. eassumption.
Qed.

(** A property of states that every iteration and every delay keeps holds
    when the loop returns; and the loop returns either because the budget is
    used up or because an iteration that started within the budget decided. *)
Lemma poll_loop_invariant (P : state -> Prop) (timeout poll start : Z) :
  (forall t, P t -> P (snd (poll_attempt net A b ep t))) ->
  (forall t, P t -> P (snd (sleep poll t))) ->
  forall (fuel : nat) (s s' : state) (r : JitoBundleResult),
    P s ->
    poll_loop net A fuel b ep timeout poll start s = Some (r, s') ->
    P s'
    /\ ((r = timeout_result b /\ timeout <= now s' - start)
        \/ exists t, P t /\ now t - start < timeout
                     /\ poll_attempt net A b ep t = (Some r, s')).
Proof.
  intros Htick Hsleep. induction fuel as [|fuel IH]; intros s s' r Hs; simpl;
    destruct (now s - start <? timeout) eqn:E; try discriminate.
  - intros H; inversion H; subst. apply Z.ltb_ge in E. split; [exact Hs | left; split; [reflexivity | lia]].
  - destruct (poll_attempt net A b ep s) as [[r1|] s1] eqn:Ea.
    + intros H; inversion H; subst. split.
      * pose proof (Htick s Hs) as Hp. rewrite Ea in Hp. exact Hp.
      * right. exists s. apply Z.ltb_lt in E. repeat split; assumption.
    + apply IH. apply Hsleep. pose proof (Htick s Hs) as Hp. rewrite Ea in Hp. exact Hp.
  - intros H; inversion H; subst. apply Z.ltb_ge in E. split; [exact Hs | left; split; [reflexivity | lia]].
Qed.

(** The requests sent since [s] are all queries for the handle: kept by
    every iteration and every delay. *)
Lemma only_queries_tick (s u : state) :
  (exists sent, posts (trace u) = (posts (trace s) ++ sent)%list
                /\ Forall (is_query_for b) sent) ->
  exists sent, posts (trace (snd (poll_attempt net A b ep u)))
               = (posts (trace s) ++ sent)%list
               /\ Forall (is_query_for b) sent.
Proof.
  intros (sent & Hu & Hq).
  destruct (poll_attempt_posts u) as [E | E];
    rewrite E, Hu, <- app_assoc; eexists; (split; [reflexivity|]);
    apply Forall_app; (split; [exact Hq|]).
  - constructor; [left; reflexivity | constructor].
  - constructor; [left; reflexivity|].
    constructor; [right; reflexivity | constructor].
Qed.

Lemma only_queries_sleep (ms : Z) (s u : state) :
  (exists sent, posts (trace u) = (posts (trace s) ++ sent)%list
                /\ Forall (is_query_for b) sent) ->
  exists sent, posts (trace (snd (sleep ms u))) = (posts (trace s) ++ sent)%list
               /\ Forall (is_query_for b) sent.
Proof.
  intros (sent & Hu & Hq). exists sent. rewrite posts_after_sleep. split; assumption.
Qed.

End Loop.
End PollerFacts.

(** ** Further properties of the poller and of the submission *)

Module PollerProperties.

Import Jito JitoFacts PollerFacts.

(** X1: whatever [waitForBundleConfirmation] returns is a result for the
    handle it was given, and it is a success without error text, the timeout
    result, or a failure whose error text is the JSON of a truthy error
    field; success and absence of an error text go together. *)
Theorem poller_result_is_for_the_handle :
  forall (net : world) (A : string) (fuel : nat) (b : value) (endpoint : option string)
         (timeoutMs pollIntervalMs : option Z) (s s' : state) (r : JitoBundleResult),
    waitForBundleConfirmation net A fuel b endpoint timeoutMs pollIntervalMs s
    = Some (r, s') ->
    poller_result_shape b r
    /\ bundleId r = b
    /\ (success r = true <-> error r = None).
Proof.
  intros net A fuel b ep t p s s' r H. unfold waitForBundleConfirmation in H.
  destruct (poll_loop_invariant net A b _ (fun _ => True) _ _ _
              (fun _ _ => I) (fun _ _ => I) fuel s s' r I H)
    as (_ & [[Hr _] | (u & _ & _ & Hu)]).
  - subst r. split; [right; left; reflexivity|]. split; [reflexivity|].
    simpl. split; discriminate.
  - destruct (poll_attempt_decision_shape net A b _ u s' r Hu) as [Hr | (err & T & Hr)];
      subst r.
    + split; [left; reflexivity|]. split; [reflexivity|]. simpl. split; reflexivity.
    + split; [right; right; exists err; split; [exact T | reflexivity]|].
      split; [reflexivity|]. simpl. split; discriminate.
Qed.

Lemma poller_result_is_for_the_handle_witness :
  waitForBundleConfirmation landing_relay amsterdam 3 bundle None None None s0
  = Some (landed_result bundle,
          snd (poll_attempt landing_relay amsterdam bundle (Some amsterdam) s0))
  /\ poller_result_shape bundle (landed_result bundle)
  /\ bundleId (landed_result bundle) = bundle
  /\ (success (landed_result bundle) = true <-> error (landed_result bundle) = None).
Proof.
  assert (H : waitForBundleConfirmation landing_relay amsterdam 3 bundle None None None s0
              = Some (landed_result bundle,
                      snd (poll_attempt landing_relay amsterdam bundle
                             (Some amsterdam) s0))) by (vm_compute; reflexivity).
  split; [exact H|].
  exact (poller_result_is_for_the_handle _ _ _ _ _ _ _ _ _ _ H).
Defined.

(** X2: every request [waitForBundleConfirmation] sends is a status query or
    an inflight-status query for its handle; it never sends anything else,
    a submission in particular. *)
Theorem poller_sends_only_queries :
  forall (net : world) (A : string) (fuel : nat) (b : value) (endpoint : option string)
         (timeoutMs pollIntervalMs : option Z) (s s' : state) (r : JitoBundleResult),
    waitForBundleConfirmation net A fuel b endpoint timeoutMs pollIntervalMs s
    = Some (r, s') ->
    exists sent,
      posts (trace s') = (posts (trace s) ++ sent)%list
      /\ Forall (is_query_for b) sent.
Proof.
  intros net A fuel b ep t p s s' r H. unfold waitForBundleConfirmation in H.
  refine (proj1 (poll_loop_invariant net A b _
                   (fun u => exists sent,
                        posts (trace u) = (posts (trace s) ++ sent)%list
                        /\ Forall (is_query_for b) sent)
                   _ _ _ _ _ fuel s s' r _ H)).
  - intros u Hu. exact (only_queries_tick net A b _ s u Hu).
  - intros u Hu. exact (only_queries_sleep b _ s u Hu).
  - exists []. rewrite app_nil_r. split; [reflexivity | constructor].
Qed.

Lemma poller_sends_only_queries_witness :
  waitForBundleConfirmation (steady 0 (Ret unknown_bundle)) amsterdam 2 bundle None
    (Some 4000) None s0
  = Some (timeout_result bundle,
          snd (sleep 2000 (snd (poll_attempt (steady 0 (Ret unknown_bundle)) amsterdam
                                  bundle None s0))))
  /\ exists sent,
       posts (trace (snd (sleep 2000 (snd (poll_attempt (steady 0 (Ret unknown_bundle))
                                              amsterdam bundle None s0)))))
       = (posts (trace s0) ++ sent)%list
       /\ Forall (is_query_for bundle) sent.
Proof.
  assert (H : waitForBundleConfirmation (steady 0 (Ret unknown_bundle)) amsterdam 2
                bundle None (Some 4000) None s0
              = Some (timeout_result bundle,
                      snd (sleep 2000
                             (snd (poll_attempt (steady 0 (Ret unknown_bundle))
                                     amsterdam bundle None s0)))))
    by (vm_compute; reflexivity).
  split; [exact H|].
  exact (poller_sends_only_queries _ _ _ _ _ _ _ _ _ _ H).
Defined.

(** X3: the clock at the return of [waitForBundleConfirmation] is never
    before the clock at its call; the timeout result is only returned once
    the whole budget has elapsed, and any other result, a success in
    particular, only after the two fixed delays of an iteration, 2000 ms.
    Every return is of one of these two kinds. *)
Theorem poller_reports_no_sooner :
  forall (net : world) (A : string) (fuel : nat) (b : value) (endpoint : option string)
         (timeoutMs : Z) (pollIntervalMs : option Z) (s s' : state)
         (r : JitoBundleResult),
    waitForBundleConfirmation net A fuel b endpoint (Some timeoutMs) pollIntervalMs s
    = Some (r, s') ->
    now s <= now s'
    /\ (r = timeout_result b -> timeoutMs <= now s' - now s)
    /\ (r <> timeout_result b -> 2000 <= now s' - now s)
    /\ (success r = true -> 2000 <= now s' - now s)
    /\ ((r = timeout_result b /\ timeoutMs <= now s' - now s)
        \/ (r <> timeout_result b /\ 2000 <= now s' - now s)).
Proof.
  intros net A fuel b ep t p s s' r H. unfold waitForBundleConfirmation in H.
  cbn [default] in H.
  destruct (poll_loop_invariant net A b _ (fun u => now s <= now u) _ _ _
              (fun u Hu => Z.le_trans _ _ _ Hu (poll_attempt_monotone net A b _ u))
              (fun u Hu => Z.le_trans _ _ _ Hu
                             (eq_ind _ (fun x => now u <= x)
                                (ltac:(lia) : now u <= now u + Z.max 0 (default 2000 p))
                                _ (eq_sym (now_after_sleep _ u))))
              fuel s s' r (Z.le_refl _) H)
    as (Hmono & [[Hr Hb] | (u & Hu & _ & Ha)]).
  - split; [exact Hmono|]. split; [intros _; exact Hb|]. split.
    + intros Hne. contradiction.
    + split; [subst r; discriminate|]. left. split; assumption.
  - pose proof (poll_attempt_decided_late net A b _ u s' r Ha) as Hl.
    pose proof (decision_is_not_the_timeout net A b _ u s' r Ha) as Hne.
    split; [exact Hmono|]. split; [intros E; contradiction|].
    split; [intros _; lia|]. split; [intros _; lia|]. right. split; [exact Hne | lia].
Qed.

Lemma poller_reports_no_sooner_witness :
  (waitForBundleConfirmation landing_relay amsterdam 3 bundle None (Some 60000) None s0
   = Some (landed_result bundle,
           snd (poll_attempt landing_relay amsterdam bundle (Some amsterdam) s0))
   /\ 2000 <= now (snd (poll_attempt landing_relay amsterdam bundle (Some amsterdam) s0))
              - now s0)
  /\ (waitForBundleConfirmation (steady 5 (Ret unknown_bundle)) amsterdam 3 bundle None
        (Some 3000) None s0
      = Some (timeout_result bundle,
              {| now := 4010;
                 trace := [EvPost AMSTERDAM_BUNDLE_STATUSES (statuses_body [bundle]);
                           EvSleep 1000;
                           EvPost AMSTERDAM_INFLIGHT_STATUSES (inflight_body [bundle]);
                           EvSleep 1000; EvSleep 2000] |})
      /\ 3000 <= 4010 - now s0).
Proof.
  assert (H : waitForBundleConfirmation landing_relay amsterdam 3 bundle None
                (Some 60000) None s0
              = Some (landed_result bundle,
                      snd (poll_attempt landing_relay amsterdam bundle
                             (Some amsterdam) s0))) by (vm_compute; reflexivity).
  assert (T : waitForBundleConfirmation (steady 5 (Ret unknown_bundle)) amsterdam 3 bundle
                None (Some 3000) None s0
              = Some (timeout_result bundle,
                      {| now := 4010;
                         trace := [EvPost AMSTERDAM_BUNDLE_STATUSES (statuses_body [bundle]);
                                   EvSleep 1000;
                                   EvPost AMSTERDAM_INFLIGHT_STATUSES
                                     (inflight_body [bundle]);
                                   EvSleep 1000; EvSleep 2000] |}))
    by (vm_compute; reflexivity).
  split; (split; [assumption|]).
  - apply (poller_reports_no_sooner _ _ _ _ _ _ _ _ _ _ H). reflexivity.
  - exact (proj1 (proj2 (poller_reports_no_sooner _ _ _ _ _ _ _ _ _ _ T)) eq_refl).
Defined.

(** X4: with a positive budget, a call of [waitForBundleConfirmation] that
    returns has sent at least one request, and the first one is the status
    query for the handle. *)
Theorem positive_budget_queries_first :
  forall (net : world) (A : string) (fuel : nat) (b : value) (endpoint : option string)
         (timeoutMs : Z) (pollIntervalMs : option Z) (s s' : state)
         (r : JitoBundleResult),
    0 < timeoutMs ->
    waitForBundleConfirmation net A fuel b endpoint (Some timeoutMs) pollIntervalMs s
    = Some (r, s') ->
    exists later,
      posts (trace s')
      = (posts (trace s)
         ++ (AMSTERDAM_BUNDLE_STATUSES, statuses_body [b]) :: later)%list.
Proof.
  intros net A fuel b ep t p s s' r Ht H. unfold waitForBundleConfirmation in H.
  cbn [default] in H.
  set (P := fun u : state =>
              exists later,
                posts (trace u)
                = (posts (trace s)
                   ++ (AMSTERDAM_BUNDLE_STATUSES, statuses_body [b]) :: later)%list).
  assert (Htick : forall u, P u -> P (snd (poll_attempt net A b (Some (default A ep)) u))).
  { intros u (later & Hu).
    destruct (poll_attempt_posts net A b (Some (default A ep)) u) as [E | E];
      unfold P; rewrite E, Hu, <- app_assoc; eexists; reflexivity. }
  assert (Hsleep : forall u, P u -> P (snd (sleep (default 2000 p) u))).
  { intros u (later & Hu). exists later. rewrite posts_after_sleep. exact Hu. }
  assert (Hfirst : P (snd (poll_attempt net A b (Some (default A ep)) s))).
  { destruct (poll_attempt_posts net A b (Some (default A ep)) s) as [E | E];
      unfold P; rewrite E; eexists; reflexivity. }
  destruct fuel as [|fuel]; cbn [poll_loop] in H;
    replace (now s - now s) with 0 in H by lia;
    destruct (0 <? t) eqn:E; try discriminate; try (apply Z.ltb_ge in E; lia).
  destruct (poll_attempt net A b (Some (default A ep)) s) as [[r1|] s1] eqn:Ea.
  - inversion H; subst. exact Hfirst.
  - exact (proj1 (poll_loop_invariant net A b _ P _ _ _ Htick Hsleep fuel _ s' r
                    (Hsleep _ Hfirst) H)).
Qed.

Lemma positive_budget_queries_first_witness :
  0 < 4000
  /\ waitForBundleConfirmation (steady 0 (Ret unknown_bundle)) amsterdam 2 bundle None
       (Some 4000) None s0
     = Some (timeout_result bundle,
             snd (sleep 2000 (snd (poll_attempt (steady 0 (Ret unknown_bundle)) amsterdam
                                     bundle None s0))))
  /\ exists later,
       posts (trace (snd (sleep 2000 (snd (poll_attempt (steady 0 (Ret unknown_bundle))
                                              amsterdam bundle None s0)))))
       = (posts (trace s0)
          ++ (AMSTERDAM_BUNDLE_STATUSES, statuses_body [bundle]) :: later)%list.
Proof.
  assert (Ht : 0 < 4000) by lia.
  assert (H : waitForBundleConfirmation (steady 0 (Ret unknown_bundle)) amsterdam 2
                bundle None (Some 4000) None s0
              = Some (timeout_result bundle,
                      snd (sleep 2000
                             (snd (poll_attempt (steady 0 (Ret unknown_bundle))
                                     amsterdam bundle None s0)))))
    by (vm_compute; reflexivity).
  split; [exact Ht | split; [exact H|]].
  exact (positive_budget_queries_first _ _ _ _ _ _ _ _ _ _ Ht H).
Defined.

(** X5: when no tick finds a decisive record (the slot stays null or absent,
    or the record is neither landed nor in error), the only result is the
    timeout result, it is returned no sooner than the budget, and with a
    positive poll interval it is returned. *)
Theorem undecided_polling_times_out :
  forall (net : world) (A : string) (b : value) (endpoint : option string)
         (timeoutMs pollIntervalMs : Z) (s : state),
    (forall t, fst (poll_attempt net A b endpoint t) = None) ->
    (forall fuel r s',
       waitForBundleConfirmation net A fuel b endpoint
         (Some timeoutMs) (Some pollIntervalMs) s = Some (r, s') ->
       r = timeout_result b /\ timeoutMs <= now s' - now s)
    /\ (0 < pollIntervalMs ->
        exists fuel s',
          waitForBundleConfirmation net A fuel b endpoint
            (Some timeoutMs) (Some pollIntervalMs) s = Some (timeout_result b, s')).
Proof.
  intros net A b ep t p s Hnone.
  assert (Hres : forall fuel r s',
             waitForBundleConfirmation net A fuel b ep (Some t) (Some p) s
             = Some (r, s') -> r = timeout_result b /\ t <= now s' - now s).
  { intros fuel r s' H. unfold waitForBundleConfirmation in H.
    destruct (poll_loop_invariant net A b _ (fun _ => True) _ _ _
                (fun _ _ => I) (fun _ _ => I) fuel s s' r I H)
      as (_ & [Hr | (u & _ & _ & Hu)]); [exact Hr|].
    pose proof (Hnone u) as Hn.
    change (fst (poll_attempt net A b (Some (default A ep)) u) = None) in Hn.
    rewrite Hu in Hn. discriminate. }
  split; [exact Hres|]. intros Hp.
  destruct (poll_loop_terminates net A b (Some (default A ep)) t p (now s) Hp
              (Z.to_nat t) s) as (r & s' & H); [lia|].
  exists (Z.to_nat t), s'.
  rewrite <- (proj1 (Hres (Z.to_nat t) r s' H)). exact H.
Qed.

Lemma undecided_polling_times_out_witness :
  (forall t, fst (poll_attempt (steady 0 (Ret unknown_bundle)) amsterdam bundle None t)
             = None)
  /\ (forall fuel r s',
        waitForBundleConfirmation (steady 0 (Ret unknown_bundle)) amsterdam fuel bundle
          None (Some 6000) (Some 2000) s0 = Some (r, s') ->
        r = timeout_result bundle /\ 6000 <= now s' - now s0)
  /\ (exists fuel s',
        waitForBundleConfirmation (steady 0 (Ret unknown_bundle)) amsterdam fuel bundle
          None (Some 6000) (Some 2000) s0 = Some (timeout_result bundle, s')).
Proof.
  assert (Hn : forall t, fst (poll_attempt (steady 0 (Ret unknown_bundle)) amsterdam
                               bundle None t) = None) by (intros t; reflexivity).
  destruct (undecided_polling_times_out (steady 0 (Ret unknown_bundle)) amsterdam bundle
              None 6000 2000 s0 Hn) as [Hres Hend].
  split; [exact Hn | split; [exact Hres | apply Hend; lia]].
Defined.

(** X6: a call of [submitAndConfirmBundle] that returns has submitted the
    bundle at most once.  When serialising a transaction throws, it has sent
    no request and done nothing else, and it returns the failure with the
    message of what the serialiser threw.  Otherwise the submission is its
    first request, sent exactly once, to the bundles URL; every later
    request is a status or inflight-status query for the handle the relay
    returned, and the result carries that handle; when the submission threw
    there is no later request and the result carries the empty handle. *)
Theorem bundle_is_submitted_at_most_once :
  forall (net : world) (A : string)
         (serialize_base64 : VersionedTransaction -> outcome string)
         (fuel : nat) (transactions : list VersionedTransaction)
         (timeoutMs : option Z) (s s' : state) (r : JitoBundleResult),
    submitAndConfirmBundle net A serialize_base64 fuel transactions timeoutMs s
    = Some (r, s') ->
    match map_outcome serialize_base64 transactions with
    | Throw thrown =>
        s' = s
        /\ r = {| bundleId := Some (JStr EmptyString); success := false;
                  error := Some (exn_message thrown) |}
    | Ret encoded =>
        exists later,
          posts (trace s')
          = (posts (trace s) ++ (AMSTERDAM_BUNDLES, bundle_body encoded) :: later)%list
          /\ posts_to AMSTERDAM_BUNDLES (trace s')
             = S (posts_to AMSTERDAM_BUNDLES (trace s))
          /\ ((exists e, fst (sendBundle net A serialize_base64 transactions
                                (Some TOKYO_BUNDLES) s) = Throw e)
              /\ later = [] /\ bundleId r = Some (JStr EmptyString)
              \/ exists handle,
                   fst (sendBundle net A serialize_base64 transactions
                          (Some TOKYO_BUNDLES) s) = Ret handle
                   /\ Forall (is_query_for handle) later /\ bundleId r = handle)
    end.
Proof.
  intros net A ser fuel txs t s s' r. unfold submitAndConfirmBundle.
  pose proof (sendBundle_state net A ser txs (Some TOKYO_BUNDLES) s) as Hs.
  destruct (map_outcome ser txs) as [encoded|thrown] eqn:Hen.
  2:{ rewrite (sendBundle_unserialisable net A ser txs _ s thrown Hen).
      intros H. inversion H. split; reflexivity. }
  destruct (sendBundle net A ser txs (Some TOKYO_BUNDLES) s) as [[handle|e] s1];
    cbn [snd fst] in *; subst s1.
  - intros H. unfold waitForBundleConfirmation in H.
    set (posted := after_post net AMSTERDAM_BUNDLES (bundle_body encoded) s) in *.
    destruct (poll_loop_invariant net A handle _
                (fun u => exists sent,
                     posts (trace u) = (posts (trace posted) ++ sent)%list
                     /\ Forall (is_query_for handle) sent)
                _ _ _
                (fun u Hu => only_queries_tick net A handle _ posted u Hu)
                (fun u Hu => only_queries_sleep handle _ posted u Hu)
                fuel posted s' r
                (ex_intro _ [] (conj (eq_sym (app_nil_r _)) (Forall_nil _))) H)
      as ((sent & Hp & Hq) & Hdec).
    assert (Hb : bundleId r = handle).
    { destruct Hdec as [[-> _] | (u & _ & _ & Hu)]; [reflexivity|].
      destruct (poll_attempt_decision_shape net A handle _ u s' r Hu)
        as [-> | (err & _ & ->)]; reflexivity. }
    subst posted.
    rewrite trace_after_post, posts_app in Hp. cbn [posts flat_map app] in Hp.
    rewrite <- app_assoc in Hp. cbn [app] in Hp.
    exists sent. split; [exact Hp|]. split.
    + unfold posts_to. rewrite Hp, filter_app, length_app. cbn [filter fst].
      replace (String.eqb AMSTERDAM_BUNDLES AMSTERDAM_BUNDLES) with true by reflexivity.
      assert (Hz : filter (fun q => String.eqb (fst q) AMSTERDAM_BUNDLES) sent = []).
      { clear Hp. induction Hq as [|q sent Hq1 Hq IH]; [reflexivity|].
        cbn [filter]. destruct Hq1 as [-> | ->]; cbn [fst];
          (replace (String.eqb _ AMSTERDAM_BUNDLES) with false by reflexivity);
          exact IH. }
      rewrite Hz. cbn [List.length]. lia.
    + right. exists handle. repeat split; assumption.
  - intros H. inversion H; subst. exists [].
    rewrite trace_after_post, posts_app. cbn [posts flat_map app].
    split; [reflexivity|]. split.
    + unfold posts_to. rewrite posts_app, filter_app, length_app.
      cbn [posts flat_map app filter fst].
      replace (String.eqb AMSTERDAM_BUNDLES AMSTERDAM_BUNDLES) with true by reflexivity.
      cbn [List.length]. lia.
    + left. split; [exists e; reflexivity | split; reflexivity].
Qed.

Lemma bundle_is_submitted_at_most_once_witness :
  (exists r s',
     submitAndConfirmBundle accepting_relay amsterdam wire 3 [tip_transaction] (Some 5000) s0
     = Some (r, s')
     /\ bundleId r = Some (JStr "bundle-1")
     /\ posts_to AMSTERDAM_BUNDLES (trace s') = 1%nat)
  /\ (submitAndConfirmBundle accepting_relay amsterdam wire 3 [tip_transaction; oversized]
        (Some 5000) s0
      = Some ({| bundleId := Some (JStr EmptyString); success := false;
                 error := Some "encoding overruns Uint8Array" |}, s0)
      /\ posts_to AMSTERDAM_BUNDLES (trace s0) = 0%nat).
Proof.
  split.
  - destruct (submitAndConfirmBundle accepting_relay amsterdam wire 3 [tip_transaction]
                (Some 5000) s0) as [[r s']|] eqn:H; [|vm_compute in H; discriminate H].
    exists r, s'. split; [reflexivity|].
    destruct (bundle_is_submitted_at_most_once _ _ _ _ _ _ _ _ _ H)
      as (later & _ & Hc & [[[e He] _] | (handle & Hh & _ & Hb)]).
    + vm_compute in He. discriminate He.
    + split; [|exact Hc]. rewrite Hb. vm_compute in Hh. inversion Hh. reflexivity.
  - assert (H : submitAndConfirmBundle accepting_relay amsterdam wire 3
                  [tip_transaction; oversized] (Some 5000) s0
                = Some ({| bundleId := Some (JStr EmptyString); success := false;
                           error := Some "encoding overruns Uint8Array" |}, s0))
      by reflexivity.
    split; [exact H|].
    destruct (bundle_is_submitted_at_most_once _ _ _ _ _ _ _ _ _ H) as [_ _].
    reflexivity.
Defined.

End PollerProperties.

(** ** Further properties of the tip transaction *)

Module TipProperties.

Import Jito JitoFacts PollerFacts.

Lemma member_returns (data : json) (k : string) (v : value) :
  member (Some data) k = Ret v -> v = prop data k.
Proof. destruct data; simpl; intros H; inversion H; reflexivity. Qed.

(** [getTipAccounts], outcome by outcome. *)
Lemma getTipAccounts_run (net : world) (endpoint : option string) (s : state) :
  let url := default AMSTERDAM_TIP_ACCOUNTS endpoint in
  let posted := after_post net url tip_accounts_body s in
  getTipAccounts net endpoint s
  = match answer (respond net s url tip_accounts_body) with
    | Throw e => (Throw e, posted)
    | Ret data =>
        match member (Some data) "error" with
        | Throw e => (Throw e, posted)
        | Ret err =>
            if truthy err
            then (Throw (JsError ("getTipAccounts failed: "
                                  ++ String_of (opt_prop err "message"))), posted)
            else (Ret (prop data "result"), snd (sleep 1000 posted))
        end
    end.
Proof.
  unfold getTipAccounts, bind, ret, throw, lift, http_post, after_post, tip_accounts_body.
  destruct (answer _) as [data|e]; [|reflexivity].
  destruct (member (Some data) "error") as [err|e]; [|reflexivity].
  destruct (truthy err); reflexivity.
Qed.

(** X7: [getTipAccounts] sends its one request to the endpoint it is given,
    and to the Amsterdam tip-accounts URL when given none.  When it returns,
    the response carried no truthy [error], the value is the response's
    [result] as it is, and the clock stands one second after the answer;
    when it throws, it has not waited. *)
Theorem getTipAccounts_honours_its_endpoint :
  forall (net : world) (endpoint : option string) (s : state),
    let url := default AMSTERDAM_TIP_ACCOUNTS endpoint in
    posts (trace (snd (getTipAccounts net endpoint s)))
    = (posts (trace s) ++ [(url, tip_accounts_body)])%list
    /\ (forall v s', getTipAccounts net endpoint s = (Ret v, s') ->
          exists data,
            answer (respond net s url tip_accounts_body) = Ret data
            /\ truthy (prop data "error") = false
            /\ v = prop data "result"
            /\ now s'
               = now s + Z.of_N (latency (respond net s url tip_accounts_body)) + 1000)
    /\ (forall e s', getTipAccounts net endpoint s = (Throw e, s') ->
          s' = after_post net url tip_accounts_body s).
Proof.
  intros net ep s url. rewrite (getTipAccounts_run net ep s). fold url.
  assert (Hp : posts (trace (after_post net url tip_accounts_body s))
               = (posts (trace s) ++ [(url, tip_accounts_body)])%list)
    by (rewrite trace_after_post, posts_app; reflexivity).
  destruct (answer (respond net s url tip_accounts_body)) as [data|e] eqn:Hd.
  - destruct (member (Some data) "error") as [err|e] eqn:Hm.
    + apply member_returns in Hm. subst err.
      destruct (truthy (prop data "error")) eqn:T.
      * split; [exact Hp|]. split; intros ? ? H; [discriminate H | inversion H; reflexivity].
      * split; [cbn [snd]; rewrite posts_after_sleep; exact Hp|]. split.
        -- intros v s' H. inversion H; subst. exists data.
           split; [reflexivity|]. split; [exact T|]. split; [reflexivity|].
           unfold after_post. cbn [now sleep snd advance record]. lia.
        -- intros e s' H. discriminate H.
    + split; [exact Hp|]. split; intros ? ? H; [discriminate H | inversion H; reflexivity].
  - split; [exact Hp|]. split; intros ? ? H; [discriminate H | inversion H; reflexivity].
Qed.

Lemma getTipAccounts_honours_its_endpoint_witness :
  fst (getTipAccounts tip_relay (Some "https://relay.example/tips") s0)
  = Ret (Some (JArr [JStr "tip-account-a"; JStr "tip-b"]))
  /\ posts (trace (snd (getTipAccounts tip_relay (Some "https://relay.example/tips") s0)))
     = [("https://relay.example/tips", tip_accounts_body)]
  /\ now (snd (getTipAccounts tip_relay (Some "https://relay.example/tips") s0)) = 1000.
Proof.
  destruct (getTipAccounts_honours_its_endpoint tip_relay
              (Some "https://relay.example/tips") s0) as (P & R & _).
  split; [reflexivity|]. split; [exact P|].
  destruct (R _ _ eq_refl) as (data & _ & _ & _ & N). exact N.
Defined.

(** Where [getRandomTipAccount] leaves the state: right after the request
    when the fetch failed, and after the wait and the idle timer otherwise. *)
Lemma getRandomTipAccount_state (net : world)
    (new_PublicKey : value -> outcome PublicKey)
    (object_entry : list (string * json) -> N -> value) (s s1 : state)
    (o : outcome PublicKey) :
  getRandomTipAccount net new_PublicKey object_entry s = (o, s1) ->
  (s1 = after_post net AMSTERDAM_TIP_ACCOUNTS tip_accounts_body s
   /\ exists e, o = Throw e)
  \/ s1 = record (EvTimer 1000)
            (snd (sleep 1000 (after_post net AMSTERDAM_TIP_ACCOUNTS tip_accounts_body s))).
Proof.
  unfold getRandomTipAccount. unfold bind at 1 2 3.
  rewrite (getTipAccounts_run net None s). cbn [default].
  destruct (answer (respond net s AMSTERDAM_TIP_ACCOUNTS tip_accounts_body))
    as [data|e]; [|intros H; inversion H; left; eauto].
  destruct (member (Some data) "error") as [err|e]; [|intros H; inversion H; left; eauto].
  destruct (truthy err); [intros H; inversion H; left; eauto|].
  unfold set_timeout_noop, lift, bind. cbn [sleep snd fst].
  destruct (random_entry object_entry (prop data "result") _) as [chosen|e];
    intros H; inversion H; right; reflexivity.
Qed.

Lemma createTipTransaction_run (net : world) (A : string)
    (new_PublicKey : value -> outcome PublicKey)
    (object_entry : list (string * json) -> N -> value)
    (transfer_refused : Z -> option exn)
    (payerPubkey : PublicKey) (tipLamports : option Z) (endpoint : option string)
    (s : state) :
  createTipTransaction net A new_PublicKey object_entry transfer_refused payerPubkey
    tipLamports endpoint s
  = match getRandomTipAccount net new_PublicKey object_entry s with
    | (Throw e, s1) => (Throw e, s1)
    | (Ret tipAccount, s1) =>
        let asked := advance (Z.of_N (latency (latest_blockhash net s1 "confirmed")))
                       (record (EvBlockhash "confirmed") s1) in
        match answer (latest_blockhash net s1 "confirmed") with
        | Ret blockhash =>
            (match (if u64 (default DEFAULT_TIP_LAMPORTS tipLamports) then None
                    else transfer_refused (default DEFAULT_TIP_LAMPORTS tipLamports)) with
             | Some e => Throw e
             | None =>
                 Ret (unsigned payerPubkey blockhash
                        [SystemProgram_transfer payerPubkey tipAccount
                           (default DEFAULT_TIP_LAMPORTS tipLamports)])
             end, asked)
        | Throw e => (Throw e, asked)
        end
    end.
Proof.
  unfold createTipTransaction. unfold bind at 1.
  destruct (getRandomTipAccount net new_PublicKey object_entry s) as [[acct|e] s1];
    [|reflexivity].
  unfold bind, getLatestBlockhash, ret, throw.
  destruct (answer (latest_blockhash net s1 "confirmed")); [|reflexivity].
  destruct (if u64 _ then None else transfer_refused _); reflexivity.
Qed.

(** X8: in every outcome [createTipTransaction] has sent exactly one request,
    the tip-accounts request to the Amsterdam URL, whatever its [_endpoint]
    argument.  When it returns, its effects are that request, the one-second
    wait, the idle timer and one blockhash query, in this order; when no tip
    account could be obtained it throws what was thrown there and asks for
    no blockhash. *)
Theorem createTipTransaction_footprint :
  forall (net : world) (A : string) (new_PublicKey : value -> outcome PublicKey)
         (object_entry : list (string * json) -> N -> value)
         (transfer_refused : Z -> option exn)
         (payerPubkey : PublicKey) (tipLamports : option Z) (endpoint : option string)
         (s : state),
    let run := createTipTransaction net A new_PublicKey object_entry transfer_refused
                 payerPubkey tipLamports endpoint s in
    posts (trace (snd run))
    = (posts (trace s) ++ [(AMSTERDAM_TIP_ACCOUNTS, tip_accounts_body)])%list
    /\ (forall tx, fst run = Ret tx ->
          trace (snd run)
          = (trace s ++ [EvPost AMSTERDAM_TIP_ACCOUNTS tip_accounts_body;
                         EvSleep 1000; EvTimer 1000; EvBlockhash "confirmed"])%list)
    /\ (forall e s1,
          getRandomTipAccount net new_PublicKey object_entry s = (Throw e, s1) ->
          run = (Throw e, s1)
          /\ ~ In (EvBlockhash "confirmed") (skipn (List.length (trace s)) (trace s1))).
Proof.
  intros net A newPK oe refused payer tip ep s run. subst run.
  rewrite createTipTransaction_run.
  assert (Hskip : forall l, skipn (List.length (trace s)) (trace s ++ l)%list = l).
  { intros l. rewrite skipn_app, Nat.sub_diag, skipn_all. reflexivity. }
  destruct (getRandomTipAccount net newPK oe s) as [o s1] eqn:Hg.
  destruct (getRandomTipAccount_state net newPK oe s s1 o Hg) as [[-> [e ->]] | ->].
  - split; [cbn [snd]; rewrite trace_after_post, posts_app; reflexivity|].
    split; [intros tx H; discriminate H|].
    intros e' s1 H. inversion H; subst. split; [reflexivity|].
    rewrite trace_after_post, Hskip. intros [F | []]. discriminate F.
  - assert (Hr : trace (record (EvTimer 1000)
                          (snd (sleep 1000 (after_post net AMSTERDAM_TIP_ACCOUNTS
                                              tip_accounts_body s))))
                 = (trace s ++ [EvPost AMSTERDAM_TIP_ACCOUNTS tip_accounts_body;
                                EvSleep 1000; EvTimer 1000])%list).
    { cbn [trace record advance sleep snd]. rewrite trace_after_post, <- !app_assoc.
      reflexivity. }
    destruct o as [acct|e].
    + cbv zeta.
      destruct (answer (latest_blockhash net _ "confirmed")) as [blockhash|e];
        cbn [fst snd]; cbn [trace advance record] in *; rewrite Hr.
      * split; [rewrite !posts_app; cbn [posts flat_map app]; rewrite app_nil_r;
                reflexivity|].
        split; [intros tx _; rewrite <- app_assoc; reflexivity|].
        intros e s1 H; discriminate H.
      * split; [rewrite !posts_app; cbn [posts flat_map app]; rewrite app_nil_r;
                reflexivity|].
        split; [intros tx H; discriminate H | intros e' s1 H; discriminate H].
    + cbn [fst snd]. rewrite Hr.
      split; [rewrite posts_app; reflexivity|].
      split; [intros tx H; discriminate H|].
      intros e' s1 H. inversion H; subst. split; [reflexivity|].
      match goal with
      | |- context [skipn _ ?t] =>
          replace t with (trace s ++ [EvPost AMSTERDAM_TIP_ACCOUNTS tip_accounts_body;
                                      EvSleep 1000; EvTimer 1000])%list
            by (symmetry; exact Hr)
      end.
      rewrite Hskip. intros [F | [F | [F | []]]]; discriminate F.
Qed.

Lemma createTipTransaction_footprint_witness :
  (fst (createTipTransaction tip_relay amsterdam key_of_string no_entry strict_transfer
          payer (Some 5000) (Some "https://tokyo.example") s0)
   = Ret (unsigned payer "blockhash"
            [SystemProgram_transfer payer {| bn := 13 |} 5000])
   /\ trace (snd (createTipTransaction tip_relay amsterdam key_of_string no_entry
                    strict_transfer payer (Some 5000) (Some "https://tokyo.example") s0))
      = [EvPost AMSTERDAM_TIP_ACCOUNTS tip_accounts_body; EvSleep 1000; EvTimer 1000;
         EvBlockhash "confirmed"])
  /\ (fst (createTipTransaction tip_relay amsterdam key_of_string no_entry strict_transfer
             payer (Some (-1)) None s0)
      = Throw (JsError "The value of lamports is out of range")
      /\ posts (trace (snd (createTipTransaction tip_relay amsterdam key_of_string no_entry
                              strict_transfer payer (Some (-1)) None s0)))
         = [(AMSTERDAM_TIP_ACCOUNTS, tip_accounts_body)]).
Proof.
  split.
  - destruct (createTipTransaction_footprint tip_relay amsterdam key_of_string no_entry
                strict_transfer payer (Some 5000) (Some "https://tokyo.example") s0)
      as (_ & R & _).
    split; [reflexivity|]. exact (R _ eq_refl).
  - destruct (createTipTransaction_footprint tip_relay amsterdam key_of_string no_entry
                strict_transfer payer (Some (-1)) None s0) as (P & _).
    split; [reflexivity | exact P].
Defined.

(** X9: when the relay publishes an empty list of tip accounts,
    [getRandomTipAccount] hands [undefined] to the [PublicKey] constructor,
    whatever the random draw; its outcome is the constructor's. *)
Theorem empty_tip_list_reaches_the_constructor :
  forall (net : world) (new_PublicKey : value -> outcome PublicKey)
         (object_entry : list (string * json) -> N -> value) (s : state) (data : json),
    answer (respond net s AMSTERDAM_TIP_ACCOUNTS tip_accounts_body) = Ret data ->
    truthy (prop data "error") = false ->
    prop data "result" = Some (JArr []) ->
    fst (getRandomTipAccount net new_PublicKey object_entry s) = new_PublicKey None.
Proof.
  intros net newPK oe s data Hd He Hr.
  unfold getRandomTipAccount. unfold bind at 1 2 3.
  rewrite (getTipAccounts_run net None s). cbn [default]. rewrite Hd.
  destruct data; try discriminate Hr. cbn [member]. rewrite He, Hr.
  unfold set_timeout_noop, lift. cbn [fst snd]. unfold bind.
  cbn [random_entry length_of List.length Z.of_nat].
  unfold random_index. rewrite Z.mul_0_r. cbn [index fst].
  replace (nth_error (@nil json) (Z.to_nat (0 / 2 ^ 53))) with (@None json)
    by (destruct (Z.to_nat (0 / 2 ^ 53)); reflexivity).
  reflexivity.
Qed.

Lemma empty_tip_list_reaches_the_constructor_witness :
  answer (respond (steady 0 (Ret (JObj [("result", JArr [])]))) s0
            AMSTERDAM_TIP_ACCOUNTS tip_accounts_body)
  = Ret (JObj [("result", JArr [])])
  /\ fst (getRandomTipAccount (steady 0 (Ret (JObj [("result", JArr [])])))
            key_of_string no_entry s0)
     = Throw (JsError "Invalid public key input").
Proof.
  split; [reflexivity|].
  exact (empty_tip_list_reaches_the_constructor
           (steady 0 (Ret (JObj [("result", JArr [])]))) key_of_string no_entry s0
           (JObj [("result", JArr [])]) eq_refl eq_refl eq_refl).
Defined.

End TipProperties.

(** ** Further properties of the Drift builders *)

Module DriftProperties.

Import Jito Drift.

Lemma find_symbol_none (markets : list (string * Z)) (name : string) :
  find (fun m => String.eqb (fst m) name) markets = None
  <-> forall idx, ~ In (name, idx) markets.
Proof.
  induction markets as [|[sym i] rest IH]; cbn [find fst].
  - split; [intros _ idx [] | reflexivity].
  - destruct (String.eqb sym name) eqn:E.
    + apply String.eqb_eq in E. subst sym. split; [discriminate|].
      intros H. exfalso. apply (H i). left. reflexivity.
    + apply String.eqb_neq in E. rewrite IH. split.
      * intros H idx [Heq | Hin]; [inversion Heq; congruence | exact (H idx Hin)].
      * intros H idx Hin. apply (H idx). right. exact Hin.
Qed.

(** X10: [getPerpMarketIndex] throws "Market .. not found" exactly when no
    market of the SDK's list has the symbol, and otherwise returns the index
    of a market with that symbol; a short build for an unknown market throws
    that error before it has read anything or asked for a blockhash. *)
Theorem unknown_market_is_refused :
  forall (sdk : Sdk) (net : world) (usdc_mint : outcome PublicKey) (spot : Z)
         (userPublicKey : PublicKey) (driftClient : DriftClient) (marketName : string)
         (baseAssetAmount : Q) (depositAmount : option Q) (subAccountId : option Z)
         (s : state),
    (getPerpMarketIndex sdk marketName
     = Throw (JsError ("Market " ++ marketName ++ " not found"))
     <-> forall idx, ~ In (marketName, idx) (MainnetPerpMarkets sdk))
    /\ (forall idx, getPerpMarketIndex sdk marketName = Ret idx ->
          In (marketName, idx) (MainnetPerpMarkets sdk))
    /\ ((forall idx, ~ In (marketName, idx) (MainnetPerpMarkets sdk)) ->
        buildDriftShortTransaction sdk net usdc_mint spot userPublicKey driftClient
          marketName baseAssetAmount depositAmount subAccountId s
        = (Throw (JsError ("Market " ++ marketName ++ " not found")), s)).
Proof.
  intros sdk net mint spot upk c name base dep sub s.
  assert (Hiff : getPerpMarketIndex sdk name
                 = Throw (JsError ("Market " ++ name ++ " not found"))
                 <-> forall idx, ~ In (name, idx) (MainnetPerpMarkets sdk)).
  { rewrite <- find_symbol_none. unfold getPerpMarketIndex.
    destruct (find _ _); split; intros H; try discriminate; reflexivity. }
  split; [exact Hiff|]. split.
  - intros idx. unfold getPerpMarketIndex.
    destruct (find _ _) as [[sym i]|] eqn:F; [|discriminate].
    intros H. inversion H; subst. apply find_some in F. destruct F as [Hin Heq].
    cbn [fst snd] in *. apply String.eqb_eq in Heq. subst sym. exact Hin.
  - intros Hno. apply Hiff in Hno.
    unfold buildDriftShortTransaction, bind, lift. rewrite Hno. reflexivity.
Qed.

Lemma unknown_market_is_refused_witness :
  (forall idx, ~ In ("DOGE-PERP", idx) (MainnetPerpMarkets (test_sdk true releases)))
  /\ buildDriftShortTransaction (test_sdk true releases) quiet (Ret usdc) 0 payer client0
       "DOGE-PERP" 10 None None s0
     = (Throw (JsError "Market DOGE-PERP not found"), s0).
Proof.
  assert (Hno : forall idx,
             ~ In ("DOGE-PERP", idx) (MainnetPerpMarkets (test_sdk true releases))).
  { intros idx [H | [H | []]]; discriminate H. }
  split; [exact Hno|].
  exact (proj2 (proj2 (unknown_market_is_refused (test_sdk true releases) quiet
                         (Ret usdc) 0 payer client0 "DOGE-PERP" 10 None None s0)) Hno).
Defined.

(** X11: a short build without a deposit amount, or with one that is zero or
    negative, puts no deposit instruction in the transaction: after the two
    compute-budget instructions come the initialisation instructions, if
    any, and the order.  The compute limit is 600000 when the amount is
    absent or zero and 800000 when it is negative. *)
Theorem short_without_deposit :
  forall (sdk : Sdk) (net : world) (usdc_mint : outcome PublicKey) (spot : Z)
         (userPublicKey : PublicKey) (driftClient : DriftClient) (marketName : string)
         (baseAssetAmount : Q) (depositAmount : option Q) (subAccountId : option Z)
         (s s' : state) (tx : VersionedTransaction),
    deposit_requested depositAmount = false ->
    buildDriftShortTransaction sdk net usdc_mint spot userPublicKey driftClient
      marketName baseAssetAmount depositAmount subAccountId s = (Ret tx, s') ->
    exists init shortIx,
      instructions tx
      = ([ComputeBudget_setComputeUnitLimit
            (if number_truthy depositAmount then 800000 else 600000);
          ComputeBudget_setComputeUnitPrice 1000] ++ init ++ [shortIx])%list
      /\ (getUser sdk s driftClient (default 0 subAccountId) = None -> init = [])
      /\ (getUser sdk s driftClient (default 0 subAccountId) <> None ->
          getInitializeUserAccountIxs sdk s driftClient (default 0 subAccountId) = Ret init)
      /\ (exists params,
            direction params = SHORT
            /\ getPlacePerpOrderIx sdk s driftClient params (default 0 subAccountId)
               = Ret shortIx)
      /\ (number_truthy depositAmount = true <->
          exists d, depositAmount = Some d /\ (d < 0)%Q).
Proof.
  intros sdk net mint spot upk c name base dep sub s s' tx Hreq.
  unfold buildDriftShortTransaction, buildDriftShortInstructions, bind, lift, ret, throw,
    ask, getLatestBlockhash, unsigned.
  rewrite Hreq. cbn [default].
  destruct (getPerpMarketIndex sdk name) as [idx|e]; [|discriminate].
  destruct (ensure_user sdk c (default 0 sub) s) as [[[known init]|e] s1] eqn:Hu;
    [|discriminate].
  destruct (ShortBuild.ensure_user_cases sdk c _ s s1 known init Hu) as (-> & Hnone & Hsome).
  cbn [fst snd].
  destruct (new_BN sdk base) as [b|e]; [|discriminate].
  destruct (getOracleDataForPerpMarket sdk s c idx) as [[price|]|e]; try discriminate.
  match goal with
  | |- context [getPlacePerpOrderIx sdk s c ?p ?n] =>
      destruct (getPlacePerpOrderIx sdk s c p n) as [shortIx|e] eqn:Hord;
        [|discriminate]
  end.
  destruct (answer (latest_blockhash net s "confirmed")) as [blockhash|e]; [|discriminate].
  intros H. inversion H; subst. cbn [instructions].
  exists init, shortIx.
  split; [reflexivity|]. split; [exact Hnone|]. split; [exact Hsome|].
  split; [eexists; split; [|exact Hord]; reflexivity|].
  unfold deposit_requested, number_truthy in *.
  destruct dep as [d|]; [|split; [discriminate | intros (d & Hd & _); discriminate Hd]].
  destruct (Qeq_bool d 0) eqn:E0; cbn [negb andb] in *.
  - split; [discriminate|]. intros (d' & Hd & Hlt). inversion Hd; subst d'.
    apply Qeq_bool_iff in E0. rewrite E0 in Hlt. exfalso. exact (Qlt_irrefl _ Hlt).
  - split; [|reflexivity]. intros _. exists d. split; [reflexivity|].
    destruct (Qle_bool d 0) eqn:E1; [|discriminate Hreq].
    apply Qle_bool_iff in E1. apply Qle_lteq in E1. destruct E1 as [Hlt | Heq]; [exact Hlt|].
    apply Qeq_bool_neq in E0. contradiction.
Qed.

Lemma short_without_deposit_witness :
  deposit_requested (Some (-5)%Q) = false
  /\ option_map instructions
       (match fst (buildDriftShortTransaction (test_sdk true releases) quiet (Ret usdc) 0
                     payer client0 "JUP-PERP" 10 (Some (-5)%Q) None s0) with
        | Ret tx => Some tx
        | Throw _ => None
        end)
     = Some [ComputeBudget_setComputeUnitLimit 800000;
             ComputeBudget_setComputeUnitPrice 1000;
             Raw drift_program [] [3; 24; 10000000000; 95; 0]]
  /\ exists tx s',
       buildDriftShortTransaction (test_sdk true releases) quiet (Ret usdc) 0 payer
         client0 "JUP-PERP" 10 (Some (-5)%Q) None s0 = (Ret tx, s')
       /\ exists init shortIx,
            instructions tx
            = ([ComputeBudget_setComputeUnitLimit 800000;
                ComputeBudget_setComputeUnitPrice 1000] ++ init ++ [shortIx])%list.
Proof.
  assert (Hreq : deposit_requested (Some (-5)%Q) = false) by reflexivity.
  split; [exact Hreq|]. split; [vm_compute; reflexivity|].
  destruct (buildDriftShortTransaction (test_sdk true releases) quiet (Ret usdc) 0 payer
              client0 "JUP-PERP" 10 (Some (-5)%Q) None s0) as [[tx|e] s'] eqn:H;
    [|vm_compute in H; discriminate H].
  exists tx, s'. split; [reflexivity|].
  destruct (short_without_deposit _ _ _ _ _ _ _ _ _ _ _ _ _ Hreq H)
    as (init & shortIx & Hi & _).
  exists init, shortIx. exact Hi.
Defined.

(** X12: a deposit build that returns a transaction returns the two
    compute-budget instructions (limit 400000), then the initialisation
    instructions when the user account is not there, then the one deposit
    instruction, for the amount in millionths; the SDK is told the user is
    initialised unless the account is missing and nothing initialises it. *)
Theorem deposit_transaction_shape :
  forall (sdk : Sdk) (net : world) (usdc_mint : outcome PublicKey) (spot : Z)
         (userPublicKey : PublicKey) (driftClient : DriftClient) (usdcAmount : Q)
         (subAccountId : option Z) (s s' : state) (tx : VersionedTransaction),
    buildDriftDepositTransaction sdk net usdc_mint spot userPublicKey driftClient
      usdcAmount subAccountId s = (Ret tx, s') ->
    exists init depositIx amount mint account,
      instructions tx
      = ([ComputeBudget_setComputeUnitLimit 400000;
          ComputeBudget_setComputeUnitPrice 1000] ++ init ++ [depositIx])%list
      /\ payerKey tx = userPublicKey
      /\ (getUser sdk s driftClient (default 0 subAccountId) = None -> init = [])
      /\ (getUser sdk s driftClient (default 0 subAccountId) <> None ->
          getInitializeUserAccountIxs sdk s driftClient (default 0 subAccountId) = Ret init)
      /\ new_BN sdk (usdcAmount * million)%Q = Ret amount
      /\ usdc_mint = Ret mint
      /\ getAssociatedTokenAddress sdk s mint (wallet_publicKey driftClient) = Ret account
      /\ getDepositInstruction sdk s driftClient amount spot account
           (default 0 subAccountId) false
           (match getUser sdk s driftClient (default 0 subAccountId) with
            | None => true
            | Some _ => (0 <? List.length init)%nat
            end) = Ret depositIx.
Proof.
  intros sdk net mint spot upk c amt sub s s' tx.
  unfold buildDriftDepositTransaction, buildDepositInstruction, bind, lift, ret, throw,
    ask, getLatestBlockhash, unsigned.
  cbn [default].
  destruct (ensure_user sdk c (default 0 sub) s) as [[[known init]|e] s1] eqn:Hu;
    [|discriminate].
  destruct (ShortBuild.ensure_user_cases sdk c _ s s1 known init Hu) as (-> & Hnone & Hsome).
  assert (Hknown : (known || (0 <? List.length init)%nat)
                   = match getUser sdk s c (default 0 sub) with
                     | None => true
                     | Some _ => (0 <? List.length init)%nat
                     end).
  { revert Hu. unfold ensure_user. destruct (getUser sdk s c (default 0 sub)).
    - destruct (getInitializeUserAccountIxs sdk s c (default 0 sub)); [|discriminate].
      intros H; inversion H; reflexivity.
    - intros H; inversion H; reflexivity. }
  cbn [fst snd].
  destruct (new_BN sdk (amt * million)%Q) as [amount|e] eqn:Hbn; [|discriminate].
  destruct mint as [usdcMint|e]; [|discriminate].
  destruct (getAssociatedTokenAddress sdk s usdcMint (wallet_publicKey c))
    as [account|e] eqn:Hata; [|discriminate].
  rewrite Hknown.
  destruct (getDepositInstruction sdk s c amount spot account (default 0 sub) false _)
    as [depositIx|e] eqn:Hdep; [|discriminate].
  destruct (answer (latest_blockhash net s "confirmed")) as [blockhash|e]; [|discriminate].
  intros H. inversion H; subst. cbn [instructions payerKey].
  exists init, depositIx, amount, usdcMint, account.
  repeat split; try assumption; reflexivity.
Qed.

Lemma deposit_transaction_shape_witness :
  buildDriftDepositTransaction (test_sdk false releases) quiet (Ret usdc) 0 payer client0
    100 None s0
  = (Ret (unsigned payer "blockhash"
            [ComputeBudget_setComputeUnitLimit 400000;
             ComputeBudget_setComputeUnitPrice 1000;
             Raw drift_program [] [0];
             Raw drift_program [] [1];
             Raw drift_program [{| bn := 12 |}] [2; 100000000; 0; 0]]),
     record (EvBlockhash "confirmed") s0)
  /\ exists init depositIx,
       [ComputeBudget_setComputeUnitLimit 400000;
        ComputeBudget_setComputeUnitPrice 1000;
        Raw drift_program [] [0];
        Raw drift_program [] [1];
        Raw drift_program [{| bn := 12 |}] [2; 100000000; 0; 0]]
       = ([ComputeBudget_setComputeUnitLimit 400000;
           ComputeBudget_setComputeUnitPrice 1000] ++ init ++ [depositIx])%list.
Proof.
  assert (H : buildDriftDepositTransaction (test_sdk false releases) quiet (Ret usdc) 0
                payer client0 100 None s0
              = (Ret (unsigned payer "blockhash"
                        [ComputeBudget_setComputeUnitLimit 400000;
                         ComputeBudget_setComputeUnitPrice 1000;
                         Raw drift_program [] [0];
                         Raw drift_program [] [1];
                         Raw drift_program [{| bn := 12 |}] [2; 100000000; 0; 0]]),
                 record (EvBlockhash "confirmed") s0)) by (vm_compute; reflexivity).
  split; [exact H|].
  destruct (deposit_transaction_shape _ _ _ _ _ _ _ _ _ _ _ H)
    as (init & depositIx & _ & _ & _ & Hi & _).
  exists init, depositIx. exact Hi.
Defined.

Ltac order_tail sdk s c idx base :=
  let b := fresh "b" in
  let p := fresh "p" in
  let e := fresh "e" in
  let shortIx := fresh "shortIx" in
  let Hord := fresh "Hord" in
  let H := fresh "H" in
  destruct (new_BN sdk base) as [b|e]; [|discriminate];
  destruct (getOracleDataForPerpMarket sdk s c idx) as [[p|]|e]; try discriminate;
  match goal with
  | |- context [getPlacePerpOrderIx sdk s c ?q ?n] =>
      destruct (getPlacePerpOrderIx sdk s c q n) as [shortIx|e] eqn:Hord;
        [|discriminate]
  end;
  intros H; inversion H; subst; split; [reflexivity|];
  eexists _, shortIx, p, b;
  (split; [reflexivity|]); (split; [reflexivity|]); (split; [reflexivity|]);
  (split; [exact Hord|]);
  intros Hp; rewrite Z.quot_div_nonneg by lia;
  pose proof (Z.div_mod (p * 95) 100 ltac:(lia));
  pose proof (Z.mod_pos_bound (p * 95) 100 ltac:(lia)); lia.

(** X13: the instruction list of a short build always ends with the order
    the SDK builds for a market order on the perp market, direction short,
    for the base amount scaled by the base precision, at a limit price of 95
    hundredths of the oracle price, rounded towards zero; so no list is
    returned when the oracle has no price, and for a price that is not
    negative the limit is not above it. *)
Theorem short_order_parameters :
  forall (sdk : Sdk) (usdc_mint : outcome PublicKey) (spot : Z)
         (driftClient : DriftClient) (marketIndex : Z) (baseAssetAmount : Q)
         (depositAmount : option Q) (subAccountId : option Z) (s s' : state)
         (ixs : list TransactionInstruction),
    buildDriftShortInstructions sdk usdc_mint spot driftClient marketIndex
      baseAssetAmount depositAmount subAccountId s = (Ret ixs, s') ->
    s' = s
    /\ exists before shortIx oraclePrice base,
         ixs = (before ++ [shortIx])%list
         /\ getOracleDataForPerpMarket sdk s driftClient marketIndex
            = Ret (Some oraclePrice)
         /\ new_BN sdk baseAssetAmount = Ret base
         /\ getPlacePerpOrderIx sdk s driftClient
              {| orderType := MARKET; marketType := PERP;
                 Drift.marketIndex := marketIndex; direction := SHORT;
                 Drift.baseAssetAmount := base * BASE_PRECISION sdk;
                 price := Z.quot (oraclePrice * 95) 100 |}
              (default 0 subAccountId) = Ret shortIx
         /\ (0 <= oraclePrice ->
             0 <= Z.quot (oraclePrice * 95) 100 <= oraclePrice
             /\ 95 * oraclePrice - 100 < 100 * Z.quot (oraclePrice * 95) 100
                <= 95 * oraclePrice).
Proof.
  intros sdk mint spot c idx base dep sub s s' ixs.
  unfold buildDriftShortInstructions, bind, lift, ret, throw, ask.
  cbn [default].
  destruct (ensure_user sdk c (default 0 sub) s) as [[[known init]|e] s1] eqn:Hu;
    [|discriminate].
  destruct (ShortBuild.ensure_user_cases sdk c _ s s1 known init Hu) as (-> & _ & _).
  cbn [fst snd].
  destruct (deposit_requested dep).
  - destruct (new_BN sdk (default 0%Q dep * million)%Q) as [amount|e]; [|discriminate].
    destruct mint as [usdcMint|e]; [|discriminate].
    destruct (getAssociatedTokenAddress sdk s usdcMint (wallet_publicKey c))
      as [account|e]; [|discriminate].
    destruct (getDepositInstruction sdk s c amount spot account (default 0 sub) false _)
      as [depositIx|e]; [|discriminate].
    order_tail sdk s c idx base.
  - order_tail sdk s c idx base.
Qed.

Lemma short_order_parameters_witness :
  buildDriftShortInstructions (test_sdk true releases) (Ret usdc) 0 client0 24 10 None
    None s0
  = (Ret [Raw drift_program [] [3; 24; 10000000000; 95; 0]], s0)
  /\ exists before shortIx,
       [Raw drift_program [] [3; 24; 10000000000; 95; 0]] = (before ++ [shortIx])%list.
Proof.
  assert (H : buildDriftShortInstructions (test_sdk true releases) (Ret usdc) 0 client0
                24 10 None None s0
              = (Ret [Raw drift_program [] [3; 24; 10000000000; 95; 0]], s0))
    by (vm_compute; reflexivity).
  split; [exact H|].
  destruct (short_order_parameters _ _ _ _ _ _ _ _ _ _ _ H)
    as (_ & before & shortIx & p & b & Hi & _).
  exists before, shortIx. exact Hi.
Defined.

End DriftProperties.

(** ** Further properties of [useDriftShort] *)

Module HookProperties.

Import Jito Drift.

Section Guarded.

Variable sdk : Sdk.
Variable net : world.
Variable usdc_mint : outcome PublicKey.
Variable spot : Z.

Lemma buildShort_connected (wallet : Wallet) (key : PublicKey) (marketName : string)
    (baseAssetAmount : Q) (depositAmount : option Q) (subAccountId : option Z)
    (h : hook) :
  publicKey wallet = Some key ->
  signTransaction wallet && signAllTransactions wallet = true ->
  buildShort sdk net usdc_mint spot wallet marketName baseAssetAmount depositAmount
    subAccountId h
  = guarded sdk (fun c => buildDriftShortTransaction sdk net usdc_mint spot key c marketName
                        baseAssetAmount depositAmount (Some (default 0 subAccountId)))
      key {| driftClientRef := driftClientRef h; op_state := Loading; sys := sys h |}.
Proof. intros Hk Hs. unfold buildShort. rewrite Hk, Hs. reflexivity. Qed.

Lemma buildDeposit_connected (wallet : Wallet) (key : PublicKey) (usdcAmount : Q)
    (subAccountId : option Z) (h : hook) :
  publicKey wallet = Some key ->
  signTransaction wallet && signAllTransactions wallet = true ->
  buildDeposit sdk net usdc_mint spot wallet usdcAmount subAccountId h
  = guarded sdk (fun c => buildDriftDepositTransaction sdk net usdc_mint spot key c
                        usdcAmount (Some (default 0 subAccountId)))
      key {| driftClientRef := driftClientRef h; op_state := Loading; sys := sys h |}.
Proof. intros Hk Hs. unfold buildDeposit. rewrite Hk, Hs. reflexivity. Qed.

Ltac run_guarded :=
  unfold guarded, try_catch, cleanup_on_error;
  unfold bind, in_sys, set_ref, setState, ret, get_ref, cleanupDriftClient.

Lemma guarded_outcome (build : DriftClient -> M VersionedTransaction)
    (key : PublicKey) (h h' : hook) (o : outcome (option VersionedTransaction)) :
  op_state h = Loading ->
  guarded sdk build key h = (o, h') ->
  match o with
  | Ret (Some tx) => op_state h' = Success tx /\ driftClientRef h' = None
  | Ret None => exists e, op_state h' = Error (exn_message e)
  | Throw e =>
      op_state h' = Loading
      /\ exists c st, driftClientRef h' = Some c /\ unsubscribe sdk st c = Some e
  end.
Proof.
  intros Hl. run_guarded.
  destruct (initializeDriftClient sdk key (sys h)) as [[c|e] s1].
  - cbn [sys driftClientRef op_state].
    destruct (build c s1) as [[tx|e] s2]; cbn [sys driftClientRef op_state].
    + destruct (unsubscribe sdk s2 c) as [e1|] eqn:U1; cbn [sys driftClientRef op_state].
      * destruct (unsubscribe sdk (record (EvUnsubscribe (client_id c)) s2) c)
          as [e2|] eqn:U2;
          intros H; inversion H; subst; cbn [sys driftClientRef op_state]; eauto.
      * intros H; inversion H; subst; cbn [sys driftClientRef op_state]; eauto.
    + destruct (unsubscribe sdk s2 c) as [e1|] eqn:U1;
        intros H; inversion H; subst; cbn [sys driftClientRef op_state]; eauto.
  - cbn [sys driftClientRef op_state].
    destruct (driftClientRef h) as [stale|] eqn:R; cbn [sys driftClientRef op_state].
    + destruct (unsubscribe sdk s1 stale) as [e1|] eqn:U1;
        intros H; inversion H; subst; cbn [sys driftClientRef op_state]; eauto.
    + intros H; inversion H; subst; cbn [sys driftClientRef op_state]; eauto.
Qed.

Lemma guarded_release_retry (build : DriftClient -> M VersionedTransaction)
    (key : PublicKey) (h : hook) (c : DriftClient) (s1 s2 : state)
    (tx : VersionedTransaction) (e : exn) :
  initializeDriftClient sdk key (sys h) = (Ret c, s1) ->
  build c s1 = (Ret tx, s2) ->
  unsubscribe sdk s2 c = Some e ->
  unsubscribe sdk (record (EvUnsubscribe (client_id c)) s2) c = None ->
  guarded sdk build key h
  = (Ret None,
     {| driftClientRef := None; op_state := Error (exn_message e);
        sys := record (EvUnsubscribe (client_id c))
                 (record (EvUnsubscribe (client_id c)) s2) |}).
Proof.
  intros Hi Hb U1 U2. run_guarded. rewrite Hi. cbn [sys driftClientRef op_state].
  rewrite Hb. cbn [sys driftClientRef op_state]. rewrite U1.
  cbn [sys driftClientRef op_state]. rewrite U2. reflexivity.
Qed.





End Guarded.

(** X14: without a public key, or without either signing function,
    [buildShort] and [buildDeposit] return null and set the error
    "Wallet not connected"; they construct no client, ask nothing and leave
    the stored reference, the clock and the trace as they were. *)
Theorem disconnected_wallet_builds_nothing :
  forall (sdk : Sdk) (net : world) (usdc_mint : outcome PublicKey) (spot : Z)
         (wallet : Wallet) (marketName : string) (amount : Q)
         (depositAmount : option Q) (subAccountId : option Z) (h : hook),
    publicKey wallet = None \/ signTransaction wallet = false
    \/ signAllTransactions wallet = false ->
    buildShort sdk net usdc_mint spot wallet marketName amount depositAmount
      subAccountId h
    = (Ret None, {| driftClientRef := driftClientRef h;
                    op_state := Error "Wallet not connected"; sys := sys h |})
    /\ buildDeposit sdk net usdc_mint spot wallet amount subAccountId h
       = (Ret None, {| driftClientRef := driftClientRef h;
                       op_state := Error "Wallet not connected"; sys := sys h |}).
Proof.
  intros sdk net mint spot wallet name amount dep sub h Hw.
  unfold buildShort, buildDeposit.
  destruct (publicKey wallet) as [key|]; [|split; reflexivity].
  destruct Hw as [Hw | [Hw | Hw]]; [discriminate Hw | |]; rewrite Hw;
    rewrite ?andb_false_r; split; reflexivity.
Qed.

Lemma disconnected_wallet_builds_nothing_witness :
  (publicKey disconnected = None \/ signTransaction disconnected = false
   \/ signAllTransactions disconnected = false)
  /\ buildShort (test_sdk true releases) quiet (Ret usdc) 0 disconnected "JUP-PERP" 10
       None None fresh_hook
     = (Ret None, {| driftClientRef := None; op_state := Error "Wallet not connected";
                     sys := s0 |}).
Proof.
  assert (Hw : publicKey disconnected = None \/ signTransaction disconnected = false
               \/ signAllTransactions disconnected = false) by (left; reflexivity).
  split; [exact Hw|].
  exact (proj1 (disconnected_wallet_builds_nothing (test_sdk true releases) quiet
                  (Ret usdc) 0 disconnected "JUP-PERP" 10 None None fresh_hook Hw)).
Defined.

(** X15: the state of the hook tells the outcome of a build call: a returned
    transaction goes with status success holding that transaction and an
    empty reference; a returned null goes with status error; and a call that
    throws, which it does only with what [unsubscribe] threw on the stored
    client, leaves the status at loading. *)
Theorem build_outcome_matches_state :
  forall (sdk : Sdk) (net : world) (usdc_mint : outcome PublicKey) (spot : Z)
         (wallet : Wallet) (marketName : string) (amount : Q)
         (depositAmount : option Q) (subAccountId : option Z) (h h' : hook)
         (o : outcome (option VersionedTransaction)),
    buildShort sdk net usdc_mint spot wallet marketName amount depositAmount
      subAccountId h = (o, h')
    \/ buildDeposit sdk net usdc_mint spot wallet amount subAccountId h = (o, h') ->
    match o with
    | Ret (Some tx) => op_state h' = Success tx /\ driftClientRef h' = None
    | Ret None => exists m, op_state h' = Error m
    | Throw e =>
        op_state h' = Loading
        /\ exists c st, driftClientRef h' = Some c /\ unsubscribe sdk st c = Some e
    end.
Proof.
  intros sdk net mint spot wallet name amount dep sub h h' o H.
  destruct (publicKey wallet) as [key|] eqn:Hk.
  - destruct (signTransaction wallet && signAllTransactions wallet) eqn:Hs.
    + assert (G : match o with
                  | Ret (Some tx) => op_state h' = Success tx /\ driftClientRef h' = None
                  | Ret None => exists e, op_state h' = Error (exn_message e)
                  | Throw e =>
                      op_state h' = Loading
                      /\ exists c st, driftClientRef h' = Some c
                                      /\ unsubscribe sdk st c = Some e
                  end).
      { destruct H as [H | H].
        - rewrite (buildShort_connected sdk net mint spot wallet key _ _ _ _ h Hk Hs) in H.
          exact (guarded_outcome sdk _ key
                   {| driftClientRef := driftClientRef h; op_state := Loading;
                      sys := sys h |} h' o eq_refl H).
        - rewrite (buildDeposit_connected sdk net mint spot wallet key _ _ h Hk Hs) in H.
          exact (guarded_outcome sdk _ key
                   {| driftClientRef := driftClientRef h; op_state := Loading;
                      sys := sys h |} h' o eq_refl H). }
      destruct o as [[tx|]|e]; [exact G | | exact G].
      destruct G as [e G]. eauto.
    + revert H. unfold buildShort, buildDeposit. rewrite Hk, Hs.
      intros [H | H]; inversion H; subst; cbn [op_state]; eauto.
  - revert H. unfold buildShort, buildDeposit. rewrite Hk.
    intros [H | H]; inversion H; subst; cbn [op_state]; eauto.
Qed.

Lemma build_outcome_matches_state_witness :
  buildShort (test_sdk true releases) quiet (Ret usdc) 0 connected "DOGE-PERP" 10 None
    None fresh_hook
  = (Ret None,
     {| driftClientRef := None; op_state := Error "Market DOGE-PERP not found";
        sys := {| now := 2000;
                  trace := [EvNewClient 0; EvSubscribe 0; EvSleep 2000;
                            EvUnsubscribe 0] |} |})
  /\ exists m, Error "Market DOGE-PERP not found" = Error m.
Proof.
  assert (H : buildShort (test_sdk true releases) quiet (Ret usdc) 0 connected
                "DOGE-PERP" 10 None None fresh_hook
              = (Ret None,
                 {| driftClientRef := None;
                    op_state := Error "Market DOGE-PERP not found";
                    sys := {| now := 2000;
                              trace := [EvNewClient 0; EvSubscribe 0; EvSleep 2000;
                                        EvUnsubscribe 0] |} |}))
    by (vm_compute; reflexivity).
  split; [exact H|].
  exact (build_outcome_matches_state (test_sdk true releases) quiet (Ret usdc) 0
           connected "DOGE-PERP" 10 None None fresh_hook _ _ (or_introl H)).
Defined.

(** X16: when the transaction has been built and [unsubscribe] throws, the
    [catch] block calls [unsubscribe] once more; if that call goes through,
    [buildShort] returns null and reports the message of the first throw:
    the built transaction is dropped, the reference is empty, and the client
    has been unsubscribed twice. *)
Theorem failed_release_drops_the_transaction :
  forall (sdk : Sdk) (net : world) (usdc_mint : outcome PublicKey) (spot : Z)
         (wallet : Wallet) (key : PublicKey) (marketName : string) (amount : Q)
         (depositAmount : option Q) (subAccountId : option Z) (h : hook)
         (c : DriftClient) (s1 s2 : state) (tx : VersionedTransaction) (e : exn),
    publicKey wallet = Some key ->
    signTransaction wallet && signAllTransactions wallet = true ->
    initializeDriftClient sdk key (sys h) = (Ret c, s1) ->
    buildDriftShortTransaction sdk net usdc_mint spot key c marketName amount
      depositAmount (Some (default 0 subAccountId)) s1 = (Ret tx, s2) ->
    unsubscribe sdk s2 c = Some e ->
    unsubscribe sdk (record (EvUnsubscribe (client_id c)) s2) c = None ->
    buildShort sdk net usdc_mint spot wallet marketName amount depositAmount
      subAccountId h
    = (Ret None,
       {| driftClientRef := None; op_state := Error (exn_message e);
          sys := record (EvUnsubscribe (client_id c))
                   (record (EvUnsubscribe (client_id c)) s2) |}).
Proof.
  intros sdk net mint spot wallet key name amount dep sub h c s1 s2 tx e Hk Hs Hi Hb U1 U2.
  rewrite (buildShort_connected sdk net mint spot wallet key _ _ _ _ h Hk Hs).
  exact (guarded_release_retry sdk _ key
           {| driftClientRef := driftClientRef h; op_state := Loading; sys := sys h |}
           c s1 s2 tx e Hi Hb U1 U2).
Qed.

Lemma failed_release_drops_the_transaction_witness :
  buildShort (test_sdk true releases_on_retry) quiet (Ret usdc) 0 connected "JUP-PERP"
    10 None None fresh_hook
  = (Ret None,
     {| driftClientRef := None; op_state := Error "unsubscribe failed";
        sys := {| now := 2000;
                  trace := [EvNewClient 0; EvSubscribe 0; EvSleep 2000;
                            EvBlockhash "confirmed"; EvUnsubscribe 0;
                            EvUnsubscribe 0] |} |}).
Proof.
  rewrite (failed_release_drops_the_transaction (test_sdk true releases_on_retry) quiet
             (Ret usdc) 0 connected payer "JUP-PERP" 10 None None fresh_hook client0
             {| now := 2000; trace := [EvNewClient 0; EvSubscribe 0; EvSleep 2000] |}
             {| now := 2000;
                trace := [EvNewClient 0; EvSubscribe 0; EvSleep 2000;
                          EvBlockhash "confirmed"] |}
             (unsigned payer "blockhash"
                [ComputeBudget_setComputeUnitLimit 600000;
                 ComputeBudget_setComputeUnitPrice 1000;
                 Raw drift_program [] [3; 24; 10000000000; 95; 0]])
             release_failure eq_refl eq_refl);
    [reflexivity | vm_compute; reflexivity | vm_compute; reflexivity | reflexivity
    | reflexivity].
Defined.



End HookProperties.

(** ** Properties of the token transfer builder and of the plain hooks *)

Module TransferProperties.

Import Jito Token.

(** [toBaseUnits] rounds as the code does: the product is rounded to a
    double before the floor is taken, so 1.005 USDC is 1004999 base units,
    one short of the exact product, and 0.3 USDC is 300000, although the
    double nearest to 0.3 is below it. *)
Example toBaseUnits_rounds_the_product :
  integer_value (toBaseUnits amount_1_005 USDC) = Some 1004999
  /\ integer_value (toBaseUnits amount_0_3 USDC) = Some 300000
  /\ integer_value (toBaseUnits five SOL) = Some 5000000000
  /\ integer_value (toBaseUnits (PrimFloat.opp amount_0_3) USDC) = Some (-300000)
  /\ integer_value (toBaseUnits not_a_number USDC) = None.
Proof. vm_compute. repeat split. Qed.

(** X18: a token without an entry in the address table, or with an empty
    one, is refused with "Unknown token: .." before the builder has
    constructed a key, read an account or asked for a blockhash: the state
    is the one it started in. *)
Theorem unknown_token_is_refused :
  forall (lib : TokenLib) (net : world) (new_PublicKey : value -> outcome PublicKey)
         (TOKEN_ADDRESS : TokenTicker -> option string) (not_an_integer : number -> exn)
         (sender : PublicKey) (token : TokenTicker) (recipient : string)
         (amount : number) (s : state),
    TOKEN_ADDRESS token = None \/ TOKEN_ADDRESS token = Some EmptyString ->
    buildTokenTransferTransaction lib net new_PublicKey TOKEN_ADDRESS not_an_integer
      sender token recipient amount s
    = (Throw (JsError ("Unknown token: " ++ ticker_name token)), s).
Proof.
  intros lib net newPK table nai sender token recipient amount s [H | H];
    unfold buildTokenTransferTransaction; rewrite H; reflexivity.
Qed.

Lemma unknown_token_is_refused_witness :
  (mint_table JUP = None \/ mint_table JUP = Some EmptyString)
  /\ buildTokenTransferTransaction (test_lib AccountFound) quiet key_of_string mint_table
       range_error payer JUP "recipient" five s0
     = (Throw (JsError "Unknown token: JUP"), s0).
Proof.
  assert (H : mint_table JUP = None \/ mint_table JUP = Some EmptyString)
    by (left; reflexivity).
  split; [exact H|].
  exact (unknown_token_is_refused (test_lib AccountFound) quiet key_of_string mint_table
           range_error payer JUP "recipient" five s0 H).
Defined.

(** X19: a transfer transaction that is returned is paid by the sender and
    holds, after the compute-budget instructions (limit 100000, price
    1000), the creation of the recipient's associated account exactly when
    the lookup of that account reported it missing, and then, last, the one
    transfer from the sender's associated account to the recipient's, owned
    by the sender.  Its amount is the integer that
    [Math.floor(amount * Math.pow(10, decimals))] is, the product being the
    double product; so the amount was a number whose floor is an integer,
    and the library accepted that integer.  The only recorded effect is one
    blockhash query. *)
Theorem transfer_transaction_shape :
  forall (lib : TokenLib) (net : world) (new_PublicKey : value -> outcome PublicKey)
         (TOKEN_ADDRESS : TokenTicker -> option string) (not_an_integer : number -> exn)
         (sender : PublicKey) (token : TokenTicker) (recipient : string)
         (amount : number) (s s' : state) (tx : VersionedTransaction),
    buildTokenTransferTransaction lib net new_PublicKey TOKEN_ADDRESS not_an_integer
      sender token recipient amount s = (Ret tx, s') ->
    exists mintAddress mint recipientKey source destination units transferIx,
      TOKEN_ADDRESS token = Some mintAddress
      /\ new_PublicKey (Some (JStr mintAddress)) = Ret mint
      /\ new_PublicKey (Some (JStr recipient)) = Ret recipientKey
      /\ getAssociatedTokenAddress lib s mint sender = Ret source
      /\ getAssociatedTokenAddress lib s mint recipientKey = Ret destination
      /\ integer_value
           (Math_floor (PrimFloat.mul amount (number_of_Z (10 ^ getTokenDecimals token))))
         = Some units
      /\ createTransferInstruction lib source destination sender units = Ret transferIx
      /\ payerKey tx = sender
      /\ instructions tx
         = ([ComputeBudget_setComputeUnitLimit 100000;
             ComputeBudget_setComputeUnitPrice 1000]
            ++ match getAccount lib s destination with
               | AccountNotFound =>
                   [createAssociatedTokenAccountInstruction lib sender destination
                      recipientKey mint]
               | _ => []
               end
            ++ [transferIx])%list
      /\ (forall e, getAccount lib s destination <> AccountError e)
      /\ trace s' = (trace s ++ [EvBlockhash "confirmed"])%list.
Proof.
  intros lib net newPK table nai sender token recipient amount s s' tx.
  unfold buildTokenTransferTransaction.
  destruct (table token) as [mintAddress|] eqn:Ht; [|discriminate].
  destruct (truthy (Some (JStr mintAddress))); [|discriminate].
  unfold bind, lift, ret, ensure_destination, getLatestBlockhash, unsigned, BigInt,
    toBaseUnits, Math_pow10.
  destruct (newPK (Some (JStr mintAddress))) as [mint|e] eqn:Hm; [|discriminate].
  destruct (newPK (Some (JStr recipient))) as [recipientKey|e] eqn:Hr; [|discriminate].
  destruct (getAssociatedTokenAddress lib s mint sender) as [source|e] eqn:Hs;
    [|discriminate].
  destruct (getAssociatedTokenAddress lib s mint recipientKey) as [destination|e] eqn:Hd;
    [|discriminate].
  destruct (getAccount lib s destination) as [| |e] eqn:Ha; try discriminate;
    (destruct (integer_value _) as [units|] eqn:Hu; [|discriminate]);
    (destruct (createTransferInstruction lib source destination sender units)
       as [transferIx|e] eqn:Hc; [|discriminate]);
    (destruct (answer (latest_blockhash net s "confirmed")) as [blockhash|e];
     [|discriminate]);
    intros H; inversion H; subst; cbn [payerKey instructions trace advance record];
    exists mintAddress, mint, recipientKey, source, destination, units, transferIx;
    rewrite Ha;
    do 9 (split; [first [reflexivity | assumption]|]);
    (split; [intros e0 F; discriminate F | reflexivity]).
Qed.

Lemma transfer_transaction_shape_witness :
  buildTokenTransferTransaction (test_lib AccountNotFound) quiet key_of_string mint_table
    range_error payer USDC "recipient" amount_1_005 s0
  = (Ret (unsigned payer "blockhash"
            [ComputeBudget_setComputeUnitLimit 100000;
             ComputeBudget_setComputeUnitPrice 1000;
             token_ix 1 [payer; {| bn := 53 |}; {| bn := 9 |}; {| bn := 44 |}] 0;
             token_ix 3 [{| bn := 51 |}; {| bn := 53 |}; payer] 1004999]),
     record (EvBlockhash "confirmed") s0)
  /\ payerKey (unsigned payer "blockhash"
                [ComputeBudget_setComputeUnitLimit 100000;
                 ComputeBudget_setComputeUnitPrice 1000;
                 token_ix 1 [payer; {| bn := 53 |}; {| bn := 9 |}; {| bn := 44 |}] 0;
                 token_ix 3 [{| bn := 51 |}; {| bn := 53 |}; payer] 1004999])
     = payer.
Proof.
  assert (H : buildTokenTransferTransaction (test_lib AccountNotFound) quiet
                key_of_string mint_table range_error payer USDC "recipient"
                amount_1_005 s0
              = (Ret (unsigned payer "blockhash"
                        [ComputeBudget_setComputeUnitLimit 100000;
                         ComputeBudget_setComputeUnitPrice 1000;
                         token_ix 1 [payer; {| bn := 53 |}; {| bn := 9 |};
                                     {| bn := 44 |}] 0;
                         token_ix 3 [{| bn := 51 |}; {| bn := 53 |}; payer] 1004999]),
                 record (EvBlockhash "confirmed") s0)) by (vm_compute; reflexivity).
  split; [exact H|].
  destruct (transfer_transaction_shape _ _ _ _ _ _ _ _ _ _ _ _ H)
    as (a & m & r & src & dst & u & ix & _ & _ & _ & _ & _ & _ & _ & Hp & _).
  exact Hp.
Defined.

(** An amount that is not a number is refused by [BigInt], and a negative
    one by the library, before the blockhash is asked for. *)
Example unusable_amounts_are_refused :
  buildTokenTransferTransaction (test_lib AccountFound) quiet key_of_string mint_table
    range_error payer USDC "recipient" not_a_number s0
  = (Throw (range_error not_a_number), s0)
  /\ buildTokenTransferTransaction (test_lib AccountFound) quiet key_of_string mint_table
       range_error payer USDC "recipient" (PrimFloat.opp amount_0_3) s0
     = (Throw (JsError "The value of amount is out of range"), s0).
Proof. split; vm_compute; reflexivity. Qed.

(** X20: when the lookup of the recipient's associated account fails with
    anything but "not found", the builder throws that very error; it builds
    no instruction and asks for no blockhash. *)
Theorem account_lookup_error_is_rethrown :
  forall (lib : TokenLib) (net : world) (new_PublicKey : value -> outcome PublicKey)
         (TOKEN_ADDRESS : TokenTicker -> option string) (not_an_integer : number -> exn)
         (sender : PublicKey) (token : TokenTicker) (recipient : string)
         (amount : number) (s : state)
         (mintAddress : string) (mint recipientKey source destination : PublicKey)
         (e : exn),
    TOKEN_ADDRESS token = Some mintAddress ->
    mintAddress <> EmptyString ->
    new_PublicKey (Some (JStr mintAddress)) = Ret mint ->
    new_PublicKey (Some (JStr recipient)) = Ret recipientKey ->
    getAssociatedTokenAddress lib s mint sender = Ret source ->
    getAssociatedTokenAddress lib s mint recipientKey = Ret destination ->
    getAccount lib s destination = AccountError e ->
    buildTokenTransferTransaction lib net new_PublicKey TOKEN_ADDRESS not_an_integer
      sender token recipient amount s = (Throw e, s).
Proof.
  intros lib net newPK table nai sender token recipient amount s mintAddress mint
    recipientKey source destination e Ht Hne Hm Hr Hs Hd Ha.
  unfold buildTokenTransferTransaction. rewrite Ht.
  assert (T : truthy (Some (JStr mintAddress)) = true).
  { cbn [truthy]. destruct (String.eqb mintAddress EmptyString) eqn:E; [|reflexivity].
    apply String.eqb_eq in E. contradiction. }
  rewrite T. unfold bind, lift, ensure_destination.
  rewrite Hm, Hr, Hs, Hd, Ha. reflexivity.
Qed.

Lemma account_lookup_error_is_rethrown_witness :
  buildTokenTransferTransaction (test_lib (AccountError network_error)) quiet
    key_of_string mint_table range_error payer USDC "recipient" five s0
  = (Throw network_error, s0).
Proof.
  apply (account_lookup_error_is_rethrown (test_lib (AccountError network_error)) quiet
           key_of_string mint_table range_error payer USDC "recipient" five s0
           "EPjFWdd5AufqSSqeM2qN1xzybapC8G4wEGGkZwyTDt1v"
           {| bn := 44 |} {| bn := 9 |} {| bn := 51 |} {| bn := 53 |} network_error);
    try reflexivity.
  discriminate.
Defined.

(** X21: [buildTransfer] never throws.  Without a public key it returns null
    with the error "Wallet not connected" and touches nothing else; with
    one, it returns the built transaction with status success holding it, or
    null with status error holding the message of what the builder threw. *)
Theorem buildTransfer_reports_every_outcome :
  forall (lib : TokenLib) (net : world) (new_PublicKey : value -> outcome PublicKey)
         (TOKEN_ADDRESS : TokenTicker -> option string) (not_an_integer : number -> exn)
         (publicKey : option PublicKey)
         (token : TokenTicker) (recipient : string) (amount : number)
         (h : transfer_hook),
    match publicKey with
    | None =>
        buildTransfer lib net new_PublicKey TOKEN_ADDRESS not_an_integer publicKey token
          recipient amount h
        = (Ret None, {| transfer_state := Drift.Error "Wallet not connected";
                        transfer_sys := transfer_sys h |})
    | Some key =>
        forall o s1,
          buildTokenTransferTransaction lib net new_PublicKey TOKEN_ADDRESS
            not_an_integer key token recipient amount (transfer_sys h) = (o, s1) ->
          buildTransfer lib net new_PublicKey TOKEN_ADDRESS not_an_integer publicKey
            token recipient amount h
          = match o with
            | Ret tx =>
                (Ret (Some tx),
                 {| transfer_state := Drift.Success tx; transfer_sys := s1 |})
            | Throw e =>
                (Ret None,
                 {| transfer_state := Drift.Error (exn_message e);
                    transfer_sys := s1 |})
            end
    end.
Proof.
  intros lib net newPK table nai pk token recipient amount h.
  destruct pk as [key|]; [|reflexivity].
  intros o s1 H. unfold buildTransfer, try_catch, bind, in_transfer_sys,
    set_transfer_state, ret.
  cbn [transfer_sys transfer_state]. rewrite H. destruct o; reflexivity.
Qed.

Lemma buildTransfer_reports_every_outcome_witness :
  buildTransfer (test_lib AccountFound) quiet key_of_string mint_table range_error
    (Some payer) JUP "recipient" five fresh_transfer_hook
  = (Ret None, {| transfer_state := Drift.Error "Unknown token: JUP";
                  transfer_sys := s0 |}).
Proof.
  exact (buildTransfer_reports_every_outcome (test_lib AccountFound) quiet key_of_string
           mint_table range_error (Some payer) JUP "recipient" five fresh_transfer_hook
           (Throw (JsError "Unknown token: JUP")) s0 eq_refl).
Defined.

(** X22: [buildSwap] never throws and never records a quote or an expected
    output: the two cells stay as they were, null unless set otherwise,
    whatever the builder answers.  It returns the builder's transaction with
    status success, or null with status error and the message of what the
    builder threw. *)
Theorem buildSwap_keeps_no_quote :
  forall (build : PublicKey -> TokenTicker -> TokenTicker -> Q
                  -> M (VersionedTransaction * Q))
         (publicKey : option PublicKey) (input output : TokenTicker) (amount : Q)
         (h h' : swap_hook) (o : outcome (option VersionedTransaction)),
    buildSwap build publicKey input output amount h = (o, h') ->
    quote h' = quote h
    /\ expectedOutput h' = expectedOutput h
    /\ match o with
       | Ret (Some tx) =>
           swap_state h' = Drift.Success tx
           /\ exists key expected,
                publicKey = Some key
                /\ build key input output amount (swap_sys h)
                   = (Ret (tx, expected), swap_sys h')
       | Ret None => exists m, swap_state h' = Drift.Error m
       | Throw _ => False
       end.
Proof.
  intros build pk input output amount h h' o. unfold buildSwap.
  destruct pk as [key|].
  - unfold try_catch, bind, in_swap_sys, set_swap_state, ret.
    cbn [swap_sys swap_state quote expectedOutput].
    destruct (build key input output amount (swap_sys h)) as [[[tx expected]|e] s1] eqn:B;
      intros H; inversion H; subst; cbn [swap_sys swap_state quote expectedOutput fst].
    + repeat split. exists key, expected. split; [reflexivity | exact B].
    + repeat split. eauto.
  - intros H. inversion H; subst. cbn. repeat split. eauto.
Qed.

Lemma buildSwap_keeps_no_quote_witness :
  buildSwap test_swap (Some payer) SOL JUP (1 # 10) fresh_swap_hook
  = (Ret (Some (unsigned payer "blockhash" [])),
     {| quote := None; expectedOutput := None;
        swap_state := Drift.Success (unsigned payer "blockhash" []);
        swap_sys := s0 |})
  /\ expectedOutput
       {| quote := None; expectedOutput := None;
          swap_state := Drift.Success (unsigned payer "blockhash" []);
          swap_sys := s0 |}
     = expectedOutput fresh_swap_hook.
Proof.
  assert (H : buildSwap test_swap (Some payer) SOL JUP (1 # 10) fresh_swap_hook
              = (Ret (Some (unsigned payer "blockhash" [])),
                 {| quote := None; expectedOutput := None;
                    swap_state := Drift.Success (unsigned payer "blockhash" []);
                    swap_sys := s0 |})) by reflexivity.
  split; [exact H|].
  exact (proj1 (proj2 (buildSwap_keeps_no_quote _ _ _ _ _ _ _ _ H))).
Defined.

End TransferProperties.
